(** * FSD-ML hybrid recommendation engine: a shallow embedding

    The development follows [Backend/ml/recommenders]:
    - [collaborative_filter.py]  (class [CollaborativeFilter]),
    - [gnn_recommender.py]       (class [GNNRecommender], inference only),
    - [content_based.py]         (class [ContentBasedRecommender]),
    - [hybrid_ensemble.py]       (class [HybridEnsemble]).

    Conventions.
    - Scores are rationals ([Q]); the rounding of IEEE doubles is outside
      the model, and equality of scores is [Qeq] unless a value is returned
      untouched, in which case it is Leibniz equality.
    - A Python [dict] that is iterated is an association list in insertion
      order; a dict that is only looked up is a [gmap].
    - An exception is a value of type [exn]; a call that may raise returns
      [result].  Methods that assign to [self] are written in a state and
      exception monad over the receiver.
    - [top_k] and other counts are natural numbers. *)

From Stdlib Require Import QArith Qminmax Qround Lqa.
From Stdlib Require Import Sorting.Sorted Sorting.Permutation.
From Stdlib Require OrdersEx.
From stdpp Require Import gmap strings list pretty.

Local Open Scope Q_scope.
Local Open Scope string_scope.
Local Open Scope list_scope.

(** ** Exceptions *)

Inductive exn : Type :=
| ZeroDivisionError
| IndexError
| ValueError
| RuntimeError.

Inductive result (A : Type) : Type :=
| Ok (a : A)
| Raise (e : exn).
Arguments Ok {A} a.
Arguments Raise {A} e.

#[global] Instance result_ret : MRet result := fun _ a => Ok a.
#[global] Instance result_bind : MBind result := fun _ _ k r =>
  match r with
  | Ok a => k a
  | Raise e => Raise e
  end.

(** A list comprehension whose body may raise: the first exception wins. *)
Fixpoint rmap {A B} (f : A -> result B) (l : list A) : result (list B) :=
  match l with
  | [] => Ok []
  | x :: l' =>
      y ← f x; ys ← rmap f l'; mret (y :: ys)
  end.

(** A comprehension with a filter: [None] drops the element. *)
Fixpoint romap {A B} (f : A -> result (option B)) (l : list A)
  : result (list B) :=
  match l with
  | [] => Ok []
  | x :: l' =>
      y ← f x; ys ← romap f l';
      mret (match y with Some b => b :: ys | None => ys end)
  end.

(** ** Python built-ins used by the recommenders *)

Module Py.

(** [min(values)] and [max(values)]: the first extremal element. *)
Definition min (values : list Q) : Q :=
  match values with
  | [] => 0
  | v :: rest => fold_left (fun m y => if Qlt_le_dec y m then y else m) rest v
  end.

Definition max (values : list Q) : Q :=
  match values with
  | [] => 0
  | v :: rest => fold_left (fun m y => if Qlt_le_dec m y then y else m) rest v
  end.

(** [l.sort(key=key, reverse=True)] and [sorted(l, key=key, reverse=True)].
    Python's sort is stable, also with [reverse=True]; the result of a
    stable sort is unique, so it is given here by insertion. *)
Fixpoint insert_desc {A} (key : A -> Q) (x : A) (l : list A) : list A :=
  match l with
  | [] => [x]
  | y :: l' =>
      if Qlt_le_dec (key x) (key y) then y :: insert_desc key x l'
      else x :: l
  end.

Definition sort_desc {A} (key : A -> Q) (l : list A) : list A :=
  fold_right (insert_desc key) [] l.

(** The order of a list sorted that way: keys do not increase. *)
Definition desc {A} (key : A -> Q) (a b : A) : Prop := key b <= key a.

(** [numpy.argsort(values)]: the indices in ascending order of value
    (equal values keep their index order). *)
Fixpoint insert_asc {A} (key : A -> Q) (x : A) (l : list A) : list A :=
  match l with
  | [] => [x]
  | y :: l' =>
      if Qlt_le_dec (key y) (key x) then y :: insert_asc key x l'
      else x :: l
  end.

Definition argsort (values : list Q) : list nat :=
  map fst
    (fold_right (insert_asc snd) [] (combine (seq 0 (length values)) values)).

(** [l[:n]] and [l[a:b]] for non-negative bounds. *)
Definition slice_to {A} (n : nat) (l : list A) : list A := firstn n l.
Definition slice {A} (a b : nat) (l : list A) : list A :=
  firstn (b - a) (skipn a l).

(** [x in l] for a list of strings. *)
Definition contains (x : string) (l : list string) : bool :=
  existsb (String.eqb x) l.

(** [vec_a @ vec_b] on one-dimensional arrays. *)
Fixpoint dot (a b : list Q) : result Q :=
  match a, b with
  | [], [] => Ok 0
  | x :: a', y :: b' => r ← dot a' b'; mret (x * y + r)
  | _, _ => Raise ValueError
  end.

(** [arr[i]] on an array. *)
Definition index {A} (arr : list A) (i : nat) : result A :=
  match arr !! i with
  | Some v => Ok v
  | None => Raise IndexError
  end.

End Py.

(** ** Dictionaries in insertion order *)

Module Dict.

Definition t (V : Type) : Type := list (string * V).

Fixpoint get {V} (k : string) (d : t V) : option V :=
  match d with
  | [] => None
  | (k', v) :: d' => if String.eqb k k' then Some v else get k d'
  end.

(** [d[k] = v]: an existing key keeps its position. *)
Fixpoint set {V} (k : string) (v : V) (d : t V) : t V :=
  match d with
  | [] => [(k, v)]
  | (k', v') :: d' =>
      if String.eqb k k' then (k', v) :: d' else (k', v') :: set k v d'
  end.

Definition keys {V} (d : t V) : list string := map fst d.
Definition mem {V} (k : string) (d : t V) : bool :=
  match get k d with Some _ => true | None => false end.

(** [{key(x): val(x) for x in l}] *)
Definition comprehension {A V} (kv : A -> string * V) (l : list A) : t V :=
  fold_left (fun d x => set (fst (kv x)) (snd (kv x)) d) l [].

(** The value a key ends up with when the pairs of [l] are stored one
    after the other: that of its last occurrence. *)
Fixpoint last_value {V} (k : string) (l : list (string * V)) : option V :=
  match l with
  | [] => None
  | (k', v) :: l' =>
      match last_value k l' with
      | Some v' => Some v'
      | None => if String.eqb k k' then Some v else None
      end
  end.

(** [set(a) | set(b)] listed without repetition.  The iteration order of
    a Python set is unspecified; first occurrence is used here and no
    theorem below depends on it. *)
Fixpoint dedup (seen l : list string) : list string :=
  match l with
  | [] => []
  | k :: l' =>
      if Py.contains k seen then dedup seen l' else k :: dedup (k :: seen) l'
  end.

Definition union_keys (a b c : list string) : list string :=
  dedup [] (a ++ b ++ c).

End Dict.

(** ** collaborative_filter.py *)

Module CollaborativeFilter.

(** The attributes of a [CollaborativeFilter].  The numpy arrays that
    start as [None] are options; a two-dimensional array is the list of
    its rows. *)
Record t : Type := mk {
  n_factors : nat;
  user_factors : option (list (list Q));
  item_factors : option (list (list Q));
  user_bias : option (list Q);
  item_bias : option (list Q);
  global_bias : Q;
  user_id_map : gmap string nat;
  item_id_map : gmap string nat;
  reverse_user_map : gmap nat string;
  reverse_item_map : gmap nat string;
  is_trained : bool
}.

(** [__init__] *)
Definition init (n_factors : nat) : t :=
  {| n_factors := n_factors;
     user_factors := None; item_factors := None;
     user_bias := None; item_bias := None;
     global_bias := 0;
     user_id_map := ∅; item_id_map := ∅;
     reverse_user_map := ∅; reverse_item_map := ∅;
     is_trained := false |}.

(** [{id: idx for idx, id in enumerate(unique)}] and its reverse, as
    built by [_create_interaction_matrix] from the sorted set of ids. *)
Definition id_index (unique : list string) : gmap string nat :=
  list_to_map (zip unique (seq 0 (length unique))).

Definition reverse_index (unique : list string) : gmap nat string :=
  list_to_map (zip (seq 0 (length unique)) unique).

(** [predict] *)
Definition predict (self : t) (user_id : string) (item_ids : list string)
  : result (list Q) :=
  if negb (is_trained self) then
    Ok (repeat 0 (length item_ids))
  else
    match user_id_map self !! user_id with
    | None =>
        (* cold start: item popularity *)
        match item_bias self with
        | Some item_bias =>
            rmap (fun item_id =>
                    if decide (is_Some (item_id_map self !! item_id)) then
                      b ← Py.index item_bias
                            (default 0%nat (item_id_map self !! item_id));
                      mret (global_bias self + b)
                    else mret (global_bias self))
                 item_ids
        | None => Ok (map (fun _ => global_bias self) item_ids)
        end
    | Some user_idx =>
        rmap (fun item_id =>
                match item_id_map self !! item_id with
                | None =>
                    (* item not seen during training *)
                    match user_bias self with
                    | Some user_bias =>
                        b ← Py.index user_bias user_idx;
                        mret (global_bias self + b)
                    | None => mret (global_bias self)
                    end
                | Some item_idx =>
                    match user_bias self, item_bias self,
                          user_factors self, item_factors self with
                    | Some user_bias, Some item_bias,
                      Some user_factors, Some item_factors =>
                        bu ← Py.index user_bias user_idx;
                        bi ← Py.index item_bias item_idx;
                        pu ← Py.index user_factors user_idx;
                        qi ← Py.index item_factors item_idx;
                        d ← Py.dot pu qi;
                        mret (global_bias self + bu + bi + d)
                    | _, _, _, _ => mret (global_bias self)
                    end
                end)
             item_ids
    end.

(** [recommend_items] *)
Definition recommend_items (self : t) (user_id : string)
    (item_candidates : list string) (top_k : nat)
  : result (list (string * Q)) :=
  match item_candidates with
  | [] => Ok []
  | _ =>
      scores ← predict self user_id item_candidates;
      let recommendations := zip item_candidates scores in
      let recommendations := Py.sort_desc snd recommendations in
      mret (Py.slice_to top_k recommendations)
  end.

(** [get_similar_items] *)
Definition get_similar_items (self : t) (item_id : string) (top_k : nat)
  : result (list (string * Q)) :=
  match is_trained self, item_id_map self !! item_id, item_factors self with
  | true, Some item_idx, Some item_factors =>
      item_vector ← Py.index item_factors item_idx;
      (* similarities with all items *)
      similarities ← rmap (fun row => Py.dot row item_vector) item_factors;
      (* top-k (excluding the item itself) *)
      let similar_indices :=
        Py.slice 1 (top_k + 1) (rev (Py.argsort similarities)) in
      romap (fun idx =>
               match reverse_item_map self !! idx with
               | Some name =>
                   s ← Py.index similarities idx; mret (Some (name, s))
               | None => mret None
               end)
            similar_indices
  | _, _, _ => Ok []
  end.

(** What a completed [train] leaves behind: the flag is set, the four
    arrays exist with one row per indexed user or item, every row of the
    factor arrays has the same number of columns, and every index stored
    in the id maps is a row of those arrays. *)
Record trained (self : t) : Prop := {
  trained_flag : is_trained self = true;
  trained_shape :
    ∃ ub ib uf itf k,
      user_bias self = Some ub ∧ item_bias self = Some ib ∧
      user_factors self = Some uf ∧ item_factors self = Some itf ∧
      length uf = length ub ∧ length itf = length ib ∧
      Forall (fun row => length row = k) uf ∧
      Forall (fun row => length row = k) itf ∧
      map_Forall (fun _ idx => (idx < length ub)%nat) (user_id_map self) ∧
      map_Forall (fun _ idx => (idx < length ib)%nat) (item_id_map self)
}.

(** The state [train] installs for the sorted id sets [users], [items]
    and the arrays computed by [_train_svd] or [_train_als]. *)
Definition fitted (n_factors : nat) (users items : list string)
    (gb : Q) (uf itf : list (list Q)) (ub ib : list Q) : t :=
  {| n_factors := n_factors;
     user_factors := Some uf; item_factors := Some itf;
     user_bias := Some ub; item_bias := Some ib;
     global_bias := gb;
     user_id_map := id_index users; item_id_map := id_index items;
     reverse_user_map := reverse_index users;
     reverse_item_map := reverse_index items;
     is_trained := true |}.

(** The score of one item as the loops of [predict] compute it, with the
    case it falls in. *)
Definition item_score_case (self : t) (user_id item_id : string) (s : Q)
  : Prop :=
  match user_id_map self !! user_id, item_id_map self !! item_id with
  | None, Some i =>
      exists ib b, item_bias self = Some ib /\ ib !! i = Some b /\
        s = global_bias self + b
  | None, None => s = global_bias self
  | Some u, None =>
      exists ub b, user_bias self = Some ub /\ ub !! u = Some b /\
        s = global_bias self + b
  | Some u, Some i =>
      exists ub ib uf itf bu bi pu qi d,
        user_bias self = Some ub /\ item_bias self = Some ib /\
        user_factors self = Some uf /\ item_factors self = Some itf /\
        ub !! u = Some bu /\ ib !! i = Some bi /\
        uf !! u = Some pu /\ itf !! i = Some qi /\ Py.dot pu qi = Ok d /\
        s = global_bias self + bu + bi + d
  end.

End CollaborativeFilter.

(** ** gnn_recommender.py (inference) *)

Module GNNRecommender.

(** [self.model] together with the embeddings its forward pass
    [self.model(self.edge_index)] returns in evaluation mode; they are a
    function of the trained tables and the fixed graph.  [LightGCN]
    returns user and item tables, [GraphSAGE] one table for all nodes. *)
Inductive model : Type :=
| LightGCN (user_emb item_emb : list (list Q))
| GraphSAGE (embeddings : list (list Q)).

Record t : Type := mk {
  TORCH_AVAILABLE : bool;
  gmodel : option model;
  user_id_map : gmap string nat;
  item_id_map : gmap string nat;
  is_trained : bool
}.

(** [(user_vec * item_vec).sum().item()] *)
Definition mul_sum (a b : list Q) : result Q :=
  match Py.dot a b with
  | Ok v => Ok v
  | Raise _ => Raise RuntimeError
  end.

(** [recommend_items] *)
Definition recommend_items (self : t) (user_id : string)
    (item_candidates : list string) (top_k : nat)
  : result (list (string * Q)) :=
  if negb (is_trained self) || negb (TORCH_AVAILABLE self) then Ok []
  else
    match user_id_map self !! user_id with
    | None => Ok []                       (* cold start *)
    | Some user_idx =>
        scores ←
          match gmodel self with
          | Some (LightGCN user_emb item_emb) =>
              user_vec ← Py.index user_emb user_idx;
              romap (fun item_id =>
                       match item_id_map self !! item_id with
                       | Some item_idx =>
                           item_vec ← Py.index item_emb item_idx;
                           score ← mul_sum user_vec item_vec;
                           mret (Some (item_id, score))
                       | None => mret None
                       end)
                    item_candidates
          | Some (GraphSAGE embeddings) =>
              user_vec ← Py.index embeddings user_idx;
              romap (fun item_id =>
                       match item_id_map self !! item_id with
                       | Some item_idx =>
                           item_vec ← Py.index embeddings
                                        (item_idx + size (user_id_map self));
                           score ← mul_sum user_vec item_vec;
                           mret (Some (item_id, score))
                       | None => mret None
                       end)
                    item_candidates
          | None => Ok []
          end;
        mret (Py.slice_to top_k (Py.sort_desc snd scores))
    end.

End GNNRecommender.

(** ** Profile records

    The dictionaries produced by the feature-extraction layer
    ([data/user_features.py]).  A key read with [d.get(key, default)] is an
    option field; ['_id'] is always present and already a string there, so
    [str(d.get('_id'))] is the field itself.  List-valued keys whose default
    is the empty list and whose presence is never tested are plain lists. *)

Record UserData : Type := {
  interests : list string;
  skill_level : option string;
  streak : option Q;
  goal_categories : list string
}.

Record Profile : Type := {
  _id : string;
  (* mentors *)
  domains : option (list string);
  success_rate : option Q;
  active_mentees : option Q;
  (* sessions *)
  subject : option string;
  level : option string;
  duration : option Q;
  current_participants : option Q;
  max_participants : option Q;
  (* groups *)
  category : option string;
  members : option (list string);
  settings_maxMembers : option Q
}.

(** The empty dictionary [{}] handed to [explain_recommendation] when no
    candidate matches; no reader of it looks at ['_id']. *)
Definition empty_profile : Profile :=
  {| _id := ""; domains := None; success_rate := None; active_mentees := None;
     subject := None; level := None; duration := None;
     current_participants := None; max_participants := None;
     category := None; members := None; settings_maxMembers := None |}.

(** ** content_based.py *)

Module ContentBasedRecommender.

(** [str.lower()] on ASCII letters. *)
Definition lower_ascii (c : Ascii.ascii) : Ascii.ascii :=
  let n := Ascii.nat_of_ascii c in
  if ((65 <=? n) && (n <=? 90))%nat then Ascii.ascii_of_nat (n + 32) else c.

Fixpoint lower (s : string) : string :=
  match s with
  | EmptyString => EmptyString
  | String c s' => String (lower_ascii c) (lower s')
  end.

Definition subjects : list string :=
  ["mathematics"; "programming"; "data-science"; "machine-learning";
   "web-development"; "algorithms"; "databases"; "other"].

(** [{'beginner': 0.33, 'intermediate': 0.66, 'advanced': 1.0}.get(l, 0.66)] *)
Definition skill_mapping (l : string) : Q :=
  if String.eqb l "beginner" then 0.33
  else if String.eqb l "intermediate" then 0.66
  else if String.eqb l "advanced" then 1.0
  else 0.66.

Definition one_hot (present : string -> bool) (names : list string) : list Q :=
  map (fun n => if present n then 1 else 0) names.

(** [build_user_profile] *)
Definition build_user_profile (user_data : UserData) : list Q :=
  let subject_features :=
    one_hot (fun subj => Py.contains subj (interests user_data)) subjects in
  let skill := skill_mapping (default "intermediate" (skill_level user_data)) in
  let streak := default 0 (streak user_data) / 100 in
  let goal_features :=
    one_hot (fun cat => Py.contains cat (goal_categories user_data))
      ["skill-development"; "career"; "academic"; "project"; "certification"] in
  subject_features ++ [skill] ++ [Qmin streak 1] ++ goal_features.

(** [build_mentor_profile] *)
Definition build_mentor_profile (mentor_data : Profile) : list Q :=
  let mentor_domains := default [] (domains mentor_data) in
  let domain_features :=
    one_hot (fun subj => Py.contains subj mentor_domains) subjects in
  let success_rate := default 0.8 (success_rate mentor_data) in
  let active_mentees := default 0 (active_mentees mentor_data) in
  let availability_score := Qmax 0 (1 - active_mentees / 10) in
  domain_features ++ [1] ++ [success_rate] ++ [availability_score]
    ++ repeat 0 5.

(** [build_session_profile] *)
Definition build_session_profile (session_data : Profile) : list Q :=
  let session_subject := default "other" (subject session_data) in
  let subject_features :=
    one_hot (fun subj => String.eqb subj session_subject) subjects in
  let level := skill_mapping (default "intermediate" (level session_data)) in
  let duration := default 1 (duration session_data) / 4 in
  let participants := default 0 (current_participants session_data) in
  let popularity := Qmin (participants / 20) 1 in
  subject_features ++ [level] ++ [Qmin duration 1] ++ [popularity]
    ++ repeat 0 4.

Section WithCosine.

(** [sklearn.metrics.pairwise.cosine_similarity] on two row vectors. *)
Variable cosine_similarity : list Q -> list Q -> Q.

(** [calculate_similarity] *)
Definition calculate_similarity (profile1 profile2 : list Q) : Q :=
  let '(profile1, profile2) :=
    if negb (length profile1 =? length profile2)%nat then
      let min_len := Nat.min (length profile1) (length profile2) in
      (Py.slice_to min_len profile1, Py.slice_to min_len profile2)
    else (profile1, profile2) in
  Qmax 0 (cosine_similarity profile1 profile2).

(** [recommend_mentors] *)
Definition recommend_mentors (user_data : UserData)
    (mentor_list : list Profile) (top_k : nat) : list (string * Q) :=
  let user_profile := build_user_profile user_data in
  let recommendations :=
    map (fun mentor =>
           let mentor_profile := build_mentor_profile mentor in
           let similarity := calculate_similarity user_profile mentor_profile in
           let success_boost := default 0.8 (success_rate mentor) * 0.2 in
           let total_score := similarity * 0.8 + success_boost in
           (_id mentor, total_score))
        mentor_list in
  Py.slice_to top_k (Py.sort_desc snd recommendations).

(** [recommend_sessions]; the division by [max_participants] raises
    when that value is zero. *)
Definition recommend_sessions (user_data : UserData)
    (session_list : list Profile) (top_k : nat)
  : result (list (string * Q)) :=
  let user_profile := build_user_profile user_data in
  recommendations ←
    rmap (fun session =>
            let session_profile := build_session_profile session in
            let similarity :=
              calculate_similarity user_profile session_profile in
            let max_participants := default 20 (max_participants session) in
            let current_participants :=
              default 0 (current_participants session) in
            if Qeq_bool max_participants 0 then Raise ZeroDivisionError
            else
              let availability :=
                1 - current_participants / max_participants in
              let total_score := similarity * 0.9 + availability * 0.1 in
              mret (_id session, total_score))
         session_list;
  mret (Py.slice_to top_k (Py.sort_desc snd recommendations)).

End WithCosine.

(** [recommend_groups] *)
Definition recommend_groups (user_data : UserData)
    (group_list : list Profile) (top_k : nat) : list (string * Q) :=
  let user_interests := interests user_data in
  let recommendations :=
    omap (fun group =>
            let category := lower (default "General" (category group)) in
            let category_match :=
              if Py.contains category user_interests then 1.0 else 0.5 in
            let member_count :=
              inject_Z (Z.of_nat (length (default [] (members group)))) in
            let activity_score := Qmin (member_count / 30) 1 in
            let max_members := default 50 (settings_maxMembers group) in
            if Qlt_le_dec member_count max_members then
              Some (_id group, category_match * 0.6 + activity_score * 0.4)
            else None)
         group_list in
  Py.slice_to top_k (Py.sort_desc snd recommendations).

(** [', '.join(l)] and [" • ".join(l)] *)
Fixpoint join (sep : string) (l : list string) : string :=
  match l with
  | [] => ""
  | [x] => x
  | x :: l' => x +:+ sep +:+ join sep l'
  end.

(** [explain_recommendation].  The topics common to the user and the
    mentor are listed in the order of the user's interests (Python
    iterates a set here, in an unspecified order). *)
Definition explain_recommendation (user_data : UserData)
    (item_data : Profile) (item_type : string) : string :=
  let explanations :=
    if String.eqb item_type "mentor" then
      let mentor_domains := default [] (domains item_data) in
      let common_topics :=
        Dict.dedup []
          (List.filter (fun i => Py.contains i mentor_domains)
             (interests user_data)) in
      let e1 :=
        match common_topics with
        | [] => []
        | _ => ["Expertise in " +:+ join ", " (Py.slice_to 2 common_topics)]
        end in
      let success_rate := default 0 (success_rate item_data) in
      let e2 :=
        if Qlt_le_dec 0.8 success_rate then
          [pretty (Qfloor (success_rate * 100)) +:+ "% success rate"]
        else [] in
      e1 ++ e2
    else if String.eqb item_type "session" then
      let e1 :=
        if decide (skill_level user_data = level item_data) then
          ["Matches your " +:+ default "None" (level item_data) +:+ " level"]
        else [] in
      let e2 :=
        match subject item_data with
        | Some subj =>
            if Py.contains subj (interests user_data) then
              ["Based on your interest in " +:+ subj]
            else []
        | None => []
        end in
      e1 ++ e2
    else if String.eqb item_type "group" then
      ["Active group with "
         +:+ pretty (length (default [] (members item_data))) +:+ " members"]
    else [] in
  match explanations with
  | [] => "Recommended for you"
  | _ => join " • " explanations
  end.

End ContentBasedRecommender.

(** ** hybrid_ensemble.py *)

(** A dictionary with exactly the keys ['content'], ['collaborative'] and
    ['gnn'] ([self.weights], [self.models_ready]). *)
Module Keyed.
Record t (A : Type) : Type := mk { content : A; collaborative : A; gnn : A }.
Arguments mk {A}.
Arguments content {A}.
Arguments collaborative {A}.
Arguments gnn {A}.
End Keyed.

Module HybridEnsemble.

Record t : Type := mk {
  ensemble_method : string;
  collaborative : CollaborativeFilter.t;
  gnn : GNNRecommender.t;
  weights : Keyed.t Q;
  models_ready : Keyed.t bool
}.

Definition default_weights : Keyed.t Q := Keyed.mk 0.3 0.4 0.3.

(** [__init__]; the [GNNRecommender] starts untrained, without a model. *)
Definition init (ensemble_method : string) (torch : bool) : t :=
  {| ensemble_method := ensemble_method;
     collaborative := CollaborativeFilter.init 20;
     gnn := GNNRecommender.mk torch None ∅ ∅ false;
     weights := default_weights;
     models_ready := Keyed.mk true false false |}.

(** *** The receiver as state

    A method body is a function from the receiver to an outcome and the
    receiver as the body left it; after [Raise] the second component is
    the receiver at the point the exception escaped. *)
Definition M (A : Type) : Type := t -> result A * t.

#[global] Instance M_ret : MRet M := fun _ a self => (Ok a, self).
#[global] Instance M_bind : MBind M := fun _ _ k m self =>
  match m self with
  | (Ok a, self') => k a self'
  | (Raise e, self') => (Raise e, self')
  end.

Definition get_self : M t := fun self => (Ok self, self).
Definition lift {A} (r : result A) : M A := fun self => (r, self).

(** [self.weights = w] *)
Definition assign_weights (w : Keyed.t Q) : M unit := fun self =>
  (Ok tt,
   {| ensemble_method := ensemble_method self;
      collaborative := collaborative self;
      gnn := gnn self;
      weights := w;
      models_ready := models_ready self |}).

(** [set_weights] *)
Definition set_weights (content collaborative gnn : Q) : M unit :=
  let total := content + collaborative + gnn in
  if Qeq_bool total 0 then lift (Raise ZeroDivisionError)
  else
    assign_weights
      (Keyed.mk (content / total) (collaborative / total) (gnn / total)).

(** [_normalize_scores] *)
Definition _normalize_scores (scores : list (string * Q)) : Dict.t Q :=
  match scores with
  | [] => []
  | _ =>
      let score_values := map snd scores in
      let min_score := Py.min score_values in
      let max_score := Py.max score_values in
      if Qeq_bool max_score min_score then
        (* all scores are the same *)
        Dict.comprehension (fun s => (fst s, 0.5)) scores
      else
        fold_left
          (fun normalized s =>
             let norm_score := (snd s - min_score) / (max_score - min_score) in
             Dict.set (fst s) norm_score normalized)
          scores []
  end.

(** Vocabulary for the normalization property. *)
Definition all_equal (scores : list (string * Q)) : Prop :=
  forall p q, In p scores -> In q scores -> snd p == snd q.

Definition is_max_score (s : Q) (scores : list (string * Q)) : Prop :=
  forall p, In p scores -> snd p <= s.

Definition is_min_score (s : Q) (scores : list (string * Q)) : Prop :=
  forall p, In p scores -> s <= snd p.

(** "The max-scoring id maps to 1.0, min to 0.0, unless all scores are
    equal", read for every pair of the list. *)
Definition extremes_to_bounds (scores : list (string * Q)) : Prop :=
  forall id s, In (id, s) scores -> ~ all_equal scores ->
    (is_max_score s scores ->
       exists v, Dict.get id (_normalize_scores scores) = Some v /\ v == 1) /\
    (is_min_score s scores ->
       exists v, Dict.get id (_normalize_scores scores) = Some v /\ v == 0).

(** One model's share in [_weighted_ensemble]:
    [if item_id in scores and self.models_ready[m]: score += ...]. *)
Definition contribute (ready : bool) (weight : Q) (scores : Dict.t Q)
    (item_id : string) (acc : Q * Q) : Q * Q :=
  match Dict.get item_id scores with
  | Some v =>
      if ready then (fst acc + weight * v, snd acc + weight) else acc
  | None => acc
  end.

(** The body of the loop of [_weighted_ensemble]: the final score of one
    id, normalized by the weight actually applied. *)
Definition fused_score (self : t)
    (content_scores cf_scores gnn_scores : Dict.t Q) (item_id : string) : Q :=
  let acc := (0, 0) in
  let acc :=
    contribute (Keyed.content (models_ready self))
      (Keyed.content (weights self)) content_scores item_id acc in
  let acc :=
    contribute (Keyed.collaborative (models_ready self))
      (Keyed.collaborative (weights self)) cf_scores item_id acc in
  let acc :=
    contribute (Keyed.gnn (models_ready self))
      (Keyed.gnn (weights self)) gnn_scores item_id acc in
  let '(score, weight_sum) := acc in
  if Qlt_le_dec 0 weight_sum then score / weight_sum else score.

(** [_weighted_ensemble] *)
Definition _weighted_ensemble (self : t)
    (content_scores cf_scores gnn_scores : Dict.t Q) : Dict.t Q :=
  let all_items :=
    Dict.union_keys (Dict.keys content_scores) (Dict.keys cf_scores)
      (Dict.keys gnn_scores) in
  fold_left
    (fun final_scores item_id =>
       Dict.set item_id
         (fused_score self content_scores cf_scores gnn_scores item_id)
         final_scores)
    all_items [].

(** [_context_aware_routing] *)
Definition _context_aware_routing (user_id : string) (user_data : UserData)
    (recommendation_type : string) : Keyed.t Q :=
  let adaptive_weights := Keyed.mk 0.3 0.4 0.3 in
  let user_activity := default 0 (streak user_data) in
  let adaptive_weights :=
    if Qlt_le_dec user_activity 5 then Keyed.mk 0.7 0.2 0.1
    else if Qlt_le_dec 30 user_activity then Keyed.mk 0.2 0.4 0.4
    else adaptive_weights in
  let adaptive_weights :=
    if String.eqb recommendation_type "mentor" then
      Keyed.mk (Keyed.content adaptive_weights + 0.1)
        (Keyed.collaborative adaptive_weights)
        (Keyed.gnn adaptive_weights - 0.1)
    else if String.eqb recommendation_type "group" then
      Keyed.mk (Keyed.content adaptive_weights - 0.15)
        (Keyed.collaborative adaptive_weights)
        (Keyed.gnn adaptive_weights + 0.15)
    else adaptive_weights in
  let total :=
    Keyed.content adaptive_weights + Keyed.collaborative adaptive_weights
      + Keyed.gnn adaptive_weights in
  Keyed.mk (Keyed.content adaptive_weights / total)
    (Keyed.collaborative adaptive_weights / total)
    (Keyed.gnn adaptive_weights / total).

(** The three stages of [_cascading_ensemble], named so that the
    candidate set between two stages can be spoken of. *)

(** Stage 1: the graph model proposes a broad candidate set. *)
Definition cascading_stage1 (self : t) (user_id : string)
    (item_candidates : list string) (top_k : nat) : result (list string) :=
  if Keyed.gnn (models_ready self) then
    gnn_candidates ←
      GNNRecommender.recommend_items (gnn self) user_id item_candidates
        (Nat.min (length item_candidates) (top_k * 5));
    mret (map fst gnn_candidates)
  else Ok (Py.slice_to (top_k * 3) item_candidates).   (* fallback *)

(** Stage 2: collaborative filtering ranks the candidates. *)
Definition cascading_stage2 (self : t) (user_id : string)
    (candidate_ids : list string) (top_k : nat) : result (list string) :=
  if Keyed.collaborative (models_ready self)
     && negb (bool_decide (candidate_ids = [])) then
    cf_recommendations ←
      CollaborativeFilter.recommend_items (collaborative self) user_id
        candidate_ids (top_k * 2);
    mret (map fst cf_recommendations)
  else Ok candidate_ids.

(** Vocabulary for the range of scores. *)
Definition in_unit (q : Q) : Prop := 0 <= q /\ q <= 1.

Definition unit_dict (d : Dict.t Q) : Prop :=
  Forall (fun p => in_unit (snd p)) d.

Definition scores_in_unit (recs : list (string * Q * string)) : Prop :=
  Forall (fun r => in_unit (snd (fst r))) recs.

Definition nonneg_weights (w : Keyed.t Q) : Prop :=
  0 <= Keyed.content w /\ 0 <= Keyed.collaborative w /\ 0 <= Keyed.gnn w.

(** The cosine of two vectors is at most 1. *)
Definition cosine_bounded (cosine_similarity : list Q -> list Q -> Q) : Prop :=
  forall a b, cosine_similarity a b <= 1.

(** A mentor record: ['domains'] is present and ['success_rate'], when
    present, is a rate. *)
Definition mentor_record (m : Profile) : Prop :=
  is_Some (domains m) /\ forall r, success_rate m = Some r -> in_unit r.

(** The receiver with another weight dictionary. *)
Definition with_weights (self : t) (w : Keyed.t Q) : t :=
  snd (assign_weights w self).

(** A method body that leaves the receiver as it found it, whatever the
    outcome, and whose result, when it returns one, satisfies [P]. *)
Definition keeps {A} (self : t) (m : M A) (P : A -> Prop) : Prop :=
  snd (m self) = self /\ forall a, fst (m self) = Ok a -> P a.

Section WithCosine.

Variable cosine_similarity : list Q -> list Q -> Q.

(** Stage 3: the content model personalizes the final ranking. *)
Definition cascading_stage3 (user_data : UserData)
    (items_data : list Profile) (candidate_ids : list string)
    (top_k : nat) : result (list (string * Q)) :=
  let candidate_items_data :=
    List.filter (fun item => Py.contains (_id item) candidate_ids)
      items_data in
  match candidate_items_data with
  | first :: _ =>
      if bool_decide (is_Some (domains first)) then
        Ok (ContentBasedRecommender.recommend_mentors cosine_similarity
              user_data candidate_items_data top_k)
      else if bool_decide (is_Some (subject first)) then
        ContentBasedRecommender.recommend_sessions cosine_similarity
          user_data candidate_items_data top_k
      else
        Ok (ContentBasedRecommender.recommend_groups
              user_data candidate_items_data top_k)
  | [] => Ok (map (fun cid => (cid, 0.5)) (Py.slice_to top_k candidate_ids))
  end.

(** [_cascading_ensemble] *)
Definition _cascading_ensemble (self : t) (user_id : string)
    (item_candidates : list string) (user_data : UserData)
    (items_data : list Profile) (top_k : nat)
  : result (list (string * Q)) :=
  candidate_ids ← cascading_stage1 self user_id item_candidates top_k;
  candidate_ids ← cascading_stage2 self user_id candidate_ids top_k;
  cascading_stage3 user_data items_data candidate_ids top_k.

(** "The full candidate list if the graph model isn't ready", as a
    property of stage 1. *)
Definition unready_graph_keeps_all (self : t) (user_id : string)
    (item_candidates : list string) (top_k : nat) : Prop :=
  Keyed.gnn (models_ready self) = false ->
  cascading_stage1 self user_id item_candidates top_k = Ok item_candidates.

(** "The collaborative model narrows to 2 x top_k", as a property of
    stage 2: of the ids it is given it keeps [2 * top_k], or all of them
    when there are fewer. *)
Definition collaborative_narrows (self : t) (user_id : string)
    (candidate_ids : list string) (top_k : nat) : Prop :=
  forall s2,
    cascading_stage2 self user_id candidate_ids top_k = Ok s2 ->
    length s2 = Nat.min (top_k * 2) (length candidate_ids).

(** The loop that attaches an explanation to every ranked id. *)
Definition explain_all (user_data : UserData) (candidates : list Profile)
    (item_type : string) (ranked : list (string * Q))
  : list (string * Q * string) :=
  map (fun r =>
         let item_data :=
           default empty_profile
             (find (fun m => String.eqb (_id m) (fst r)) candidates) in
         let explanation :=
           ContentBasedRecommender.explain_recommendation
             user_data item_data item_type in
         (fst r, snd r, explanation))
      ranked.

(** The collaborative and graph score dictionaries, computed the same
    way by the three [recommend_*] methods. *)
Definition cf_scores_of (user_id : string) (ids : list string)
  : M (Dict.t Q) :=
  self ← get_self;
  if Keyed.collaborative (models_ready self) then
    cf_recs ← lift (CollaborativeFilter.recommend_items
                      (collaborative self) user_id ids (length ids));
    mret (_normalize_scores cf_recs)
  else mret [].

Definition gnn_scores_of (user_id : string) (ids : list string)
  : M (Dict.t Q) :=
  self ← get_self;
  if Keyed.gnn (models_ready self) then
    gnn_recs ← lift (GNNRecommender.recommend_items
                       (gnn self) user_id ids (length ids));
    mret (_normalize_scores gnn_recs)
  else mret [].

(** [final_scores = self._weighted_ensemble(content_scores, cf_scores,
    gnn_scores)] under the weights the receiver holds at that moment. *)
Definition weighted_fusion (content_scores cf_scores gnn_scores : Dict.t Q)
  : M (Dict.t Q) :=
  self ← get_self;
  mret (_weighted_ensemble self content_scores cf_scores gnn_scores).

(** The block [old_weights = self.weights.copy(); self.weights =
    adaptive_weights; final_scores = ...; self.weights = old_weights]
    around a fusion step.  The two assignments are plain statements
    before and after the step, with no [try]/[finally]: an exception of
    the step leaves the block before the second assignment. *)
Definition override_block {A} (adaptive_weights : Keyed.t Q) (fusion : M A)
  : M A :=
  self ← get_self;
  let old_weights := weights self in
  assign_weights adaptive_weights;;
  final_scores ← fusion;
  assign_weights old_weights;;
  mret final_scores.

(** The context-aware branch of the [recommend_*] methods. *)
Definition context_aware_fusion (user_id : string) (user_data : UserData)
    (kind : string) (content_scores cf_scores gnn_scores : Dict.t Q)
  : M (Dict.t Q) :=
  let adaptive_weights := _context_aware_routing user_id user_data kind in
  override_block adaptive_weights
    (weighted_fusion content_scores cf_scores gnn_scores).


(** [sorted(final_scores.items(), key=lambda x: x[1], reverse=True)[:top_k]] *)
Definition rank (final_scores : Dict.t Q) (top_k : nat) : list (string * Q) :=
  Py.slice_to top_k (Py.sort_desc snd final_scores).

(** [recommend_mentors] *)
Definition recommend_mentors (user_id : string) (user_data : UserData)
    (mentor_candidates : list Profile) (top_k : nat)
  : M (list (string * Q * string)) :=
  match mentor_candidates with
  | [] => mret []
  | _ =>
      let mentor_ids := map _id mentor_candidates in
      let content_recs :=
        ContentBasedRecommender.recommend_mentors cosine_similarity
          user_data mentor_candidates (length mentor_candidates) in
      let content_scores := _normalize_scores content_recs in
      cf_scores ← cf_scores_of user_id mentor_ids;
      gnn_scores ← gnn_scores_of user_id mentor_ids;
      self ← get_self;
      if String.eqb (ensemble_method self) "weighted" then
        final_scores ← weighted_fusion content_scores cf_scores gnn_scores;
        mret (explain_all user_data mentor_candidates "mentor"
                (rank final_scores top_k))
      else if String.eqb (ensemble_method self) "context_aware" then
        final_scores ←
          context_aware_fusion user_id user_data "mentor"
            content_scores cf_scores gnn_scores;
        mret (explain_all user_data mentor_candidates "mentor"
                (rank final_scores top_k))
      else if String.eqb (ensemble_method self) "cascading" then
        cascading_recs ←
          lift (_cascading_ensemble self user_id mentor_ids user_data
                  mentor_candidates top_k);
        mret (explain_all user_data mentor_candidates "mentor"
                cascading_recs)
      else
        let final_scores := content_scores in    (* fallback *)
        mret (explain_all user_data mentor_candidates "mentor"
                (rank final_scores top_k))
  end.

(** [recommend_sessions] *)
Definition recommend_sessions (user_id : string) (user_data : UserData)
    (session_candidates : list Profile) (top_k : nat)
  : M (list (string * Q * string)) :=
  match session_candidates with
  | [] => mret []
  | _ =>
      let session_ids := map _id session_candidates in
      content_recs ←
        lift (ContentBasedRecommender.recommend_sessions cosine_similarity
                user_data session_candidates (length session_candidates));
      let content_scores := _normalize_scores content_recs in
      cf_scores ← cf_scores_of user_id session_ids;
      gnn_scores ← gnn_scores_of user_id session_ids;
      self ← get_self;
      final_scores ←
        (if String.eqb (ensemble_method self) "context_aware" then
           context_aware_fusion user_id user_data "session"
             content_scores cf_scores gnn_scores
         else weighted_fusion content_scores cf_scores gnn_scores);
      mret (explain_all user_data session_candidates "session"
              (rank final_scores top_k))
  end.

(** [recommend_groups] *)
Definition recommend_groups (user_id : string) (user_data : UserData)
    (group_candidates : list Profile) (top_k : nat)
  : M (list (string * Q * string)) :=
  match group_candidates with
  | [] => mret []
  | _ =>
      let group_ids := map _id group_candidates in
      let content_recs :=
        ContentBasedRecommender.recommend_groups
          user_data group_candidates (length group_candidates) in
      let content_scores := _normalize_scores content_recs in
      cf_scores ← cf_scores_of user_id group_ids;
      gnn_scores ← gnn_scores_of user_id group_ids;
      self ← get_self;
      final_scores ←
        (if String.eqb (ensemble_method self) "context_aware" then
           context_aware_fusion user_id user_data "group"
             content_scores cf_scores gnn_scores
         else weighted_fusion content_scores cf_scores gnn_scores);
      mret (explain_all user_data group_candidates "group"
              (rank final_scores top_k))
  end.

End WithCosine.

End HybridEnsemble.

(** ** More Python built-ins *)

Module PyStr.

(** [str(v)] for a value that is a string or [None]. *)
Definition str (v : option string) : string := default "None" v.

(** [pat in s] for strings. *)
Fixpoint substring_of (pat s : string) : bool :=
  String.prefix pat s
  || match s with
     | EmptyString => false
     | String _ s' => substring_of pat s'
     end.

(** [sorted(set(l))]: the distinct elements in increasing order (strings
    compare character by character, as Python compares code points). *)
Fixpoint insert_sorted (x : string) (l : list string) : list string :=
  match l with
  | [] => [x]
  | y :: l' =>
      match OrdersEx.String_as_OT.compare x y with
      | Eq => l
      | Lt => x :: l
      | Gt => y :: insert_sorted x l'
      end
  end.

Definition sorted_set (l : list string) : list string :=
  fold_right insert_sorted [] l.

End PyStr.

(** ** Interaction records

    The dictionaries [{'user_id', 'item_id', 'interaction_type', 'weight',
    'timestamp'}] that the builders produce and the models train on; the
    keys read with [.get(key, default)] are options. *)

Module Interaction.

Record t : Type := mk {
  user_id : string;
  item_id : string;
  interaction_type : option string;
  weight : option Q;
  timestamp : option string
}.

End Interaction.

(** ** collaborative_filter.py: the interaction matrix and the embeddings *)

Module CollaborativeFilterData.
Import CollaborativeFilter.

(** The table [interaction_weights] with [.get(type, 1.0)]. *)
Definition interaction_weights (ty : string) : Q :=
  if String.eqb ty "view" then 1.0
  else if String.eqb ty "join" then 2.0
  else if String.eqb ty "complete" then 3.0
  else if String.eqb ty "rate_positive" then 4.0
  else if String.eqb ty "bookmark" then 2.5
  else 1.0.

(** The weight one interaction contributes to the matrix. *)
Definition entry_weight (interaction : Interaction.t) : Q :=
  let weight :=
    interaction_weights
      (default "view" (Interaction.interaction_type interaction)) in
  weight * default 1.0 (Interaction.weight interaction).

(** [scipy.sparse.csr_matrix((data, (row_indices, col_indices)),
    shape=...)]: a matrix of the given shape in which a cell holds the sum
    of the data given for it, in the order given, and zero when none is
    given.  [None] stands for the [ValueError] of an index outside the
    shape. *)
Record matrix : Type := mk_matrix {
  shape : nat * nat;
  cells : gmap (nat * nat) Q
}.

(** [m[row, col]] *)
Definition cell (m : matrix) (row col : nat) : Q :=
  default 0 (cells m !! (row, col)).

Definition add_entry (cells : gmap (nat * nat) Q) (e : nat * nat * Q)
  : gmap (nat * nat) Q :=
  <[fst e := default 0 (cells !! fst e) + snd e]> cells.

Definition csr_matrix (entries : list (nat * nat * Q)) (shape : nat * nat)
  : option matrix :=
  if forallb (fun e => (fst (fst e) <? fst shape)%nat
                       && (snd (fst e) <? snd shape)%nat) entries
  then Some (mk_matrix shape (fold_left add_entry entries ∅))
  else None.

(** [_create_interaction_matrix]: the receiver with the id maps it
    stores, and the matrix returned.  [None] stands for an exception: a
    [KeyError] at [self.user_id_map[...]] or the [ValueError] of
    [csr_matrix]. *)
Definition _create_interaction_matrix (self : t)
    (interactions : list Interaction.t) : option (t * matrix) :=
  let unique_users := PyStr.sorted_set (map Interaction.user_id interactions) in
  let unique_items := PyStr.sorted_set (map Interaction.item_id interactions) in
  let self :=
    {| n_factors := n_factors self;
       user_factors := user_factors self; item_factors := item_factors self;
       user_bias := user_bias self; item_bias := item_bias self;
       global_bias := global_bias self;
       user_id_map := id_index unique_users;
       item_id_map := id_index unique_items;
       reverse_user_map := reverse_index unique_users;
       reverse_item_map := reverse_index unique_items;
       is_trained := is_trained self |} in
  let n_users := length unique_users in
  let n_items := length unique_items in
  entries ←
    mapM (fun interaction =>
            user_idx ← user_id_map self !! Interaction.user_id interaction;
            item_idx ← item_id_map self !! Interaction.item_id interaction;
            Some (user_idx, item_idx, entry_weight interaction))
         interactions;
  matrix ← csr_matrix entries (n_users, n_items);
  Some (self, matrix).

(** [get_user_embedding] and [get_item_embedding] *)
Definition get_user_embedding (self : t) (user_id : string)
  : result (list Q) :=
  match is_trained self, user_id_map self !! user_id, user_factors self with
  | true, Some user_idx, Some user_factors => Py.index user_factors user_idx
  | _, _, _ => Ok (repeat 0 (n_factors self))
  end.

Definition get_item_embedding (self : t) (item_id : string)
  : result (list Q) :=
  match is_trained self, item_id_map self !! item_id, item_factors self with
  | true, Some item_idx, Some item_factors => Py.index item_factors item_idx
  | _, _, _ => Ok (repeat 0 (n_factors self))
  end.

End CollaborativeFilterData.

(** ** gnn_recommender.py: the graph *)

Module GNNGraph.

(** What [build_graph] computes when PyTorch is available: the id maps
    and [edge_list], in which an item's node is its index shifted by the
    number of users and every interaction gives an edge in each
    direction.  [None] stands for a [KeyError]. *)
Record graph : Type := mk_graph {
  user_id_map : gmap string nat;
  item_id_map : gmap string nat;
  num_users : nat;
  num_items : nat;
  edge_list : list (nat * nat)
}.

Definition build_graph (interactions : list Interaction.t) : option graph :=
  let unique_users := PyStr.sorted_set (map Interaction.user_id interactions) in
  let unique_items := PyStr.sorted_set (map Interaction.item_id interactions) in
  let user_id_map := CollaborativeFilter.id_index unique_users in
  let item_id_map := CollaborativeFilter.id_index unique_items in
  let num_users := length unique_users in
  let num_items := length unique_items in
  edges ←
    mapM (fun interaction =>
            user_idx ← user_id_map !! Interaction.user_id interaction;
            i ← item_id_map !! Interaction.item_id interaction;
            let item_idx := (i + num_users)%nat in
            Some [(user_idx, item_idx); (item_idx, user_idx)])
         interactions;
  Some {| user_id_map := user_id_map; item_id_map := item_id_map;
          num_users := num_users; num_items := num_items;
          edge_list := concat edges |}.

End GNNGraph.

(** ** Stored documents

    The MongoDB documents the builders read.  An id is whatever the
    document holds, or [None] when the key is missing; the builders apply
    [str] to it. *)

Module Doc.

(** MentorshipRequest: ['learnerId'], ['mentorId'], ['status'],
    ['requestDate']. *)
Record Request : Type := {
  req_learnerId : option string;
  req_mentorId : option string;
  req_status : option string;
  req_requestDate : option string
}.

(** An entry of a session's ['participants']: ['userId'], ['status']. *)
Record Participant : Type := {
  part_userId : option string;
  part_status : option string
}.

(** StudySession: ['_id'], ['participants'], ['organizer'],
    ['sessionDate']. *)
Record Session : Type := {
  sess_id : option string;
  sess_participants : list Participant;
  sess_organizer : option string;
  sess_sessionDate : option string
}.

(** An entry of a group's ['members']: ['userId'], ['messageCount'],
    ['joinedAt']. *)
Record Member : Type := {
  mem_userId : option string;
  mem_messageCount : option Q;
  mem_joinedAt : option string
}.

(** Group: ['_id'], ['members']. *)
Record Group : Type := {
  grp_id : option string;
  grp_members : list Member
}.

(** Goal: ['menteeId'], ['mentorId'], ['status'], ['progressPercentage'],
    ['createdAt']. *)
Record Goal : Type := {
  goal_menteeId : option string;
  goal_mentorId : option string;
  goal_status : option string;
  goal_progressPercentage : option Q;
  goal_createdAt : option string
}.

(** Session feedback: ['userId'], ['sessionId'], ['rating'],
    ['createdAt']. *)
Record Feedback : Type := {
  fb_userId : option string;
  fb_sessionId : option string;
  fb_rating : option Q;
  fb_createdAt : option string
}.

End Doc.

(** ** data/graph_builder.py *)

Module GraphBuilder.

Record Edge : Type := mk_edge {
  source : string;
  target : string;
  edge_type : string;
  weight : Q
}.

(** [self.nodes] (four sets keyed by node type) and [self.edges]. *)
Record t : Type := mk {
  users : gset string;
  mentors : gset string;
  sessions : gset string;
  groups : gset string;
  edges : list Edge
}.

(** [__init__] *)
Definition init : t := mk ∅ ∅ ∅ ∅ [].

Definition add_user (u : string) (self : t) : t :=
  mk ({[u]} ∪ users self) (mentors self) (sessions self) (groups self)
     (edges self).
Definition add_mentor (m : string) (self : t) : t :=
  mk (users self) ({[m]} ∪ mentors self) (sessions self) (groups self)
     (edges self).
Definition add_session (s : string) (self : t) : t :=
  mk (users self) (mentors self) ({[s]} ∪ sessions self) (groups self)
     (edges self).
Definition add_group (g : string) (self : t) : t :=
  mk (users self) (mentors self) (sessions self) ({[g]} ∪ groups self)
     (edges self).
(** [self.edges.append(e)] *)
Definition append_edge (e : Edge) (self : t) : t :=
  mk (users self) (mentors self) (sessions self) (groups self)
     (edges self ++ [e]).

(** [add_user_mentor_edges] *)
Definition add_user_mentor_edges (self : t) (mentorship_requests : list Doc.Request)
  : t :=
  fold_left
    (fun self request =>
       let user_id := PyStr.str (Doc.req_learnerId request) in
       let mentor_id := PyStr.str (Doc.req_mentorId request) in
       let status := Doc.req_status request in
       let self := add_mentor mentor_id (add_user user_id self) in
       (* only accepted mentorships give an edge *)
       if decide (status = Some "accepted") then
         append_edge (mk_edge user_id mentor_id "mentored_by" 1.0) self
       else self)
    mentorship_requests self.

(** [add_user_session_edges] *)
Definition add_user_session_edges (self : t) (study_sessions : list Doc.Session)
  : t :=
  fold_left
    (fun self session =>
       let session_id := PyStr.str (Doc.sess_id session) in
       let self := add_session session_id self in
       fold_left
         (fun self participant =>
            let user_id := PyStr.str (Doc.part_userId participant) in
            let status := default "registered" (Doc.part_status participant) in
            let self := add_user user_id self in
            if Py.contains status ["completed"; "attended"; "registered"] then
              let weight := if String.eqb status "completed" then 1.0 else 0.7 in
              append_edge (mk_edge user_id session_id "attended" weight) self
            else self)
         (Doc.sess_participants session) self)
    study_sessions self.

(** The pairs [(member_ids[i], u)] for [u] in [member_ids[i+1:]], in the
    order of the two nested loops. *)
Fixpoint peer_pairs (member_ids : list string) : list (string * string) :=
  match member_ids with
  | [] => []
  | user_id_1 :: rest =>
      map (fun user_id_2 => (user_id_1, user_id_2)) rest ++ peer_pairs rest
  end.

(** [add_user_group_edges] *)
Definition add_user_group_edges (self : t) (groups : list Doc.Group) : t :=
  fold_left
    (fun self group =>
       let group_id := PyStr.str (Doc.grp_id group) in
       let self := add_group group_id self in
       let '(self, member_ids) :=
         fold_left
           (fun '(self, member_ids) member =>
              let user_id := PyStr.str (Doc.mem_userId member) in
              let self := add_user user_id self in
              let member_ids := member_ids ++ [user_id] in
              (append_edge (mk_edge user_id group_id "member_of" 1.0) self,
               member_ids))
           (Doc.grp_members group) (self, []) in
       (* co-membership *)
       fold_left
         (fun self pair =>
            append_edge (mk_edge (fst pair) (snd pair) "group_peer" 0.5) self)
         (peer_pairs member_ids) self)
    groups self.

(** [add_session_organizer_edges] *)
Definition add_session_organizer_edges (self : t)
    (study_sessions : list Doc.Session) : t :=
  fold_left
    (fun self session =>
       let session_id := PyStr.str (Doc.sess_id session) in
       let organizer_id := PyStr.str (Doc.sess_organizer session) in
       let self := add_user organizer_id (add_session session_id self) in
       append_edge (mk_edge organizer_id session_id "organizes" 1.5) self)
    study_sessions self.

(** [self.nodes[node_type]]; [None] stands for a [KeyError]. *)
Definition nodes (self : t) (node_type : string) : option (gset string) :=
  if String.eqb node_type "users" then Some (users self)
  else if String.eqb node_type "mentors" then Some (mentors self)
  else if String.eqb node_type "sessions" then Some (sessions self)
  else if String.eqb node_type "groups" then Some (groups self)
  else None.

(** The ['stats'] of [get_graph_data]. *)
Definition total_nodes (self : t) : nat :=
  (size (users self) + size (mentors self) + size (sessions self)
   + size (groups self))%nat.

(** [get_bipartite_graph]; the two node lists are in the iteration order
    of the sets. *)
Definition get_bipartite_graph (self : t) (node_type_1 node_type_2 : string)
  : option (list string * list string * list Edge) :=
  nodes_1 ← elements <$> nodes self node_type_1;
  nodes_2 ← elements <$> nodes self node_type_2;
  let bipartite_edges :=
    List.filter
      (fun edge =>
         if Py.contains (source edge) nodes_1 && Py.contains (target edge) nodes_2
         then true
         else Py.contains (source edge) nodes_2
              && Py.contains (target edge) nodes_1)
      (edges self) in
  Some (nodes_1, nodes_2, bipartite_edges).

(** An edge of a given type joins nodes of the kinds that type is for
    and carries the weight of that type. *)
Definition edge_typed (self : t) (e : Edge) : Prop :=
  source e ∈ users self /\
  ((edge_type e = "mentored_by" /\ target e ∈ mentors self /\ weight e = 1.0) \/
   (edge_type e = "attended" /\ target e ∈ sessions self /\
    (weight e = 1.0 \/ weight e = 0.7)) \/
   (edge_type e = "organizes" /\ target e ∈ sessions self /\ weight e = 1.5) \/
   (edge_type e = "member_of" /\ target e ∈ groups self /\ weight e = 1.0) \/
   (edge_type e = "group_peer" /\ target e ∈ users self /\ weight e = 0.5)).

Definition well_formed (self : t) : Prop := Forall (edge_typed self) (edges self).

(** The builder only grows: node sets get larger and edges are appended. *)
Definition extends (self self' : t) : Prop :=
  users self ⊆ users self' /\ mentors self ⊆ mentors self' /\
  sessions self ⊆ sessions self' /\ groups self ⊆ groups self' /\
  exists new, edges self' = edges self ++ new.

(** Whether a participant's status gives an edge. *)
Definition participated (p : Doc.Participant) : bool :=
  Py.contains (default "registered" (Doc.part_status p))
    ["completed"; "attended"; "registered"].

(** The edges one group gives: a [member_of] edge per member, then a
    [group_peer] edge per pair of members. *)
Definition member_ids (group : Doc.Group) : list string :=
  map (fun m => PyStr.str (Doc.mem_userId m)) (Doc.grp_members group).

Definition group_edges (group : Doc.Group) : list Edge :=
  let group_id := PyStr.str (Doc.grp_id group) in
  map (fun u => mk_edge u group_id "member_of" 1.0) (member_ids group)
  ++ map (fun p => mk_edge (fst p) (snd p) "group_peer" 0.5)
       (peer_pairs (member_ids group)).

(** The edges one session gives to [add_user_session_edges]. *)
Definition session_edges (session : Doc.Session) : list Edge :=
  let session_id := PyStr.str (Doc.sess_id session) in
  omap (fun p =>
          if participated p then
            Some (mk_edge (PyStr.str (Doc.part_userId p)) session_id "attended"
                    (if String.eqb (default "registered" (Doc.part_status p))
                                   "completed"
                     then 1.0 else 0.7))
          else None)
       (Doc.sess_participants session).

End GraphBuilder.

(** ** data/interaction_matrix.py *)

Module InteractionMatrixBuilder.

(** [self.interactions] is the whole state. *)
Definition t : Type := list Interaction.t.

Definition init : t := [].

(** [str(status) if status else 'pending']: a missing or empty status
    counts as the default. *)
Definition status_or (dflt : string) (status : option string) : string :=
  match status with
  | Some s => if String.eqb s "" then dflt else s
  | None => dflt
  end.

Definition mentorship_weights (status : string) : Q :=
  if String.eqb status "accepted" then 4.0
  else if String.eqb status "pending" then 1.0
  else if String.eqb status "declined" then 0.0
  else if String.eqb status "cancelled" then 0.5
  else 1.0.

(** [add_mentorship_interactions] *)
Definition add_mentorship_interactions (self : t)
    (mentorship_requests : list Doc.Request) : t :=
  fold_left
    (fun self request =>
       let user_id := PyStr.str (Doc.req_learnerId request) in
       let mentor_id := PyStr.str (Doc.req_mentorId request) in
       let status := Doc.req_status request in
       let weight := mentorship_weights (status_or "pending" status) in
       if Qlt_le_dec 0 weight then
         self ++ [Interaction.mk user_id mentor_id
                    (Some ("mentorship_" +:+ PyStr.str status))
                    (Some weight) (Doc.req_requestDate request)]
       else self)
    mentorship_requests self.

Definition session_weights (status : string) : Q :=
  if String.eqb status "completed" then 3.0
  else if String.eqb status "attended" then 2.5
  else if String.eqb status "registered" then 1.0
  else if String.eqb status "cancelled" then 0.0
  else 1.0.

(** [add_session_interactions] *)
Definition add_session_interactions (self : t)
    (study_sessions : list Doc.Session) : t :=
  fold_left
    (fun self session =>
       let session_id := PyStr.str (Doc.sess_id session) in
       fold_left
         (fun self participant =>
            let user_id := PyStr.str (Doc.part_userId participant) in
            let status := default "registered" (Doc.part_status participant) in
            let weight := session_weights status in
            if Qlt_le_dec 0 weight then
              self ++ [Interaction.mk user_id session_id
                         (Some ("session_" +:+ status))
                         (Some weight) (Doc.sess_sessionDate session)]
            else self)
         (Doc.sess_participants session) self)
    study_sessions self.

(** The weight of a group membership: 2.0 for joining, plus a boost for
    activity. *)
Definition membership_weight (message_count : Q) : Q :=
  let weight := 2.0 in
  if Qlt_le_dec 50 message_count then weight + 2.0
  else if Qlt_le_dec 10 message_count then weight + 1.0
  else if Qlt_le_dec 0 message_count then weight + 0.5
  else weight.

(** [add_group_interactions] *)
Definition add_group_interactions (self : t) (groups : list Doc.Group) : t :=
  fold_left
    (fun self group =>
       let group_id := PyStr.str (Doc.grp_id group) in
       fold_left
         (fun self member =>
            let user_id := PyStr.str (Doc.mem_userId member) in
            let message_count := default 0 (Doc.mem_messageCount member) in
            self ++ [Interaction.mk user_id group_id
                       (Some "group_membership")
                       (Some (membership_weight message_count))
                       (Doc.mem_joinedAt member)])
         (Doc.grp_members group) self)
    groups self.

Definition goal_base_weights (status : string) : Q :=
  if String.eqb status "achieved" then 5.0
  else if String.eqb status "active" then 3.0
  else if String.eqb status "delayed" then 2.0
  else if String.eqb status "cancelled" then 0.5
  else 3.0.

(** [add_goal_interactions] *)
Definition add_goal_interactions (self : t) (goals : list Doc.Goal) : t :=
  fold_left
    (fun self goal =>
       let mentee_id := PyStr.str (Doc.goal_menteeId goal) in
       let mentor_id := PyStr.str (Doc.goal_mentorId goal) in
       let status := Doc.goal_status goal in
       let progress := default 0 (Doc.goal_progressPercentage goal) in
       let weight := goal_base_weights (status_or "active" status) in
       let progress_boost := (progress / 100) * 2.0 in
       let weight := weight + progress_boost in
       self ++ [Interaction.mk mentee_id mentor_id
                  (Some ("goal_" +:+ PyStr.str status))
                  (Some weight) (Doc.goal_createdAt goal)])
    goals self.

(** [add_session_feedback] *)
Definition add_session_feedback (self : t) (feedback_records : list Doc.Feedback)
  : t :=
  fold_left
    (fun self feedback =>
       let user_id := PyStr.str (Doc.fb_userId feedback) in
       let session_id := PyStr.str (Doc.fb_sessionId feedback) in
       let rating := default 3 (Doc.fb_rating feedback) in
       let weight := rating / 5 * 3.0 in
       let interaction_type :=
         if Qlt_le_dec rating 4 then "rate_neutral" else "rate_positive" in
       self ++ [Interaction.mk user_id session_id (Some interaction_type)
                  (Some weight) (Doc.fb_createdAt feedback)])
    feedback_records self.

(** [[i for i in l if p(i['interaction_type'])]]; [None] stands for the
    [KeyError] of an interaction without that key. *)
Fixpoint filter_by_type (p : string -> bool) (l : list Interaction.t)
  : option (list Interaction.t) :=
  match l with
  | [] => Some []
  | i :: l' =>
      ty ← Interaction.interaction_type i;
      rest ← filter_by_type p l';
      Some (if p ty then i :: rest else rest)
  end.

(** [get_interactions_by_type] *)
Definition get_interactions_by_type (self : t) (item_type : string)
  : option t :=
  if String.eqb item_type "mentor" then
    filter_by_type
      (fun ty => PyStr.substring_of "mentorship" ty
                 || PyStr.substring_of "goal" ty)
      self
  else if String.eqb item_type "session" then
    filter_by_type (PyStr.substring_of "session") self
  else if String.eqb item_type "group" then
    filter_by_type (PyStr.substring_of "group") self
  else Some [].

(** [clear_interactions] *)
Definition clear_interactions (self : t) : t := [].

End InteractionMatrixBuilder.

(** ** utils/evaluation.py (the metrics that are rational) *)

Module Evaluation.

(** [a / b] for two counts. *)
Definition ratio (a b : nat) : Q :=
  inject_Z (Z.of_nat a) / inject_Z (Z.of_nat b).

(** [sum(1 for item in top_k if item in relevant_set)] *)
Definition hits (top_k : list string) (relevant_set : gset string) : nat :=
  length (List.filter (fun item => bool_decide (item ∈ relevant_set)) top_k).

(** [precision_at_k] *)
Definition precision_at_k (recommendations relevant_items : list string)
    (k : nat) : Q :=
  if (k =? 0)%nat || bool_decide (recommendations = []) then 0
  else
    let top_k := Py.slice_to k recommendations in
    let relevant_set : gset string := list_to_set relevant_items in
    ratio (hits top_k relevant_set) k.

(** [recall_at_k] *)
Definition recall_at_k (recommendations relevant_items : list string)
    (k : nat) : Q :=
  if bool_decide (relevant_items = []) || bool_decide (recommendations = [])
  then 0
  else
    let top_k := Py.slice_to k recommendations in
    let relevant_set : gset string := list_to_set relevant_items in
    ratio (hits top_k relevant_set) (size relevant_set).

(** The loop of [average_precision] from position [i] on, with the
    running [num_hits] and [score]. *)
Fixpoint ap_loop (relevant_set : gset string) (i : nat)
    (recommendations : list string) (num_hits : nat) (score : Q) : nat * Q :=
  match recommendations with
  | [] => (num_hits, score)
  | item :: rest =>
      if bool_decide (item ∈ relevant_set) then
        let num_hits := S num_hits in
        let precision := ratio num_hits (i + 1) in
        ap_loop relevant_set (S i) rest num_hits (score + precision)
      else ap_loop relevant_set (S i) rest num_hits score
  end.

(** [average_precision] *)
Definition average_precision (recommendations relevant_items : list string)
  : Q :=
  if bool_decide (relevant_items = []) || bool_decide (recommendations = [])
  then 0
  else
    let relevant_set : gset string := list_to_set relevant_items in
    let '(num_hits, score) := ap_loop relevant_set 0 recommendations 0 0 in
    if (num_hits =? 0)%nat then 0
    else score / inject_Z (Z.of_nat (size relevant_set)).

(** [float(np.mean(values))] *)
Definition mean (values : list Q) : Q :=
  fold_right Qplus 0 values / inject_Z (Z.of_nat (length values)).

(** [mean_average_precision] *)
Definition mean_average_precision (all_recommendations all_relevant
                                   : list (list string)) : result Q :=
  if negb (length all_recommendations =? length all_relevant)%nat then
    Raise ValueError
  else
    let ap_scores :=
      map (fun p => average_precision (fst p) (snd p))
          (zip all_recommendations all_relevant) in
    match ap_scores with
    | [] => Ok 0
    | _ => Ok (mean ap_scores)
    end.

(** [hit_rate_at_k] *)
Definition hit_rate_at_k (recommendations relevant_items : list string)
    (k : nat) : Q :=
  if bool_decide (recommendations = []) || bool_decide (relevant_items = [])
  then 0
  else
    let top_k : gset string := list_to_set (Py.slice_to k recommendations) in
    let relevant_set : gset string := list_to_set relevant_items in
    if bool_decide (top_k ∩ relevant_set ≠ ∅) then 1 else 0.

(** [coverage] *)
Definition coverage (all_recommendations : list (list string))
    (all_items : list string) : Q :=
  match all_items with
  | [] => 0
  | _ =>
      let recommended_items : gset string :=
        fold_left (fun s recs => s ∪ list_to_set recs) all_recommendations ∅ in
      ratio (size recommended_items) (length all_items)
  end.

End Evaluation.

(** ** hybrid_ensemble.py: performance tracking *)

Module Performance.

(** [self.performance_history] *)
Definition t : Type := Keyed.t (list Q).

Definition init : t := Keyed.mk [] [] [].

(** [history[-100:]] *)
Definition last_100 (history : list Q) : list Q :=
  skipn (length history - 100) history.

Definition record (history : list Q) (metric_value : Q) : list Q :=
  let history := history ++ [metric_value] in
  (* keep only recent history *)
  if (100 <? length history)%nat then last_100 history else history.

(** [update_performance] *)
Definition update_performance (self : t) (model_name : string)
    (metric_value : Q) : t :=
  if String.eqb model_name "content" then
    Keyed.mk (record (Keyed.content self) metric_value)
      (Keyed.collaborative self) (Keyed.gnn self)
  else if String.eqb model_name "collaborative" then
    Keyed.mk (Keyed.content self)
      (record (Keyed.collaborative self) metric_value) (Keyed.gnn self)
  else if String.eqb model_name "gnn" then
    Keyed.mk (Keyed.content self) (Keyed.collaborative self)
      (record (Keyed.gnn self) metric_value)
  else self.

End Performance.

(** ** data/user_features.py

    The feature dictionaries built from the stored documents.  The keys
    the recommenders read are kept in the records [UserData] and
    [Profile] above; the remaining keys of a feature dictionary stand
    beside them. *)

Module UserFeatures.

Definition subjects : list string :=
  ["mathematics"; "programming"; "data-science"; "machine-learning";
   "web-development"; "algorithms"; "databases"].

(** [s.replace('-', ' ')] *)
Fixpoint replace_hyphen (s : string) : string :=
  match s with
  | EmptyString => EmptyString
  | String c s' =>
      String
        (if (Ascii.nat_of_ascii c =? 45)%nat then Ascii.ascii_of_nat 32 else c)
        (replace_hyphen s')
  end.

(** User: ['_id'], ['bio'], ['streak']. *)
Record UserDoc : Type := {
  user_doc_id : option string;
  user_doc_bio : option string;
  user_doc_streak : option Q
}.

(** The result of [extract_user_features]: ['interests'],
    ['skill_level'], ['streak'] and ['goal_categories'] in [user_data],
    and the keys ['user_id'], ['activity_score'] and ['bio']. *)
Record UserFeatures : Type := {
  user_id : string;
  user_data : UserData;
  activity_score : Q;
  bio : string
}.

(** [subject_keyword in bio or subject in bio] *)
Definition mentions (text subject : string) : bool :=
  PyStr.substring_of (replace_hyphen subject) text
  || PyStr.substring_of subject text.

(** [extract_user_features] *)
Definition extract_user_features (user_doc : UserDoc) : UserFeatures :=
  let bio := ContentBasedRecommender.lower (default "" (user_doc_bio user_doc)) in
  let found := List.filter (mentions bio) subjects in
  let found :=
    match found with
    | [] => ["programming"]       (* default interest *)
    | _ => found
    end in
  let streak_value := default 0 (user_doc_streak user_doc) in
  let '(score, skill) :=
    if Qlt_le_dec 30 streak_value then (1.0, "advanced")
    else if Qlt_le_dec 10 streak_value then (0.6, "intermediate")
    else (0.3, "beginner") in
  {| user_id := PyStr.str (user_doc_id user_doc);
     user_data :=
       {| interests := found; skill_level := Some skill;
          streak := Some streak_value; goal_categories := [] |};
     activity_score := score;
     bio := default "" (user_doc_bio user_doc) |}.

(** Mentor: ['_id'], ['groups'], ['domainId']. *)
Record MentorDoc : Type := {
  mentor_doc_id : option string;
  mentor_doc_groups : option (list string);
  mentor_doc_domainId : option string
}.

(** The result of [extract_mentor_features]: ['_id'], ['domains'],
    ['success_rate'] and ['active_mentees'] in [mentor_profile], and the
    keys ['experience_level'] and ['availability']. *)
Record MentorFeatures : Type := {
  mentor_profile : Profile;
  experience_level : string;
  availability : Q
}.

(** [domain_mapping], in the order the dictionary is written and
    iterated. *)
Definition domain_mapping : list (string * string) :=
  [("math", "mathematics"); ("prog", "programming"); ("code", "programming");
   ("data", "data-science"); ("ml", "machine-learning");
   ("ai", "machine-learning"); ("web", "web-development");
   ("algo", "algorithms"); ("db", "databases"); ("database", "databases")].

(** [extract_mentor_features] *)
Definition extract_mentor_features (mentor_doc : MentorDoc) : MentorFeatures :=
  let mentees :=
    inject_Z (Z.of_nat (length (default [] (mentor_doc_groups mentor_doc)))) in
  let domain_id :=
    ContentBasedRecommender.lower
      (default "" (mentor_doc_domainId mentor_doc)) in
  let found_domains :=
    map snd
      (List.filter (fun kv => PyStr.substring_of (fst kv) domain_id)
         domain_mapping) in
  let found_domains :=
    match found_domains with
    | [] => ["programming"]
    | _ => found_domains
    end in
  {| mentor_profile :=
       {| _id := PyStr.str (mentor_doc_id mentor_doc);
          domains := Some found_domains;
          success_rate := Some 0.85;    (* default *)
          active_mentees := Some mentees;
          subject := None; level := None; duration := None;
          current_participants := None; max_participants := None;
          category := None; members := None; settings_maxMembers := None |};
     experience_level := "advanced";
     availability := Qmax 0.2 (1.0 - mentees / 10.0) |}.

(** Goal: ['category'], ['title'], ['description']. *)
Record GoalDoc : Type := {
  goal_doc_category : option string;
  goal_doc_title : option string;
  goal_doc_description : option string
}.

(** [get_user_goal_categories].  The categories that are present and not
    empty, without repetition; Python lists a set here, in an
    unspecified order, and first occurrence is used. *)
Definition get_user_goal_categories (goals : list GoalDoc) : list string :=
  Dict.dedup []
    (omap (fun goal =>
             match goal_doc_category goal with
             | Some category =>
                 if String.eqb category "" then None else Some category
             | None => None
             end)
       goals).

(** The loop of [enrich_user_features_with_goals] over one goal. *)
Definition add_goal_interests (found : list string) (goal : GoalDoc)
  : list string :=
  let title := ContentBasedRecommender.lower (default "" (goal_doc_title goal)) in
  let description :=
    ContentBasedRecommender.lower (default "" (goal_doc_description goal)) in
  let combined_text := title +:+ " " +:+ description in
  fold_left
    (fun found subject =>
       if PyStr.substring_of (replace_hyphen subject) combined_text
          && negb (Py.contains subject found)
       then found ++ [subject] else found)
    subjects found.

(** [enrich_user_features_with_goals] *)
Definition enrich_user_features_with_goals (user_features : UserFeatures)
    (goals : list GoalDoc) : UserFeatures :=
  let data := user_data user_features in
  {| user_id := user_id user_features;
     user_data :=
       {| interests := fold_left add_goal_interests goals (interests data);
          skill_level := skill_level data;
          streak := streak data;
          goal_categories := get_user_goal_categories goals |};
     activity_score := activity_score user_features;
     bio := bio user_features |}.

End UserFeatures.

(** ** Vocabulary for results drawn from the candidates *)

Module Candidates.

(** The ids of a score dictionary lie among the candidate ids. *)
Definition keys_within (ids : list string) (d : Dict.t Q) : Prop :=
  incl (Dict.keys d) ids.

(** At most [top_k] recommendations, each for a candidate id. *)
Definition within (ids : list string) (top_k : nat)
    (recs : list (string * Q * string)) : Prop :=
  (length recs <= top_k)%nat /\ incl (map (fun r => fst (fst r)) recs) ids.

End Candidates.

(** ** Sample states

    A collaborative filter fitted on one user and two items with one latent
    factor; item [b] has twice the factor of item [a]. *)
Module Sample.

Definition cf : CollaborativeFilter.t :=
  CollaborativeFilter.fitted 1 ["u1"] ["a"; "b"] 1
    [[1]] [[1]; [2]] [0] [0.5; 0.25].


Definition gnn : GNNRecommender.t :=
  GNNRecommender.mk true
    (Some (GNNRecommender.LightGCN [[1]] [[1]; [2]]))
    {["u1" := 0%nat]} (CollaborativeFilter.id_index ["a"; "b"]) true.

Definition cosine : list Q -> list Q -> Q := fun _ _ => 0.5.

Definition user : UserData :=
  {| interests := ["programming"]; skill_level := Some "beginner";
     streak := Some 3; goal_categories := [] |}.

Definition mentor (id : string) (rate : Q) : Profile :=
  {| _id := id; domains := Some ["programming"]; success_rate := Some rate;
     active_mentees := Some 2;
     subject := None; level := None; duration := None;
     current_participants := None; max_participants := None;
     category := None; members := None; settings_maxMembers := None |}.

(** A session record whose capacity is zero. *)
Definition closed_session : Profile :=
  {| _id := "s1"; domains := None; success_rate := None;
     active_mentees := None;
     subject := Some "programming"; level := Some "beginner";
     duration := Some 1; current_participants := Some 0;
     max_participants := Some 0;
     category := None; members := None; settings_maxMembers := None |}.

(** An ensemble whose collaborative and graph models are trained. *)
Definition ensemble (method : string) : HybridEnsemble.t :=
  {| HybridEnsemble.ensemble_method := method;
     HybridEnsemble.collaborative := cf;
     HybridEnsemble.gnn := gnn;
     HybridEnsemble.weights := HybridEnsemble.default_weights;
     HybridEnsemble.models_ready := Keyed.mk true true true |}.

End Sample.

(** ** Sample documents *)

Module Fixture.

Definition request (learner mentor : string) (status : option string)
  : Doc.Request :=
  {| Doc.req_learnerId := Some learner; Doc.req_mentorId := Some mentor;
     Doc.req_status := status; Doc.req_requestDate := None |}.

Definition requests : list Doc.Request :=
  [request "u1" "m1" (Some "accepted"); request "u2" "m1" (Some "pending");
   request "u3" "m2" (Some "declined"); request "u4" "m2" None].

Definition participant (user : string) (status : option string)
  : Doc.Participant :=
  {| Doc.part_userId := Some user; Doc.part_status := status |}.

(** A session with three completed participants, one who cancelled, and
    an organizer. *)
Definition session : Doc.Session :=
  {| Doc.sess_id := Some "s1";
     Doc.sess_participants :=
       [participant "u1" (Some "completed");
        participant "u2" (Some "completed");
        participant "u3" (Some "completed");
        participant "u4" (Some "cancelled")];
     Doc.sess_organizer := Some "u9";
     Doc.sess_sessionDate := None |}.

Definition member (user : string) (messages : Q) : Doc.Member :=
  {| Doc.mem_userId := Some user; Doc.mem_messageCount := Some messages;
     Doc.mem_joinedAt := None |}.

(** A group with four members. *)
Definition group : Doc.Group :=
  {| Doc.grp_id := Some "g1";
     Doc.grp_members :=
       [member "u1" 0; member "u2" 5; member "u3" 20; member "u4" 80] |}.

Definition goal (mentee mentor : string) (status : option string)
    (progress : Q) : Doc.Goal :=
  {| Doc.goal_menteeId := Some mentee; Doc.goal_mentorId := Some mentor;
     Doc.goal_status := status; Doc.goal_progressPercentage := Some progress;
     Doc.goal_createdAt := None |}.

Definition feedback (user session : string) (rating : Q) : Doc.Feedback :=
  {| Doc.fb_userId := Some user; Doc.fb_sessionId := Some session;
     Doc.fb_rating := Some rating; Doc.fb_createdAt := None |}.

Definition interaction (user item : string) : Interaction.t :=
  Interaction.mk user item None None None.

Definition user_doc : UserFeatures.UserDoc :=
  {| UserFeatures.user_doc_id := Some "u1";
     UserFeatures.user_doc_bio := Some "I love Data Science and Algorithms";
     UserFeatures.user_doc_streak := Some 12 |}.

Definition mentor_doc (id domain : string) : UserFeatures.MentorDoc :=
  {| UserFeatures.mentor_doc_id := Some id;
     UserFeatures.mentor_doc_groups := Some ["g1"; "g2"];
     UserFeatures.mentor_doc_domainId := Some domain |}.

Definition goal_doc (category title : string) : UserFeatures.GoalDoc :=
  {| UserFeatures.goal_doc_category := Some category;
     UserFeatures.goal_doc_title := Some title;
     UserFeatures.goal_doc_description := None |}.

End Fixture.

(** * Properties *)

(** ** Comprehensions that may raise *)

Section Comprehensions.
Context {A B : Type}.

Lemma rmap_total (f : A -> result B) (P : A -> B -> Prop) (l : list A) :
  (forall x, In x l -> exists y, f x = Ok y /\ P x y) ->
  exists ys, rmap f l = Ok ys /\ length ys = length l /\
    forall n x, l !! n = Some x -> exists y, ys !! n = Some y /\ P x y.
Proof.
  induction l as [|a l IH]; intros Hf; simpl.
  - exists []. repeat split; auto. intros n x Hn. destruct n; discriminate.
  - destruct (Hf a (or_introl eq_refl)) as (y & Hy & HP).
    destruct IH as (ys & Hys & Hlen & Hnth).
    { intros x Hx. apply Hf. now right. }
    exists (y :: ys). rewrite Hy. simpl. rewrite Hys. simpl.
    repeat split; [now rewrite Hlen|].
    intros [|n] x Hn; simpl in *.
    + injection Hn as <-. eauto.
    + auto.
Qed.

Lemma rmap_Ok_inv (f : A -> result B) (l : list A) (ys : list B) :
  rmap f l = Ok ys -> Forall2 (fun x y => f x = Ok y) l ys.
Proof.
  revert ys. induction l as [|a l IH]; simpl; intros ys H.
  - injection H as <-. constructor.
  - destruct (f a) as [y|e] eqn:Ha; simpl in H; [|discriminate].
    destruct (rmap f l) as [ys'|e] eqn:Hl; simpl in H; [|discriminate].
    injection H as <-. constructor; auto.
Qed.

Lemma rmap_Ok_In (f : A -> result B) (l : list A) (ys : list B) (y : B) :
  rmap f l = Ok ys -> In y ys -> exists x, In x l /\ f x = Ok y.
Proof.
  intros H. apply rmap_Ok_inv in H.
  induction H as [|x y' l' ys' Hxy _ IH]; simpl; [tauto|].
  intros [<-|Hy]; [eauto|]. destruct (IH Hy) as (x' & ? & ?). eauto.
Qed.

Lemma rmap_Raise (f : A -> result B) (l : list A) (x : A) (e : exn) :
  f x = Raise e -> rmap f (x :: l) = Raise e.
Proof. intros H. simpl. now rewrite H. Qed.

Lemma romap_Ok_incl (f : A -> result (option B)) (g : B -> A)
    (l : list A) (ys : list B) :
  (forall x y, f x = Ok (Some y) -> g y = x) ->
  romap f l = Ok ys -> incl (map g ys) l.
Proof.
  intros Hg. revert ys. induction l as [|a l IH]; simpl; intros ys H.
  - injection H as <-. intros x [].
  - destruct (f a) as [y|e] eqn:Ha; simpl in H; [|discriminate].
    destruct (romap f l) as [ys'|e] eqn:Hl; simpl in H; [|discriminate].
    injection H as <-. specialize (IH _ eq_refl).
    destruct y as [b|]; simpl.
    + rewrite (Hg _ _ Ha). intros x [<-|Hx]; [now left|right; auto].
    + intros x Hx. right. auto.
Qed.

End Comprehensions.

Lemma dot_total (a b : list Q) :
  length a = length b -> exists v, Py.dot a b = Ok v.
Proof.
  revert b. induction a as [|x a IH]; intros [|y b] Hlen;
    simpl in *; try discriminate; eauto.
  destruct (IH b) as [v Hv]; [congruence|]. rewrite Hv. simpl. eauto.
Qed.

Lemma index_total {A} (arr : list A) (i : nat) :
  (i < length arr)%nat -> exists v, arr !! i = Some v /\ Py.index arr i = Ok v.
Proof.
  intros Hi. destruct (lookup_lt_is_Some_2 arr i Hi) as [v Hv].
  exists v. unfold Py.index. now rewrite Hv.
Qed.

(** ** Dictionaries *)

Module DictFacts.
Import Dict.

Section Values.
Context {V : Type}.
Implicit Types (d : Dict.t V) (k : string) (v : V).

Lemma get_set_eq k v d : get k (set k v d) = Some v.
Proof.
  induction d as [|[k' v'] d IH]; simpl.
  - now rewrite String.eqb_refl.
  - destruct (String.eqb k k') eqn:E; simpl; rewrite E; auto.
Qed.

Lemma get_set_ne k k' v d : k <> k' -> get k' (set k v d) = get k' d.
Proof.
  intros Hne. induction d as [|[k0 v0] d IH]; simpl.
  - destruct (String.eqb k' k) eqn:E; [|reflexivity].
    apply String.eqb_eq in E. congruence.
  - destruct (String.eqb k k0) eqn:E; simpl.
    + apply String.eqb_eq in E. subst k0.
      destruct (String.eqb k' k) eqn:E'; [|reflexivity].
      apply String.eqb_eq in E'. congruence.
    + now rewrite IH.
Qed.

Lemma get_In_keys k d : In k (keys d) <-> exists v, get k d = Some v.
Proof.
  unfold keys. induction d as [|[k' v'] d IH]; simpl.
  - split; [tauto|]. intros [? ?]; discriminate.
  - destruct (String.eqb k k') eqn:E.
    + apply String.eqb_eq in E. subst. split; eauto.
    + apply String.eqb_neq in E. rewrite <- IH. split.
      * intros [H|H]; [congruence|assumption].
      * tauto.
Qed.

Lemma In_get k v d : get k d = Some v -> In (k, v) d.
Proof.
  induction d as [|[k' v'] d IH]; simpl; [discriminate|].
  destruct (String.eqb k k') eqn:E.
  - apply String.eqb_eq in E. subst. intros [= ->]. now left.
  - auto.
Qed.

(** Storing a list of pairs one after the other. *)
Lemma get_fold_set {A} (kv : A -> string * V) (l : list A) d k :
  get k (fold_left (fun d x => set (fst (kv x)) (snd (kv x)) d) l d)
  = match last_value k (map kv l) with
    | Some v => Some v
    | None => get k d
    end.
Proof.
  revert d. induction l as [|x l IH]; intros d; simpl; [reflexivity|].
  rewrite IH. destruct (kv x) as [k' v'] eqn:Ex. simpl.
  destruct (last_value k (map kv l)); [reflexivity|].
  destruct (String.eqb k k') eqn:E.
  - apply String.eqb_eq in E. subst. apply get_set_eq.
  - apply String.eqb_neq in E. apply get_set_ne. congruence.
Qed.

Lemma last_value_In k (l : list (string * V)) :
  In k (map fst l) <-> exists v, last_value k l = Some v.
Proof.
  induction l as [|[k' v'] l IH]; simpl.
  - split; [tauto|]. intros [? ?]; discriminate.
  - destruct (last_value k l) as [v|] eqn:El.
    + split; [eauto|]. intros _. right. apply IH. eauto.
    + destruct (String.eqb k k') eqn:E.
      * apply String.eqb_eq in E. subst. split; eauto.
      * apply String.eqb_neq in E. split.
        -- intros [H|H]; [congruence|]. apply IH in H as [? ?]. discriminate.
        -- intros [? ?]. discriminate.
Qed.

Lemma last_value_Some_In k v (l : list (string * V)) :
  last_value k l = Some v -> In (k, v) l.
Proof.
  induction l as [|[k' v'] l IH]; simpl; [discriminate|].
  destruct (last_value k l) as [v0|].
  - intros [= ->]. right. now apply IH.
  - destruct (String.eqb k k') eqn:E; [|discriminate].
    apply String.eqb_eq in E. subst. intros [= ->]. now left.
Qed.

(** With distinct keys the last occurrence is the only one. *)
Lemma last_value_NoDup k v (l : list (string * V)) :
  NoDup (map fst l) -> In (k, v) l -> last_value k l = Some v.
Proof.
  induction l as [|[k' v'] l IH]; simpl; [tauto|].
  intros Hnd Hin. apply NoDup_cons in Hnd as [Hk' Hnd].
  destruct Hin as [[= -> ->]|Hin].
  - destruct (last_value k l) as [v0|] eqn:El.
    + exfalso. apply Hk'. apply list_elem_of_In, last_value_In. eauto.
    + now rewrite String.eqb_refl.
  - now rewrite (IH Hnd Hin).
Qed.

Lemma set_fresh k v d : ~ In k (keys d) -> set k v d = d ++ [(k, v)].
Proof.
  unfold keys. induction d as [|[k' v'] d IH]; simpl; intros Hk; [reflexivity|].
  destruct (String.eqb k k') eqn:E.
  - apply String.eqb_eq in E. subst. tauto.
  - rewrite IH by tauto. reflexivity.
Qed.

(** Filling an empty dictionary from distinct keys lists them in order. *)
Lemma fold_set_NoDup (f : string -> V) (l : list string) d :
  NoDup (keys d ++ l) ->
  fold_left (fun d x => set x (f x) d) l d = d ++ map (fun x => (x, f x)) l.
Proof.
  revert d. induction l as [|x l IH]; intros d Hnd; simpl.
  - now rewrite app_nil_r.
  - assert (~ In x (keys d) /\ NoDup (keys (d ++ [(x, f x)]) ++ l)) as [Hx Hnd'].
    { unfold keys in *. rewrite map_app. simpl. rewrite <- app_assoc. simpl.
      split; [|exact Hnd].
      apply NoDup_app in Hnd as (_ & Hdis & _).
      intros Hin. apply (Hdis x); [now apply list_elem_of_In|].
      apply list_elem_of_In. now left. }
    rewrite set_fresh by assumption. rewrite IH by assumption.
    now rewrite <- app_assoc.
Qed.

Lemma get_map_keys (f : string -> V) (l : list string) k :
  get k (map (fun x => (x, f x)) l)
  = if Py.contains k l then Some (f k) else None.
Proof.
  unfold Py.contains. induction l as [|x l IH]; simpl; [reflexivity|].
  destruct (String.eqb k x) eqn:E; simpl.
  - apply String.eqb_eq in E. now subst.
  - exact IH.
Qed.

Lemma set_Forall (P : V -> Prop) k v d :
  Forall (fun p => P (snd p)) d -> P v -> Forall (fun p => P (snd p)) (set k v d).
Proof.
  intros Hd Hv. induction Hd as [|[k' v'] d Hp Hd IH]; simpl.
  - repeat constructor. exact Hv.
  - destruct (String.eqb k k'); constructor; auto.
Qed.

Lemma fold_set_Forall {A} (P : V -> Prop) (kv : A -> string * V)
    (l : list A) d :
  (forall x, In x l -> P (snd (kv x))) ->
  Forall (fun p => P (snd p)) d ->
  Forall (fun p => P (snd p))
    (fold_left (fun d x => set (fst (kv x)) (snd (kv x)) d) l d).
Proof.
  revert d. induction l as [|x l IH]; intros d Hl Hd; simpl; [exact Hd|].
  apply IH.
  - intros y Hy. apply Hl. now right.
  - apply set_Forall; [exact Hd|]. apply Hl. now left.
Qed.

End Values.

Lemma contains_In (x : string) (l : list string) :
  Py.contains x l = true <-> In x l.
Proof.
  unfold Py.contains. rewrite existsb_exists. split.
  - intros (y & Hy & E). apply String.eqb_eq in E. now subst.
  - intros H. exists x. split; [assumption|apply String.eqb_refl].
Qed.

Lemma dedup_In (seen l : list string) (x : string) :
  In x (dedup seen l) <-> In x l /\ ~ In x seen.
Proof.
  revert seen. induction l as [|k l IH]; intros seen; simpl; [tauto|].
  destruct (Py.contains k seen) eqn:E.
  - apply contains_In in E. rewrite IH. split.
    + intros [H1 H2]. tauto.
    + intros [[->|H1] H2]; tauto.
  - assert (~ In k seen) as Hk.
    { intros H. apply contains_In in H. congruence. }
    simpl. rewrite IH. simpl. split.
    + intros [->|[H1 H2]]; tauto.
    + intros [[->|H1] H2]; [tauto|].
      destruct (String.eqb_spec k x); [tauto|]. right. tauto.
Qed.

Lemma dedup_NoDup (seen l : list string) : NoDup (dedup seen l).
Proof.
  revert seen. induction l as [|k l IH]; intros seen; simpl; [constructor|].
  destruct (Py.contains k seen); [apply IH|].
  constructor; [|apply IH].
  rewrite list_elem_of_In, dedup_In. simpl. tauto.
Qed.

Lemma union_keys_In (a b c : list string) (x : string) :
  In x (union_keys a b c) <-> In x a \/ In x b \/ In x c.
Proof.
  unfold union_keys. rewrite dedup_In, !in_app_iff. simpl. tauto.
Qed.

End DictFacts.

(** ** Minimum and maximum *)

Lemma py_min_spec (values : list Q) :
  values <> [] ->
  In (Py.min values) values /\ forall v, In v values -> Py.min values <= v.
Proof.
  destruct values as [|v0 rest]; [congruence|]. intros _. simpl.
  assert (forall l m,
            (In (fold_left (fun m y => if Qlt_le_dec y m then y else m) l m)
                (m :: l)) /\
            fold_left (fun m y => if Qlt_le_dec y m then y else m) l m <= m /\
            forall v, In v l ->
              fold_left (fun m y => if Qlt_le_dec y m then y else m) l m <= v)
    as H.
  { induction l as [|y l IH]; intros m; simpl.
    - split; [now left|]. split; [apply Qle_refl|tauto].
    - destruct (Qlt_le_dec y m) as [Hlt|Hle];
        destruct (IH y) as (Hin1 & Hle1 & Hall1);
        destruct (IH m) as (Hin2 & Hle2 & Hall2).
      + split; [now right|]. split.
        * apply Qle_trans with y; [assumption|now apply Qlt_le_weak].
        * intros v [<-|Hv]; auto.
      + split; [destruct Hin2 as [<-|?]; [now left|right; now right]|].
        split; [assumption|].
        intros v [<-|Hv]; [|auto]. now apply Qle_trans with m. }
  destruct (H rest v0) as (Hin & Hle & Hall).
  split; [exact Hin|]. intros v [<-|Hv]; auto.
Qed.

Lemma py_max_spec (values : list Q) :
  values <> [] ->
  In (Py.max values) values /\ forall v, In v values -> v <= Py.max values.
Proof.
  destruct values as [|v0 rest]; [congruence|]. intros _. simpl.
  assert (forall l m,
            (In (fold_left (fun m y => if Qlt_le_dec m y then y else m) l m)
                (m :: l)) /\
            m <= fold_left (fun m y => if Qlt_le_dec m y then y else m) l m /\
            forall v, In v l ->
              v <= fold_left (fun m y => if Qlt_le_dec m y then y else m) l m)
    as H.
  { induction l as [|y l IH]; intros m; simpl.
    - split; [now left|]. split; [apply Qle_refl|tauto].
    - destruct (Qlt_le_dec m y) as [Hlt|Hle];
        destruct (IH y) as (Hin1 & Hle1 & Hall1);
        destruct (IH m) as (Hin2 & Hle2 & Hall2).
      + split; [now right|]. split.
        * apply Qle_trans with y; [now apply Qlt_le_weak|assumption].
        * intros v [<-|Hv]; auto.
      + split; [destruct Hin2 as [<-|?]; [now left|right; now right]|].
        split; [assumption|].
        intros v [<-|Hv]; [|auto]. now apply Qle_trans with m. }
  destruct (H rest v0) as (Hin & Hle & Hall).
  split; [exact Hin|]. intros v [<-|Hv]; auto.
Qed.

(** Min-max scaling lands in the unit interval. *)
Lemma scale_bounds (lo hi s : Q) :
  lo < hi -> lo <= s -> s <= hi ->
  0 <= (s - lo) / (hi - lo) /\ (s - lo) / (hi - lo) <= 1.
Proof.
  intros Hlt Hlo Hhi.
  assert (0 < hi - lo) as Hpos by (apply (Qlt_minus_iff lo hi); exact Hlt).
  split.
  - apply Qle_shift_div_l; [assumption|]. rewrite Qmult_0_l.
    apply (Qle_minus_iff lo s); exact Hlo.
  - apply Qle_shift_div_r; [assumption|]. rewrite Qmult_1_l.
    apply Qplus_le_l. exact Hhi.
Qed.

Lemma scale_hi (lo hi s : Q) : lo < hi -> s == hi -> (s - lo) / (hi - lo) == 1.
Proof.
  intros Hlt ->. field. intros H.
  apply Qlt_not_eq in Hlt. apply Hlt. symmetry.
  apply Qplus_inj_r with (z := - lo). rewrite Qplus_opp_r. exact H.
Qed.

Lemma scale_lo (lo hi s : Q) : lo < hi -> s == lo -> (s - lo) / (hi - lo) == 0.
Proof.
  intros Hlt ->. field. intros H.
  apply Qlt_not_eq in Hlt. apply Hlt. symmetry.
  apply Qplus_inj_r with (z := - lo). rewrite Qplus_opp_r. exact H.
Qed.

(** ** Sorting in descending order of a key *)

Section SortDesc.
Context {A : Type} (key : A -> Q).

Local Abbreviation desc := (Py.desc key).

Lemma insert_desc_perm (x : A) (l : list A) :
  Permutation (Py.insert_desc key x l) (x :: l).
Proof.
  induction l as [|y l IH]; simpl; [reflexivity|].
  destruct (Qlt_le_dec (key x) (key y)); [|reflexivity].
  rewrite IH. apply perm_swap.
Qed.

Lemma sort_desc_perm (l : list A) : Permutation (Py.sort_desc key l) l.
Proof.
  induction l as [|x l IH]; simpl; [reflexivity|].
  unfold Py.sort_desc in *. simpl. rewrite insert_desc_perm.
  now constructor.
Qed.

Lemma insert_desc_sorted (x : A) (l : list A) :
  StronglySorted desc l -> StronglySorted desc (Py.insert_desc key x l).
Proof.
  induction l as [|y l IH]; simpl; intros Hs.
  - repeat constructor.
  - inversion Hs as [|? ? Hl Hy]; subst.
    destruct (Qlt_le_dec (key x) (key y)) as [Hlt|Hle].
    + constructor; [auto|].
      apply (Permutation_Forall (Permutation_sym (insert_desc_perm x l))).
      constructor; [|assumption]. unfold Py.desc. now apply Qlt_le_weak.
    + constructor; [assumption|].
      constructor; [exact Hle|].
      eapply Forall_impl; [exact Hy|].
      intros z Hz. unfold Py.desc in *. now apply Qle_trans with (key y).
Qed.

Lemma sort_desc_sorted (l : list A) : StronglySorted desc (Py.sort_desc key l).
Proof.
  induction l as [|x l IH]; simpl; [constructor|].
  now apply insert_desc_sorted.
Qed.

(** Stability: the elements carrying one key value keep their order. *)
Lemma insert_desc_stable (q : Q) (x : A) (l : list A) :
  List.filter (fun y => Qeq_bool (key y) q) (Py.insert_desc key x l)
  = List.filter (fun y => Qeq_bool (key y) q) (x :: l).
Proof.
  induction l as [|y l IH]; [reflexivity|].
  cbn [Py.insert_desc].
  destruct (Qlt_le_dec (key x) (key y)) as [Hlt|Hle]; [|reflexivity].
  cbn [List.filter] in *. rewrite IH.
  destruct (Qeq_bool (key x) q) eqn:Hx, (Qeq_bool (key y) q) eqn:Hy;
    try reflexivity.
  apply Qeq_bool_iff in Hx, Hy. rewrite Hx, Hy in Hlt.
  now apply Qlt_irrefl in Hlt.
Qed.

Lemma sort_desc_stable (q : Q) (l : list A) :
  List.filter (fun y => Qeq_bool (key y) q) (Py.sort_desc key l)
  = List.filter (fun y => Qeq_bool (key y) q) l.
Proof.
  induction l as [|x l IH]; [reflexivity|].
  unfold Py.sort_desc in *. cbn [fold_right].
  rewrite insert_desc_stable. cbn [List.filter]. now rewrite IH.
Qed.

Lemma sort_desc_In (x : A) (l : list A) : In x (Py.sort_desc key l) <-> In x l.
Proof.
  split; apply Permutation_in;
    [apply sort_desc_perm | apply Permutation_sym, sort_desc_perm].
Qed.

Lemma sort_desc_length (l : list A) : length (Py.sort_desc key l) = length l.
Proof. apply Permutation_length, sort_desc_perm. Qed.

End SortDesc.

Lemma slice_to_length {A} (n : nat) (l : list A) :
  (length (Py.slice_to n l) <= n)%nat.
Proof. unfold Py.slice_to. apply firstn_le_length. Qed.

Lemma slice_to_incl {A} (n : nat) (l : list A) : incl (Py.slice_to n l) l.
Proof.
  unfold Py.slice_to. intros x Hx.
  rewrite <- (firstn_skipn n l). apply in_or_app. now left.
Qed.

(** ** The collaborative filter *)

Module CollaborativeFilterFacts.
Import CollaborativeFilter.

(** The index maps built by enumeration stay below the number of ids. *)
Lemma id_index_bound (unique : list string) (id : string) (idx : nat) :
  id_index unique !! id = Some idx -> (idx < length unique)%nat.
Proof.
  unfold id_index. intros H.
  apply elem_of_list_to_map_2 in H.
  apply elem_of_zip_r in H.
  apply elem_of_seq in H. lia.
Qed.

(** Arrays of the right shape make the installed state [trained]. *)
Lemma fitted_trained n users items gb uf itf ub ib k :
  length ub = length users -> length ib = length items ->
  length uf = length users -> length itf = length items ->
  Forall (fun row => length row = k) uf ->
  Forall (fun row => length row = k) itf ->
  trained (fitted n users items gb uf itf ub ib).
Proof.
  intros Hub Hib Huf Hitf Hk1 Hk2. split; [reflexivity|].
  exists ub, ib, uf, itf, k. simpl.
  repeat split; auto; try congruence.
  - intros id idx H. apply id_index_bound in H. lia.
  - intros id idx H. apply id_index_bound in H. lia.
Qed.

(** The score [predict] gives one item, as the body of its loops. *)
Lemma predict_item_total (self : t) (user_id item_id : string) :
  trained self ->
  match user_id_map self !! user_id, item_id_map self !! item_id with
  | None, Some i =>
      exists ib b, item_bias self = Some ib /\ ib !! i = Some b
  | Some u, None =>
      exists ub b, user_bias self = Some ub /\ ub !! u = Some b
  | Some u, Some i =>
      exists ub ib uf itf bu bi pu qi d,
        user_bias self = Some ub /\ item_bias self = Some ib /\
        user_factors self = Some uf /\ item_factors self = Some itf /\
        ub !! u = Some bu /\ ib !! i = Some bi /\
        uf !! u = Some pu /\ itf !! i = Some qi /\ Py.dot pu qi = Ok d
  | None, None => True
  end.
Proof.
  intros [_ (ub & ib & uf & itf & k & Hub & Hib & Huf & Hitf &
              Hlu & Hli & Hku & Hki & Hmu & Hmi)].
  destruct (user_id_map self !! user_id) as [u|] eqn:Hu;
    destruct (item_id_map self !! item_id) as [i|] eqn:Hi; auto.
  - pose proof (Hmu _ _ Hu) as Hu'. pose proof (Hmi _ _ Hi) as Hi'.
    simpl in Hu', Hi'.
    destruct (lookup_lt_is_Some_2 ub u Hu') as [bu Hbu].
    destruct (lookup_lt_is_Some_2 ib i Hi') as [bi Hbi].
    destruct (lookup_lt_is_Some_2 uf u ltac:(lia)) as [pu Hpu].
    destruct (lookup_lt_is_Some_2 itf i ltac:(lia)) as [qi Hqi].
    destruct (dot_total pu qi) as [d Hd].
    { rewrite Forall_lookup in Hku, Hki.
      rewrite (Hku _ _ Hpu), (Hki _ _ Hqi). reflexivity. }
    exists ub, ib, uf, itf, bu, bi, pu, qi, d. repeat split; auto.
  - pose proof (Hmu _ _ Hu) as Hu'. simpl in Hu'.
    destruct (lookup_lt_is_Some_2 ub u Hu') as [bu Hbu]. eauto.
  - pose proof (Hmi _ _ Hi) as Hi'. simpl in Hi'.
    destruct (lookup_lt_is_Some_2 ib i Hi') as [bi Hbi]. eauto.
Qed.

Lemma predict_scores (self : t) (user_id : string) (item_ids : list string) :
  trained self ->
  exists scores,
    predict self user_id item_ids = Ok scores /\
    length scores = length item_ids /\
    forall n item_id, item_ids !! n = Some item_id ->
      exists s, scores !! n = Some s /\ item_score_case self user_id item_id s.
Proof.
  intros Htr. unfold predict. rewrite (trained_flag _ Htr). simpl.
  pose proof (fun i => predict_item_total self user_id i Htr) as Hit.
  unfold item_score_case.
  destruct (user_id_map self !! user_id) as [u|] eqn:Hu.
  - apply rmap_total. intros x _. specialize (Hit x).
    destruct (item_id_map self !! x) as [i|] eqn:Hi.
    + destruct Hit as (ub & ib & uf & itf & bu & bi & pu & qi & d & Hub & Hib
                         & Huf & Hitf & Hbu & Hbi & Hpu & Hqi & Hd).
      rewrite Hub, Hib, Huf, Hitf. unfold Py.index.
      rewrite Hbu, Hbi, Hpu, Hqi. simpl. rewrite Hd. simpl.
      eexists. split; [reflexivity|].
      exists ub, ib, uf, itf, bu, bi, pu, qi, d. repeat split; auto.
    + destruct Hit as (ub & bu & Hub & Hbu).
      rewrite Hub. unfold Py.index. rewrite Hbu. simpl.
      eexists. split; [reflexivity|]. eauto.
  - assert (Hib : exists ib, item_bias self = Some ib).
    { destruct Htr as [_ (ub & ib & ? & ? & ? & ? & Hib & _)]. eauto. }
    destruct Hib as [ib Hib]. rewrite Hib.
    apply rmap_total. intros x _. specialize (Hit x).
    destruct (item_id_map self !! x) as [i|] eqn:Hi.
    + destruct Hit as (ib' & b & Hib' & Hb).
      assert (ib' = ib) as -> by congruence.
      rewrite decide_True by eauto. simpl. unfold Py.index. rewrite Hb. simpl.
      eexists. split; [reflexivity|]. eauto.
    + rewrite decide_False by (intros [? ?]; discriminate). simpl.
      eexists. split; [reflexivity|]. reflexivity.
Qed.

(** C1. On a trained model [predict] returns one score per requested id
    and never raises; for an unknown user a known item scores
    [global_bias + item_bias[i]] and an unknown item [global_bias]; for a
    known user an unknown item scores [global_bias + user_bias[u]]; in
    particular an unknown user asking for one unknown item gets
    [[global_bias]]. *)
Theorem predict_cold_start_policy
    (self : t) (user_id : string) (item_ids : list string) :
  trained self ->
  (exists scores,
     predict self user_id item_ids = Ok scores /\
     length scores = length item_ids /\
     forall n item_id, item_ids !! n = Some item_id ->
       exists s, scores !! n = Some s /\
         match user_id_map self !! user_id, item_id_map self !! item_id with
         | None, Some i =>
             exists ib b, item_bias self = Some ib /\ ib !! i = Some b /\
               s = global_bias self + b
         | None, None => s = global_bias self
         | Some u, None =>
             exists ub b, user_bias self = Some ub /\ ub !! u = Some b /\
               s = global_bias self + b
         | Some _, Some _ => True
         end) /\
  (forall item_id,
     user_id_map self !! user_id = None ->
     item_id_map self !! item_id = None ->
     predict self user_id [item_id] = Ok [global_bias self]).
Proof.
  intros Htr. split.
  - destruct (predict_scores self user_id item_ids Htr)
      as (scores & Hp & Hlen & Hs).
    exists scores. repeat split; auto.
    intros n item_id Hn. destruct (Hs n item_id Hn) as (s & Hsn & Hcase).
    exists s. split; [assumption|].
    unfold item_score_case in Hcase.
    destruct (user_id_map self !! user_id), (item_id_map self !! item_id);
      auto.
  - intros item_id Hu Hi.
    destruct (predict_scores self user_id [item_id] Htr)
      as (scores & Hp & Hlen & Hs).
    destruct (Hs 0%nat item_id eq_refl) as (s & Hs0 & Hcase).
    unfold item_score_case in Hcase. rewrite Hu, Hi in Hcase. subst s.
    rewrite Hp. f_equal.
    destruct scores as [|s0 [|s1 rest]]; simpl in *; try discriminate.
    now injection Hs0 as ->.
Qed.

Lemma sample_cf_trained : trained Sample.cf.
Proof.
  apply (fitted_trained 1 ["u1"] ["a"; "b"] 1 [[1]] [[1]; [2]] [0]
           [0.5; 0.25] 1%nat); try reflexivity; repeat constructor.
Qed.

Lemma predict_cold_start_policy_witness :
  trained Sample.cf /\
  predict Sample.cf "nobody" ["nothing"] = Ok [global_bias Sample.cf].
Proof.
  split; [exact sample_cf_trained|].
  apply (proj2 (predict_cold_start_policy Sample.cf "nobody" ["nothing"]
                  sample_cf_trained)); reflexivity.
Defined.

Lemma predict_untrained (self : t) (user_id : string) (item_ids : list string) :
  is_trained self = false ->
  predict self user_id item_ids = Ok (repeat 0 (length item_ids)).
Proof. intros H. unfold predict. now rewrite H. Qed.

Lemma predict_returns (self : t) (user_id : string) (item_ids : list string) :
  trained self \/ is_trained self = false ->
  exists scores,
    predict self user_id item_ids = Ok scores /\
    length scores = length item_ids.
Proof.
  intros [Htr|Hun].
  - destruct (predict_scores self user_id item_ids Htr) as (sc & ? & ? & _).
    eauto.
  - rewrite predict_untrained by assumption. eexists. split; [reflexivity|].
    apply repeat_length.
Qed.

Lemma predict_length (self : t) (user_id : string) (item_ids : list string)
    (scores : list Q) :
  predict self user_id item_ids = Ok scores ->
  length scores = length item_ids.
Proof.
  unfold predict. destruct (negb (is_trained self)).
  { intros [= <-]. apply repeat_length. }
  destruct (user_id_map self !! user_id) as [u|].
  - intros H. apply rmap_Ok_inv in H. symmetry.
    now apply Forall2_length in H.
  - destruct (item_bias self) as [ib|].
    + intros H. apply rmap_Ok_inv in H. symmetry.
      now apply Forall2_length in H.
    + intros [= <-]. apply length_map.
Qed.

Lemma recommend_items_eq (self : t) (user_id : string)
    (item_candidates : list string) (top_k : nat) (scores : list Q) :
  predict self user_id item_candidates = Ok scores ->
  length scores = length item_candidates ->
  recommend_items self user_id item_candidates top_k
  = Ok (Py.slice_to top_k (Py.sort_desc snd (zip item_candidates scores))).
Proof.
  intros Hp Hlen. unfold recommend_items.
  destruct item_candidates as [|c cs].
  - destruct scores; [|discriminate]. simpl.
    unfold Py.slice_to. now rewrite firstn_nil.
  - rewrite Hp. reflexivity.
Qed.

(** C8. [recommend_items] returns, for a model that is untrained or
    trained, the first [top_k] entries of the list that pairs every
    candidate with its predicted score and is sorted by descending score,
    candidates of equal score staying in their input order. *)
Theorem recommend_items_sorted_stable_truncated
    (self : t) (user_id : string) (item_candidates : list string)
    (top_k : nat) :
  trained self \/ is_trained self = false ->
  item_candidates <> [] ->
  exists scores ranked,
    predict self user_id item_candidates = Ok scores /\
    recommend_items self user_id item_candidates top_k
      = Ok (firstn top_k ranked) /\
    (length (firstn top_k ranked) <= top_k)%nat /\
    Permutation ranked (zip item_candidates scores) /\
    Permutation (map fst ranked) item_candidates /\
    StronglySorted (fun a b => snd b <= snd a) ranked /\
    forall q,
      List.filter (fun r => Qeq_bool (snd r) q) ranked
      = List.filter (fun r => Qeq_bool (snd r) q) (zip item_candidates scores).
Proof.
  intros Hst _.
  destruct (predict_returns self user_id item_candidates Hst)
    as (scores & Hp & Hlen).
  exists scores, (Py.sort_desc snd (zip item_candidates scores)).
  split; [assumption|].
  split; [now apply recommend_items_eq|].
  split; [apply firstn_le_length|].
  split; [apply sort_desc_perm|].
  split.
  - rewrite (sort_desc_perm snd). rewrite fst_zip; [reflexivity|lia].
  - split; [apply (sort_desc_sorted snd)|].
    intros q. apply sort_desc_stable.
Qed.

Lemma recommend_items_sorted_stable_truncated_witness :
  exists scores ranked,
    predict Sample.cf "u1" ["a"; "q"; "b"; "r"] = Ok scores /\
    recommend_items Sample.cf "u1" ["a"; "q"; "b"; "r"] 3
      = Ok (firstn 3 ranked) /\
    (length (firstn 3 ranked) <= 3)%nat /\
    Permutation ranked (zip ["a"; "q"; "b"; "r"] scores) /\
    Permutation (map fst ranked) ["a"; "q"; "b"; "r"] /\
    StronglySorted (fun a b => snd b <= snd a) ranked /\
    forall q,
      List.filter (fun r => Qeq_bool (snd r) q) ranked
      = List.filter (fun r => Qeq_bool (snd r) q)
          (zip ["a"; "q"; "b"; "r"] scores).
Proof.
  apply (recommend_items_sorted_stable_truncated Sample.cf "u1"
           ["a"; "q"; "b"; "r"] 3).
  - left. exact sample_cf_trained.
  - discriminate.
Defined.

(** The run behind the witness: [q] and [r] tie and keep their order. *)
Example recommend_items_sample :
  recommend_items Sample.cf "u1" ["a"; "q"; "b"; "r"] 3
  = Ok [("b", 3.25); ("a", 2.5); ("q", 1)].
Proof. vm_compute. reflexivity. Qed.

(** C7 (the code departs from the claim).  On the sample model item [b]
    has a larger dot product with [a] than [a] has with itself, so dropping
    the head of the ranking drops [b], and the query item [a] is what
    [get_similar_items] returns. *)
Theorem get_similar_items_returns_query_item :
  trained Sample.cf /\
  item_id_map Sample.cf !! "a" = Some 0%nat /\
  get_similar_items Sample.cf "a" 10 = Ok [("a", 1)].
Proof.
  split; [exact sample_cf_trained|]. split; vm_compute; reflexivity.
Qed.

End CollaborativeFilterFacts.


(** ** The content model *)

Module ContentFacts.
Import ContentBasedRecommender.

Lemma calculate_similarity_unit cos (p1 p2 : list Q) :
  HybridEnsemble.cosine_bounded cos -> HybridEnsemble.in_unit (calculate_similarity cos p1 p2).
Proof.
  intros Hcos. unfold calculate_similarity.
  destruct (negb _); split;
    solve [apply Q.le_max_l | apply Q.max_lub; [discriminate|apply Hcos]].
Qed.

Lemma mentor_score_unit (sim sr : Q) :
  HybridEnsemble.in_unit sim -> HybridEnsemble.in_unit sr -> HybridEnsemble.in_unit (sim * 0.8 + sr * 0.2).
Proof. unfold HybridEnsemble.in_unit. intros [? ?] [? ?]. split; lra. Qed.

Lemma recommend_mentors_length cos ud (l : list Profile) (k : nat) :
  (length (recommend_mentors cos ud l k) <= k)%nat.
Proof. apply slice_to_length. Qed.

Lemma recommend_mentors_ids cos ud (l : list Profile) (k : nat) :
  incl (map fst (recommend_mentors cos ud l k)) (map _id l).
Proof.
  unfold recommend_mentors. intros id Hid.
  apply in_map_iff in Hid as ([id' sc] & <- & Hin).
  apply slice_to_incl, sort_desc_In, in_map_iff in Hin as (m & [= <- _] & Hm).
  simpl. now apply in_map.
Qed.

Lemma recommend_mentors_unit cos ud (l : list Profile) (k : nat) :
  HybridEnsemble.cosine_bounded cos -> Forall HybridEnsemble.mentor_record l ->
  Forall (fun p => HybridEnsemble.in_unit (snd p)) (recommend_mentors cos ud l k).
Proof.
  intros Hcos Hl. apply List.Forall_forall. intros [id sc] Hin.
  apply slice_to_incl, sort_desc_In, in_map_iff in Hin as (m & [= _ <-] & Hm).
  rewrite List.Forall_forall in Hl. destruct (Hl m Hm) as [_ Hsr]. simpl.
  apply mentor_score_unit; [now apply calculate_similarity_unit|].
  destruct (success_rate m) as [r|]; simpl; [now apply Hsr|].
  split; discriminate.
Qed.

Lemma recommend_sessions_Ok cos ud (l : list Profile) (k : nat) recs :
  recommend_sessions cos ud l k = Ok recs ->
  (length recs <= k)%nat /\ incl (map fst recs) (map _id l).
Proof.
  unfold recommend_sessions.
  destruct (rmap _ l) as [rs|e] eqn:E; simpl; [|discriminate].
  intros [= <-]. split; [apply slice_to_length|].
  intros id Hid. apply in_map_iff in Hid as ([id' sc] & <- & Hin).
  apply slice_to_incl, sort_desc_In in Hin.
  destruct (rmap_Ok_In _ _ _ _ E Hin) as (m & Hm & Hf).
  destruct (Qeq_bool _ _); [discriminate|]. injection Hf as <- _.
  simpl. now apply in_map.
Qed.

Lemma recommend_groups_length ud (l : list Profile) (k : nat) :
  (length (recommend_groups ud l k) <= k)%nat.
Proof. apply slice_to_length. Qed.

Lemma recommend_groups_ids ud (l : list Profile) (k : nat) :
  incl (map fst (recommend_groups ud l k)) (map _id l).
Proof.
  unfold recommend_groups. intros id Hid.
  apply in_map_iff in Hid as ([id' sc] & <- & Hin).
  apply slice_to_incl, sort_desc_In, list_elem_of_In, list_elem_of_omap in Hin
    as (m & Hm & Hf).
  destruct (Qlt_le_dec _ _); [|discriminate]. injection Hf as <- _.
  simpl. apply in_map. now apply list_elem_of_In.
Qed.

(** A session whose ['max_participants'] is zero makes the content model
    raise. *)
Lemma recommend_sessions_zero_capacity cos ud (s : Profile)
    (rest : list Profile) (k : nat) :
  max_participants s = Some 0 ->
  recommend_sessions cos ud (s :: rest) k = Raise ZeroDivisionError.
Proof. intros H. unfold recommend_sessions. simpl. now rewrite H. Qed.

End ContentFacts.

(** ** The ensemble *)

Module HybridEnsembleFacts.
Import HybridEnsemble.

Lemma last_value_map {V W} (f : V -> W) (k : string) (l : list (string * V)) :
  Dict.last_value k (map (fun s => (fst s, f (snd s))) l)
  = f <$> Dict.last_value k l.
Proof.
  induction l as [|[k' v'] l IH]; simpl; [reflexivity|].
  rewrite IH. destruct (Dict.last_value k l); simpl; [reflexivity|].
  now destruct (String.eqb k k').
Qed.

(** What [_normalize_scores] stores under an id. *)
Lemma normalize_get (scores : list (string * Q)) (id : string) :
  scores <> [] ->
  Dict.get id (_normalize_scores scores)
  = if Qeq_bool (Py.max (map snd scores)) (Py.min (map snd scores))
    then (fun _ => 0.5) <$> Dict.last_value id scores
    else (fun s => (s - Py.min (map snd scores))
                     / (Py.max (map snd scores) - Py.min (map snd scores)))
           <$> Dict.last_value id scores.
Proof.
  intros Hne. unfold _normalize_scores.
  destruct scores as [|p rest] eqn:E; [congruence|]. rewrite <- E. clear E.
  destruct (Qeq_bool _ _).
  - unfold Dict.comprehension.
    etransitivity; [apply (DictFacts.get_fold_set (fun s => (fst s, 0.5)))|].
    rewrite (last_value_map (fun _ => 0.5)).
    now destruct (Dict.last_value id scores).
  - etransitivity;
      [apply (DictFacts.get_fold_set
                (fun s => (fst s, (snd s - Py.min (map snd scores))
                             / (Py.max (map snd scores)
                                - Py.min (map snd scores)))))|].
    rewrite (last_value_map
               (fun s => (s - Py.min (map snd scores))
                           / (Py.max (map snd scores)
                              - Py.min (map snd scores)))).
    now destruct (Dict.last_value id scores).
Qed.

Lemma all_equal_iff (scores : list (string * Q)) :
  scores <> [] ->
  all_equal scores <-> Py.max (map snd scores) == Py.min (map snd scores).
Proof.
  intros Hne.
  assert (map snd scores <> []) as Hne' by (destruct scores; [congruence|discriminate]).
  destruct (py_min_spec _ Hne') as (Hmin_in & Hmin).
  destruct (py_max_spec _ Hne') as (Hmax_in & Hmax).
  split.
  - intros Hall.
    apply in_map_iff in Hmin_in as (p & Hp & Hpin).
    apply in_map_iff in Hmax_in as (q & Hq & Hqin).
    rewrite <- Hp, <- Hq. now apply Hall.
  - intros Heq p q Hp Hq.
    assert (forall r, In r scores -> snd r == Py.min (map snd scores)) as H.
    { intros r Hr. apply Qle_antisym.
      - rewrite <- Heq. apply Hmax. now apply in_map.
      - apply Hmin. now apply in_map. }
    rewrite (H p Hp), (H q Hq). reflexivity.
Qed.

Lemma min_lt_max (scores : list (string * Q)) :
  scores <> [] -> ~ all_equal scores ->
  Py.min (map snd scores) < Py.max (map snd scores).
Proof.
  intros Hne Hneq.
  assert (map snd scores <> []) as Hne' by (destruct scores; [congruence|discriminate]).
  destruct (py_min_spec _ Hne') as (Hmin_in & Hmin).
  destruct (py_max_spec _ Hne') as (Hmax_in & Hmax).
  apply Qnot_le_lt. intros Hle. apply Hneq. apply all_equal_iff; [assumption|].
  apply Qle_antisym; [assumption|]. now apply Hmax.
Qed.

(** C2 (as the code has it).  For a non-empty list, [_normalize_scores]
    has exactly the ids of the list as keys and every value lies in
    [0, 1]; when all scores are equal every value is [0.5]; otherwise each
    id carries the min-max scaling [(s - min) / (max - min)] of the score
    [s] of its last occurrence, where [min] and [max] are the least and
    the greatest score of the list, so it is mapped to 1 when that score
    is the maximum and to 0 when it is the minimum; and when the ids of
    the list are distinct, every maximum-scoring id is mapped to 1 and
    every minimum-scoring id to 0. *)
Theorem normalize_scores_last_occurrence (scores : list (string * Q)) :
  scores <> [] ->
  (forall id,
     In id (Dict.keys (_normalize_scores scores)) <-> In id (map fst scores)) /\
  (forall id v,
     Dict.get id (_normalize_scores scores) = Some v -> 0 <= v /\ v <= 1) /\
  (all_equal scores ->
   forall id v, Dict.get id (_normalize_scores scores) = Some v -> v = 0.5) /\
  (~ all_equal scores ->
   forall id s, Dict.last_value id scores = Some s ->
     exists v, Dict.get id (_normalize_scores scores) = Some v /\
       v = (s - Py.min (map snd scores))
           / (Py.max (map snd scores) - Py.min (map snd scores)) /\
       Py.min (map snd scores) < Py.max (map snd scores) /\
       (is_max_score s scores -> v == 1) /\
       (is_min_score s scores -> v == 0)) /\
  (NoDup (map fst scores) -> extremes_to_bounds scores) /\
  (In (Py.min (map snd scores)) (map snd scores) /\
   is_min_score (Py.min (map snd scores)) scores /\
   In (Py.max (map snd scores)) (map snd scores) /\
   is_max_score (Py.max (map snd scores)) scores).
Proof.
  intros Hne.
  assert (map snd scores <> []) as Hne' by (destruct scores; [congruence|discriminate]).
  destruct (py_min_spec _ Hne') as (Hmin_in & Hmin).
  destruct (py_max_spec _ Hne') as (Hmax_in & Hmax).
  pose proof (all_equal_iff scores Hne) as Hall.
  assert (Hmain : ~ all_equal scores ->
   forall id s, Dict.last_value id scores = Some s ->
     exists v, Dict.get id (_normalize_scores scores) = Some v /\
       v = (s - Py.min (map snd scores))
           / (Py.max (map snd scores) - Py.min (map snd scores)) /\
       Py.min (map snd scores) < Py.max (map snd scores) /\
       (is_max_score s scores -> v == 1) /\
       (is_min_score s scores -> v == 0)).
  { intros Hneq id s Hs. rewrite normalize_get by assumption.
    destruct (Qeq_bool _ _) eqn:E.
    { apply Qeq_bool_iff in E. exfalso. apply Hneq. now apply Hall. }
    rewrite Hs. simpl. eexists. split; [reflexivity|].
    split; [reflexivity|].
    pose proof (min_lt_max scores Hne Hneq) as Hlt.
    split; [exact Hlt|].
    apply DictFacts.last_value_Some_In in Hs.
    assert (In s (map snd scores)) as Hsin
        by (apply in_map_iff; exists (id, s); auto).
    split; intros Hext.
    - apply scale_hi; [assumption|]. apply Qle_antisym; [now apply Hmax|].
      apply in_map_iff in Hmax_in as (q & <- & Hq). now apply Hext.
    - apply scale_lo; [assumption|]. apply Qle_antisym; [|now apply Hmin].
      apply in_map_iff in Hmin_in as (q & <- & Hq). now apply Hext. }
  split; [|split; [|split; [|split; [|split]]]].
  - intros id. rewrite DictFacts.get_In_keys, DictFacts.last_value_In.
    rewrite normalize_get by assumption.
    destruct (Qeq_bool _ _); destruct (Dict.last_value id scores); simpl;
      split; intros [v Hv]; try discriminate; eauto.
  - intros id v. rewrite normalize_get by assumption.
    destruct (Qeq_bool _ _) eqn:E;
      destruct (Dict.last_value id scores) as [s|] eqn:Es; simpl;
      intros [= <-].
    + split; discriminate.
    + apply DictFacts.last_value_Some_In in Es.
      assert (In s (map snd scores)) as Hsin
          by (apply in_map_iff; exists (id, s); auto).
      apply scale_bounds; [|now apply Hmin|now apply Hmax].
      apply min_lt_max; [assumption|]. intros Heq. apply Hall in Heq.
      apply Qeq_bool_iff in Heq. congruence.
  - intros Heq id v. rewrite normalize_get by assumption.
    apply Hall, Qeq_bool_iff in Heq. rewrite Heq.
    destruct (Dict.last_value id scores); simpl; congruence.
  - exact Hmain.
  - intros Hnd id s Hin Hneq.
    apply (DictFacts.last_value_NoDup id s scores Hnd) in Hin.
    destruct (Hmain Hneq id s Hin) as (v & Hv & _ & _ & H1 & H0).
    split; intros Hext; exists v; auto.
  - split; [exact Hmin_in|]. split; [|split; [exact Hmax_in|]].
    + intros p Hp. apply Hmin. now apply in_map.
    + intros p Hp. apply Hmax. now apply in_map.
Qed.

Lemma normalize_scores_last_occurrence_witness :
  [("a", 1); ("a", 3); ("b", 2)] <> [] /\
  (exists v,
     Dict.get "a" (_normalize_scores [("a", 1); ("a", 3); ("b", 2)]) = Some v /\
     v = (3 - Py.min [1; 3; 2]) / (Py.max [1; 3; 2] - Py.min [1; 3; 2]) /\
     v == 1) /\
  (exists v,
     Dict.get "b" (_normalize_scores [("a", 1); ("a", 3); ("b", 2)]) = Some v /\
     v = (2 - Py.min [1; 3; 2]) / (Py.max [1; 3; 2] - Py.min [1; 3; 2]) /\
     v == 1 # 2) /\
  forall id v,
    Dict.get id (_normalize_scores [("a", 1); ("a", 3); ("b", 2)]) = Some v ->
    0 <= v /\ v <= 1.
Proof.
  pose proof (normalize_scores_last_occurrence
                [("a", 1); ("a", 3); ("b", 2)] ltac:(discriminate))
    as (_ & Hrange & _ & Hscale & _).
  assert (~ all_equal [("a", 1); ("a", 3); ("b", 2)]) as Hneq.
  { intros Hall. specialize (Hall ("a", 1) ("a", 3)). simpl in Hall.
    assert (1 == 3) as Habs by (apply Hall; auto). discriminate Habs. }
  split; [discriminate|]. split; [|split; [|exact Hrange]].
  - destruct (Hscale Hneq "a" 3 eq_refl) as (v & Hv & Heq & _ & Hmax & _).
    exists v. split; [exact Hv|]. split; [exact Heq|]. apply Hmax.
    intros p [<-|[<-|[<-|[]]]]; simpl; discriminate.
  - destruct (Hscale Hneq "b" 2 eq_refl) as (v & Hv & Heq & _).
    exists v. split; [exact Hv|]. split; [exact Heq|]. rewrite Heq.
    reflexivity.
Defined.

(** C2 (as stated) fails when an id occurs twice: ["a"] carries the
    minimum score 1 in the list below, yet it is stored last with the
    maximum score 3 and is mapped to 1. *)
Lemma normalize_scores_duplicate_id :
  ~ extremes_to_bounds [("a", 1); ("a", 3); ("b", 2)].
Proof.
  intros H.
  destruct (H "a" 1) as [_ Hmin].
  - now left.
  - intros Hall. specialize (Hall ("a", 1) ("a", 3)). simpl in Hall.
    assert (1 == 3) as Habs by (apply Hall; auto). discriminate Habs.
  - destruct Hmin as (v & Hv & Hv0).
    + intros p [<-|[<-|[<-|[]]]]; simpl; discriminate.
    + vm_compute in Hv. injection Hv as <-. discriminate Hv0.
Qed.

(** [_weighted_ensemble] lists the union of the ids with their fused
    scores. *)
Lemma weighted_ensemble_eq (self : t) (c cf g : Dict.t Q) :
  _weighted_ensemble self c cf g
  = map (fun id => (id, fused_score self c cf g id))
      (Dict.union_keys (Dict.keys c) (Dict.keys cf) (Dict.keys g)).
Proof.
  unfold _weighted_ensemble.
  rewrite (DictFacts.fold_set_NoDup (fused_score self c cf g)); [reflexivity|].
  simpl. apply DictFacts.dedup_NoDup.
Qed.

Lemma weighted_ensemble_keys (self : t) (c cf g : Dict.t Q) :
  Dict.keys (_weighted_ensemble self c cf g)
  = Dict.union_keys (Dict.keys c) (Dict.keys cf) (Dict.keys g).
Proof.
  rewrite weighted_ensemble_eq. unfold Dict.keys at 1.
  rewrite map_map. simpl. apply map_id.
Qed.

(** C10. The keys of the dictionary [_weighted_ensemble] returns are,
    without repetition, exactly the ids that occur in some model's score
    dictionary; an id that occurs only in dictionaries of models that are
    not ready is among them, with final score 0. *)
Theorem weighted_ensemble_union_of_ids (self : t) (c cf g : Dict.t Q) :
  NoDup (Dict.keys (_weighted_ensemble self c cf g)) /\
  (forall id,
     In id (Dict.keys (_weighted_ensemble self c cf g)) <->
     In id (Dict.keys c) \/ In id (Dict.keys cf) \/ In id (Dict.keys g)) /\
  (forall id,
     In id (Dict.keys c) \/ In id (Dict.keys cf) \/ In id (Dict.keys g) ->
     (In id (Dict.keys c) -> Keyed.content (models_ready self) = false) ->
     (In id (Dict.keys cf) ->
        Keyed.collaborative (models_ready self) = false) ->
     (In id (Dict.keys g) -> Keyed.gnn (models_ready self) = false) ->
     Dict.get id (_weighted_ensemble self c cf g) = Some 0).
Proof.
  split; [|split].
  - rewrite weighted_ensemble_keys. apply DictFacts.dedup_NoDup.
  - intros id. rewrite weighted_ensemble_keys. apply DictFacts.union_keys_In.
  - intros id Hin Hc Hcf Hg.
    rewrite weighted_ensemble_eq, DictFacts.get_map_keys.
    apply DictFacts.union_keys_In, DictFacts.contains_In in Hin. rewrite Hin.
    f_equal. unfold fused_score, contribute.
    assert (forall d r w acc,
              (In id (Dict.keys d) -> r = false) ->
              match Dict.get id d with
              | Some v => if r then (fst acc + w * v, snd acc + w) else acc
              | None => acc
              end = acc) as Hskip.
    { intros d r w acc Hr. destruct (Dict.get id d) eqn:E; [|reflexivity].
      rewrite Hr; [reflexivity|]. apply DictFacts.get_In_keys. eauto. }
    rewrite !Hskip by assumption. reflexivity.
Qed.

Lemma weighted_ensemble_union_of_ids_witness :
  Dict.get "m2"
    (_weighted_ensemble (init "weighted" false)
       [("m1", 1)] [("m2", 0.5)] [("m2", 1); ("m3", 0)]) = Some 0.
Proof.
  apply (proj2 (proj2 (weighted_ensemble_union_of_ids
                         (init "weighted" false)
                         [("m1", 1)] [("m2", 0.5)] [("m2", 1); ("m3", 0)]))).
  - simpl. auto.
  - simpl. intros [H|[]]. discriminate H.
  - reflexivity.
  - reflexivity.
Defined.

(** *** Scores in the unit interval *)

Lemma normalize_unit (scores : list (string * Q)) :
  unit_dict (_normalize_scores scores).
Proof.
  unfold unit_dict, _normalize_scores.
  destruct scores as [|p rest] eqn:E; [constructor|]. rewrite <- E.
  assert (scores <> []) as Hne by (subst; discriminate). clear E.
  destruct (Qeq_bool _ _) eqn:Eq.
  - apply (DictFacts.fold_set_Forall in_unit (fun s => (fst s, 0.5)));
      [|constructor].
    intros x _. split; discriminate.
  - apply (DictFacts.fold_set_Forall in_unit
             (fun s => (fst s, (snd s - Py.min (map snd scores))
                          / (Py.max (map snd scores)
                             - Py.min (map snd scores)))));
      [|constructor].
    intros x Hx. simpl.
    assert (map snd scores <> []) as Hne'
        by (destruct scores; [congruence|discriminate]).
    destruct (py_min_spec _ Hne') as (_ & Hmin).
    destruct (py_max_spec _ Hne') as (_ & Hmax).
    apply scale_bounds; [|apply Hmin; now apply in_map
                         |apply Hmax; now apply in_map].
    apply min_lt_max; [assumption|]. intros Hall.
    apply all_equal_iff, Qeq_bool_iff in Hall; [congruence|assumption].
Qed.

Lemma contribute_inv (ready : bool) (w : Q) (d : Dict.t Q) (id : string)
    (acc : Q * Q) :
  0 <= w -> unit_dict d ->
  0 <= fst acc /\ fst acc <= snd acc ->
  0 <= fst (contribute ready w d id acc) /\
  fst (contribute ready w d id acc) <= snd (contribute ready w d id acc).
Proof.
  intros Hw Hd [H0 H1]. unfold contribute.
  destruct (Dict.get id d) as [v|] eqn:E; [|auto].
  destruct ready; [|auto]. simpl.
  apply DictFacts.In_get in E.
  unfold unit_dict in Hd. rewrite List.Forall_forall in Hd.
  destruct (Hd _ E) as [Hv0 Hv1]. simpl in *.
  assert (0 <= w * v) by (now apply Qmult_le_0_compat).
  assert (w * v <= w).
  { rewrite <- (Qmult_1_r w) at 2. rewrite !(Qmult_comm w).
    destruct (Qle_lt_or_eq _ _ Hw) as [Hlt|Heq].
    - now apply Qmult_le_r.
    - rewrite <- Heq, !Qmult_0_r. apply Qle_refl. }
  split; lra.
Qed.

Lemma fused_score_unit (self : t) (c cf g : Dict.t Q) (id : string) :
  nonneg_weights (weights self) ->
  unit_dict c -> unit_dict cf -> unit_dict g ->
  in_unit (fused_score self c cf g id).
Proof.
  intros (Hwc & Hwf & Hwg) Hc Hcf Hg. unfold fused_score.
  pose proof (contribute_inv (Keyed.content (models_ready self))
                (Keyed.content (weights self)) c id (0, 0) Hwc Hc
                (conj (Qle_refl 0) (Qle_refl 0))) as H1.
  pose proof (contribute_inv (Keyed.collaborative (models_ready self))
                (Keyed.collaborative (weights self)) cf id _ Hwf Hcf H1) as H2.
  pose proof (contribute_inv (Keyed.gnn (models_ready self))
                (Keyed.gnn (weights self)) g id _ Hwg Hg H2) as H3.
  destruct (contribute (Keyed.gnn (models_ready self)) _ g id _)
    as [score weight_sum].
  simpl in H3. destruct H3 as [Hs0 Hs1].
  destruct (Qlt_le_dec 0 weight_sum) as [Hpos|Hle]; split.
  - apply Qle_shift_div_l; [assumption|]. now rewrite Qmult_0_l.
  - apply Qle_shift_div_r; [assumption|]. now rewrite Qmult_1_l.
  - assumption.
  - lra.
Qed.

Lemma weighted_ensemble_unit (self : t) (c cf g : Dict.t Q) :
  nonneg_weights (weights self) ->
  unit_dict c -> unit_dict cf -> unit_dict g ->
  unit_dict (_weighted_ensemble self c cf g).
Proof.
  intros Hw Hc Hcf Hg. rewrite weighted_ensemble_eq.
  unfold unit_dict. apply List.Forall_forall. intros [id v] Hin.
  apply in_map_iff in Hin as (x & [= <- <-] & _). simpl.
  now apply fused_score_unit.
Qed.

(** The adaptive weights are never negative. *)
Lemma context_aware_routing_nonneg (user_id : string) (user_data : UserData)
    (kind : string) :
  nonneg_weights (_context_aware_routing user_id user_data kind).
Proof.
  unfold _context_aware_routing, nonneg_weights.
  destruct (Qlt_le_dec _ 5); [|destruct (Qlt_le_dec 30 _)];
    (destruct (String.eqb kind "mentor");
     [|destruct (String.eqb kind "group")]);
    simpl; repeat split; discriminate.
Qed.

Lemma rank_unit (d : Dict.t Q) (top_k : nat) :
  unit_dict d -> Forall (fun p => in_unit (snd p)) (rank d top_k).
Proof.
  unfold unit_dict, rank. rewrite !List.Forall_forall. intros Hd p Hp.
  apply Hd. now apply slice_to_incl, sort_desc_In in Hp.
Qed.

Lemma explain_all_unit (ud : UserData) (cands : list Profile) (kind : string)
    (ranked : list (string * Q)) :
  Forall (fun p => in_unit (snd p)) ranked ->
  scores_in_unit (explain_all ud cands kind ranked).
Proof.
  unfold scores_in_unit, explain_all. rewrite !List.Forall_forall.
  intros H r Hr. apply in_map_iff in Hr as (p & <- & Hp). simpl. now apply H.
Qed.

Lemma explain_all_ids (ud : UserData) (cands : list Profile) (kind : string)
    (ranked : list (string * Q)) :
  map (fun r => fst (fst r)) (explain_all ud cands kind ranked)
  = map fst ranked.
Proof. unfold explain_all. rewrite map_map. reflexivity. Qed.

(** *** The cascading funnel *)

Lemma romap_length {A B} (f : A -> result (option B)) (l : list A)
    (ys : list B) :
  romap f l = Ok ys -> (length ys <= length l)%nat.
Proof.
  revert ys. induction l as [|a l IH]; simpl; intros ys H.
  - injection H as <-. reflexivity.
  - destruct (f a) as [y|e]; simpl in H; [|discriminate].
    destruct (romap f l) as [ys'|e]; simpl in H; [|discriminate].
    injection H as <-. specialize (IH _ eq_refl).
    destruct y; simpl; lia.
Qed.

(** What the graph model returns: either it raises, whatever [top_k] is,
    or there is one ranking of some of the candidates of which every call
    returns the first [top_k] entries. *)
Lemma gnn_recommend_items_shape (g : GNNRecommender.t) (user_id : string)
    (cands : list string) :
  (exists ranked,
     (length ranked <= length cands)%nat /\
     incl (map fst ranked) cands /\
     forall n, GNNRecommender.recommend_items g user_id cands n
               = Ok (firstn n ranked)) \/
  (exists e, forall n,
     GNNRecommender.recommend_items g user_id cands n = Raise e).
Proof.
  unfold GNNRecommender.recommend_items.
  assert (forall n, firstn n (@nil (string * Q)) = []) as Hnil
      by (intros; apply firstn_nil).
  destruct (negb _ || negb _).
  { left. exists []. repeat split; auto with arith.
    - intros x [].
    - intros n. now rewrite Hnil. }
  destruct (GNNRecommender.user_id_map g !! user_id) as [u|].
  2:{ left. exists []. repeat split; auto with arith.
      - intros x [].
      - intros n. now rewrite Hnil. }
  match goal with
  | |- (exists _, _ /\ _ /\ forall _, (?m ≫= _) = _) \/ _ =>
      destruct m as [scores|e] eqn:E
  end; simpl; [|right; eauto].
  left. exists (Py.sort_desc snd scores).
  assert (incl (map fst scores) cands /\ (length scores <= length cands)%nat)
    as [Hincl Hlen].
  { destruct (GNNRecommender.gmodel g) as [[ue ie|emb]|].
    - destruct (Py.index ue u) as [uv|]; simpl in E; [|discriminate].
      split; [|now apply romap_length in E].
      eapply (romap_Ok_incl _ fst); [|exact E].
      intros x y Hxy. cbv beta in Hxy.
      destruct (GNNRecommender.item_id_map g !! x); [|discriminate Hxy].
      destruct (Py.index ie _); simpl in Hxy; [|discriminate].
      destruct (GNNRecommender.mul_sum _ _); simpl in Hxy; [|discriminate].
      now injection Hxy as <-.
    - destruct (Py.index emb u) as [uv|]; simpl in E; [|discriminate].
      split; [|now apply romap_length in E].
      eapply (romap_Ok_incl _ fst); [|exact E].
      intros x y Hxy. cbv beta in Hxy.
      destruct (GNNRecommender.item_id_map g !! x); [|discriminate Hxy].
      destruct (Py.index emb _); simpl in Hxy; [|discriminate].
      destruct (GNNRecommender.mul_sum _ _); simpl in Hxy; [|discriminate].
      now injection Hxy as <-.
    - injection E as <-. split; [intros x []|simpl; lia]. }
  split; [now rewrite sort_desc_length|]. split; [|reflexivity].
  intros x Hx. apply Hincl. apply in_map_iff in Hx as (p & <- & Hp).
  apply in_map. now apply sort_desc_In in Hp.
Qed.

Lemma gnn_recommend_items_Ok (g : GNNRecommender.t) (user_id : string)
    (cands : list string) (top_k : nat) (r : list (string * Q)) :
  GNNRecommender.recommend_items g user_id cands top_k = Ok r ->
  exists ranked,
    r = firstn top_k ranked /\ (length ranked <= length cands)%nat /\
    incl (map fst ranked) cands /\
    forall n, GNNRecommender.recommend_items g user_id cands n
              = Ok (firstn n ranked).
Proof.
  intros H.
  destruct (gnn_recommend_items_shape g user_id cands)
    as [(ranked & Hlen & Hincl & Hn)|(e & He)].
  - exists ranked. rewrite Hn in H. injection H as <-. auto.
  - rewrite He in H. discriminate.
Qed.

Lemma firstn_min_length {A} (n len : nat) (l : list A) :
  (length l <= len)%nat -> firstn (Nat.min len n) l = firstn n l.
Proof.
  intros Hl. destruct (Nat.le_ge_cases n len) as [H|H].
  - now rewrite Nat.min_r.
  - rewrite Nat.min_l by assumption.
    rewrite !firstn_all2; auto; lia.
Qed.

(** Capping [top_k] at the number of candidates changes nothing. *)
Lemma gnn_recommend_items_min (g : GNNRecommender.t) (user_id : string)
    (cands : list string) (n : nat) :
  GNNRecommender.recommend_items g user_id cands (Nat.min (length cands) n)
  = GNNRecommender.recommend_items g user_id cands n.
Proof.
  destruct (gnn_recommend_items_shape g user_id cands)
    as [(ranked & Hlen & Hincl & Hn)|(e & He)].
  - rewrite !Hn. f_equal. now apply firstn_min_length.
  - now rewrite !He.
Qed.

Lemma cf_recommend_items_Ok (m : CollaborativeFilter.t) (user_id : string)
    (cands : list string) (top_k : nat) (r : list (string * Q)) :
  CollaborativeFilter.recommend_items m user_id cands top_k = Ok r ->
  (length r <= top_k)%nat /\ incl (map fst r) cands.
Proof.
  unfold CollaborativeFilter.recommend_items.
  destruct cands as [|c cs] eqn:E.
  - intros [= <-]. split; [simpl; lia|intros x []].
  - rewrite <- E.
    destruct (CollaborativeFilter.predict m user_id cands) as [sc|e];
      simpl; [|discriminate].
    intros [= <-]. split; [apply slice_to_length|].
    intros x Hx. apply in_map_iff in Hx as ([id v] & <- & Hp).
    apply slice_to_incl, sort_desc_In in Hp. simpl.
    apply list_elem_of_In in Hp. apply elem_of_zip_l in Hp.
    now apply list_elem_of_In.
Qed.

Lemma stage1_Ok (self : t) (user_id : string) (cands : list string)
    (top_k : nat) (s1 : list string) :
  cascading_stage1 self user_id cands top_k = Ok s1 -> incl s1 cands.
Proof.
  unfold cascading_stage1. destruct (Keyed.gnn (models_ready self)).
  - destruct (GNNRecommender.recommend_items _ _ _ _) as [r|e] eqn:E;
      simpl; [|discriminate].
    intros [= <-].
    apply gnn_recommend_items_Ok in E as (ranked & -> & _ & Hincl & _).
    intros x Hx. apply Hincl. apply in_map_iff in Hx as (p & <- & Hp).
    apply in_map. revert Hp. apply (slice_to_incl _ ranked).
  - intros [= <-]. apply slice_to_incl.
Qed.

Lemma stage2_Ok (self : t) (user_id : string) (s1 : list string)
    (top_k : nat) (s2 : list string) :
  cascading_stage2 self user_id s1 top_k = Ok s2 ->
  incl s2 s1 /\
  (Keyed.collaborative (models_ready self) = true ->
   (length s2 <= top_k * 2)%nat).
Proof.
  unfold cascading_stage2.
  destruct (Keyed.collaborative (models_ready self)); simpl.
  - case_bool_decide as Hnil; simpl.
    + intros [= <-]. subst s1. split; [apply incl_refl|simpl; lia].
    + destruct (CollaborativeFilter.recommend_items _ _ _ _) as [r|e] eqn:E;
        simpl; [|discriminate].
      intros [= <-]. apply cf_recommend_items_Ok in E as [Hlen Hincl].
      split; [assumption|]. intros _. now rewrite length_map.
  - intros [= <-]. split; [apply incl_refl|discriminate].
Qed.

Lemma stage3_Ok cos (ud : UserData) (items : list Profile)
    (s2 : list string) (top_k : nat) (recs : list (string * Q)) :
  cascading_stage3 cos ud items s2 top_k = Ok recs ->
  (length recs <= top_k)%nat /\ incl (map fst recs) s2.
Proof.
  unfold cascading_stage3.
  set (data := List.filter (fun item => Py.contains (_id item) s2) items).
  assert (incl (map _id data) s2) as Hdata.
  { intros id Hid. apply in_map_iff in Hid as (m & <- & Hm).
    apply filter_In in Hm as [_ Hm]. now apply DictFacts.contains_In. }
  destruct data as [|first rest] eqn:E.
  - intros [= <-]. rewrite length_map. split; [apply slice_to_length|].
    rewrite map_map. simpl. rewrite map_id. apply slice_to_incl.
  - rewrite <- E in *. clear E.
    destruct (bool_decide (is_Some (domains first)));
      [|destruct (bool_decide (is_Some (subject first)))].
    + intros [= <-]. split; [apply ContentFacts.recommend_mentors_length|].
      eapply incl_tran; [apply ContentFacts.recommend_mentors_ids|exact Hdata].
    + intros H. apply ContentFacts.recommend_sessions_Ok in H as [Hlen Hincl].
      split; [assumption|]. eapply incl_tran; eauto.
    + intros [= <-]. split; [apply ContentFacts.recommend_groups_length|].
      eapply incl_tran; [apply ContentFacts.recommend_groups_ids|exact Hdata].
Qed.

Lemma stage3_unit cos (ud : UserData) (items : list Profile)
    (s2 : list string) (top_k : nat) (recs : list (string * Q)) :
  cosine_bounded cos -> Forall mentor_record items ->
  cascading_stage3 cos ud items s2 top_k = Ok recs ->
  Forall (fun p => in_unit (snd p)) recs.
Proof.
  intros Hcos Hitems. unfold cascading_stage3.
  set (data := List.filter (fun item => Py.contains (_id item) s2) items).
  assert (Forall mentor_record data) as Hdata.
  { rewrite List.Forall_forall in *. intros m Hm. apply Hitems.
    now apply filter_In in Hm as [Hm _]. }
  destruct data as [|first rest] eqn:E.
  - intros [= <-]. apply List.Forall_forall. intros p Hp.
    apply in_map_iff in Hp as (x & <- & _). split; discriminate.
  - rewrite <- E in *.
    assert (is_Some (domains first)) as Hdom.
    { rewrite E in Hdata. inversion Hdata as [|? ? [Hd _] _]. exact Hd. }
    rewrite bool_decide_eq_true_2 by assumption.
    intros [= <-]. now apply ContentFacts.recommend_mentors_unit.
Qed.

(** *** Method bodies and the receiver *)

Section Keeps.
Context {A B : Type} (self : t).

Lemma keeps_ret (a : A) (P : A -> Prop) : P a -> keeps self (mret a) P.
Proof. intros H. split; [reflexivity|]. now intros ? [= <-]. Qed.

Lemma keeps_lift (r : result A) (P : A -> Prop) :
  (forall a, r = Ok a -> P a) -> keeps self (lift r) P.
Proof. intros H. split; [reflexivity|]. exact H. Qed.

Lemma keeps_get_self : keeps self get_self (fun s => s = self).
Proof. split; [reflexivity|]. now intros ? [= <-]. Qed.

Lemma keeps_bind (m : M A) (k : A -> M B) (P : A -> Prop) (Q : B -> Prop) :
  keeps self m P -> (forall a, P a -> keeps self (k a) Q) ->
  keeps self (m ≫= k) Q.
Proof.
  intros [Hs Hp] Hk. unfold keeps at 1. unfold mbind, M_bind.
  destruct (m self) as [[a|e] self'] eqn:E; simpl in *; subst self'.
  - apply Hk. now apply Hp.
  - split; [reflexivity|]. discriminate.
Qed.

Lemma keeps_weaken (m : M A) (P Q : A -> Prop) :
  keeps self m P -> (forall a, P a -> Q a) -> keeps self m Q.
Proof. intros [Hs Hp] H. split; auto. Qed.

End Keeps.

Lemma with_weights_own (self : t) : with_weights self (weights self) = self.
Proof. now destruct self. Qed.

Lemma with_weights_twice (self : t) (w w' : Keyed.t Q) :
  with_weights (with_weights self w) w' = with_weights self w'.
Proof. reflexivity. Qed.

(** The override block runs the fusion under the adaptive weights and
    hands the receiver back with the weights it had. *)
Lemma context_aware_fusion_eq (user_id : string) (user_data : UserData)
    (kind : string) (c cf g : Dict.t Q) (self : t) :
  context_aware_fusion user_id user_data kind c cf g self
  = (Ok (_weighted_ensemble
           (with_weights self (_context_aware_routing user_id user_data kind))
           c cf g),
     self).
Proof.
  unfold context_aware_fusion, mbind, M_bind, get_self, mret, M_ret. simpl.
  f_equal. now destruct self.
Qed.

Lemma weighted_fusion_eq (c cf g : Dict.t Q) (self : t) :
  weighted_fusion c cf g self = (Ok (_weighted_ensemble self c cf g), self).
Proof. reflexivity. Qed.

(** *** The recommend methods *)

Lemma keeps_cf_scores (self : t) (user_id : string) (ids : list string) :
  keeps self (cf_scores_of user_id ids) unit_dict.
Proof.
  unfold cf_scores_of.
  eapply keeps_bind; [apply keeps_get_self|]. intros s ->.
  destruct (Keyed.collaborative (models_ready self)).
  - eapply keeps_bind; [apply keeps_lift with (P := fun _ => True); auto|].
    intros r _. apply keeps_ret, normalize_unit.
  - apply keeps_ret. constructor.
Qed.

Lemma keeps_gnn_scores (self : t) (user_id : string) (ids : list string) :
  keeps self (gnn_scores_of user_id ids) unit_dict.
Proof.
  unfold gnn_scores_of.
  eapply keeps_bind; [apply keeps_get_self|]. intros s ->.
  destruct (Keyed.gnn (models_ready self)).
  - eapply keeps_bind; [apply keeps_lift with (P := fun _ => True); auto|].
    intros r _. apply keeps_ret, normalize_unit.
  - apply keeps_ret. constructor.
Qed.

Lemma keeps_weighted_fusion (self : t) (c cf g : Dict.t Q) :
  unit_dict c -> unit_dict cf -> unit_dict g ->
  keeps self (weighted_fusion c cf g)
    (fun d => nonneg_weights (weights self) -> unit_dict d).
Proof.
  intros Hc Hcf Hg. split; [reflexivity|].
  rewrite weighted_fusion_eq. intros d [= <-] Hw.
  now apply weighted_ensemble_unit.
Qed.

Lemma keeps_context_aware_fusion (self : t) (user_id : string)
    (user_data : UserData) (kind : string) (c cf g : Dict.t Q) :
  unit_dict c -> unit_dict cf -> unit_dict g ->
  keeps self (context_aware_fusion user_id user_data kind c cf g)
    (fun d => nonneg_weights (weights self) -> unit_dict d).
Proof.
  intros Hc Hcf Hg. unfold keeps. rewrite context_aware_fusion_eq. simpl.
  split; [reflexivity|]. intros d [= <-] _.
  apply weighted_ensemble_unit; auto.
  apply context_aware_routing_nonneg.
Qed.

Lemma cascading_unit cos (self : t) (user_id : string) (ids : list string)
    (ud : UserData) (items : list Profile) (top_k : nat)
    (recs : list (string * Q)) :
  cosine_bounded cos -> Forall mentor_record items ->
  _cascading_ensemble cos self user_id ids ud items top_k = Ok recs ->
  Forall (fun p => in_unit (snd p)) recs.
Proof.
  intros Hcos Hitems. unfold _cascading_ensemble.
  destruct (cascading_stage1 _ _ _ _) as [s1|]; simpl; [|discriminate].
  destruct (cascading_stage2 _ _ _ _) as [s2|]; simpl; [|discriminate].
  now apply stage3_unit.
Qed.

Lemma recommend_mentors_keeps cos (user_id : string) (ud : UserData)
    (cands : list Profile) (top_k : nat) (self : t) :
  keeps self (recommend_mentors cos user_id ud cands top_k)
    (fun recs =>
       nonneg_weights (weights self) ->
       (ensemble_method self = "cascading" ->
        cosine_bounded cos /\ Forall mentor_record cands) ->
       scores_in_unit recs).
Proof.
  unfold recommend_mentors. destruct cands as [|m ms] eqn:E.
  { apply keeps_ret. intros; constructor. }
  rewrite <- E. clear E.
  eapply keeps_bind; [apply keeps_cf_scores|]. intros cf Hcf.
  eapply keeps_bind; [apply keeps_gnn_scores|]. intros g Hg.
  eapply keeps_bind; [apply keeps_get_self|]. intros s ->.
  destruct (String.eqb (ensemble_method self) "weighted") eqn:E1;
    [|destruct (String.eqb (ensemble_method self) "context_aware") eqn:E2;
      [|destruct (String.eqb (ensemble_method self) "cascading") eqn:E3]].
  - eapply keeps_bind;
      [apply keeps_weighted_fusion; auto using normalize_unit|].
    intros d Hd. apply keeps_ret. intros Hw _.
    apply explain_all_unit, rank_unit. auto.
  - eapply keeps_bind;
      [apply keeps_context_aware_fusion; auto using normalize_unit|].
    intros d Hd. apply keeps_ret. intros Hw _.
    apply explain_all_unit, rank_unit. auto.
  - eapply keeps_bind;
      [apply keeps_lift
         with (P := fun recs =>
                      cosine_bounded cos /\ Forall mentor_record cands ->
                      Forall (fun p => in_unit (snd p)) recs)|].
    { intros recs H [Hcos Hm]. eapply cascading_unit; eauto. }
    intros recs Hrecs. apply keeps_ret. intros _ Hc.
    apply explain_all_unit, Hrecs, Hc. now apply String.eqb_eq.
  - apply keeps_ret. intros _ _.
    apply explain_all_unit, rank_unit, normalize_unit.
Qed.

Lemma recommend_sessions_keeps cos (user_id : string) (ud : UserData)
    (cands : list Profile) (top_k : nat) (self : t) :
  keeps self (recommend_sessions cos user_id ud cands top_k)
    (fun recs => nonneg_weights (weights self) -> scores_in_unit recs).
Proof.
  unfold recommend_sessions. destruct cands as [|m ms] eqn:E.
  { apply keeps_ret. intros; constructor. }
  rewrite <- E. clear E.
  eapply keeps_bind; [apply keeps_lift with (P := fun _ => True); auto|].
  intros content _.
  eapply keeps_bind; [apply keeps_cf_scores|]. intros cf Hcf.
  eapply keeps_bind; [apply keeps_gnn_scores|]. intros g Hg.
  eapply keeps_bind; [apply keeps_get_self|]. intros s ->.
  eapply keeps_bind
    with (P := fun d => nonneg_weights (weights self) -> unit_dict d).
  - destruct (String.eqb _ _).
    + apply keeps_context_aware_fusion; auto using normalize_unit.
    + apply keeps_weighted_fusion; auto using normalize_unit.
  - intros d Hd. apply keeps_ret. intros Hw.
    apply explain_all_unit, rank_unit. auto.
Qed.

Lemma recommend_groups_keeps (user_id : string) (ud : UserData)
    (cands : list Profile) (top_k : nat) (self : t) :
  keeps self (recommend_groups user_id ud cands top_k)
    (fun recs => nonneg_weights (weights self) -> scores_in_unit recs).
Proof.
  unfold recommend_groups. destruct cands as [|m ms] eqn:E.
  { apply keeps_ret. intros; constructor. }
  rewrite <- E. clear E.
  eapply keeps_bind; [apply keeps_cf_scores|]. intros cf Hcf.
  eapply keeps_bind; [apply keeps_gnn_scores|]. intros g Hg.
  eapply keeps_bind; [apply keeps_get_self|]. intros s ->.
  eapply keeps_bind
    with (P := fun d => nonneg_weights (weights self) -> unit_dict d).
  - destruct (String.eqb _ _).
    + apply keeps_context_aware_fusion; auto using normalize_unit.
    + apply keeps_weighted_fusion; auto using normalize_unit.
  - intros d Hd. apply keeps_ret. intros Hw.
    apply explain_all_unit, rank_unit. auto.
Qed.

(** *** Claims about the recommend methods *)

(** Under cascading, every pair returned for candidates that carry
    ['domains'] is the content model's mentor score of a candidate. *)
Lemma stage3_formula cos (ud : UserData) (items : list Profile)
    (s2 : list string) (top_k : nat) (recs : list (string * Q)) :
  Forall (fun m => is_Some (domains m)) items ->
  incl s2 (map _id items) ->
  cascading_stage3 cos ud items s2 top_k = Ok recs ->
  Forall (fun p =>
            exists m, In m items /\ _id m = fst p /\
              snd p
              = ContentBasedRecommender.calculate_similarity cos
                  (ContentBasedRecommender.build_user_profile ud)
                  (ContentBasedRecommender.build_mentor_profile m) * 0.8
                + default 0.8 (success_rate m) * 0.2)
    recs.
Proof.
  intros Hdom Hincl. unfold cascading_stage3.
  set (data := List.filter (fun item => Py.contains (_id item) s2) items).
  assert (incl data items) as Hdata.
  { intros m Hm. now apply filter_In in Hm as [Hm _]. }
  destruct data as [|first rest] eqn:E.
  - destruct s2 as [|c cs].
    + intros [= <-]. unfold Py.slice_to. rewrite firstn_nil. constructor.
    + exfalso. assert (In c (map _id items)) as Hc by (apply Hincl; now left).
      apply in_map_iff in Hc as (m & Hm & Hin).
      assert (In m data) as Habs.
      { unfold data. apply filter_In. split; [assumption|].
        apply DictFacts.contains_In. rewrite Hm. now left. }
      rewrite E in Habs. destruct Habs.
  - assert (In first items) as Hfirst by (apply Hdata; now left).
    rewrite List.Forall_forall in Hdom.
    rewrite (bool_decide_eq_true_2 _ (Hdom first Hfirst)).
    intros [= <-]. apply List.Forall_forall. intros [id sc] Hin.
    unfold ContentBasedRecommender.recommend_mentors in Hin.
    apply slice_to_incl, sort_desc_In, in_map_iff in Hin
      as (m & [= <- <-] & Hm).
    exists m. split; [now apply Hdata|]. split; reflexivity.
Qed.

Lemma cascading_formula cos (self : t) (user_id : string) (ud : UserData)
    (cands : list Profile) (top_k : nat) (recs : list (string * Q)) :
  Forall (fun m => is_Some (domains m)) cands ->
  _cascading_ensemble cos self user_id (map _id cands) ud cands top_k
  = Ok recs ->
  Forall (fun p =>
            exists m, In m cands /\ _id m = fst p /\
              snd p
              = ContentBasedRecommender.calculate_similarity cos
                  (ContentBasedRecommender.build_user_profile ud)
                  (ContentBasedRecommender.build_mentor_profile m) * 0.8
                + default 0.8 (success_rate m) * 0.2)
    recs.
Proof.
  intros Hdom. unfold _cascading_ensemble.
  destruct (cascading_stage1 _ _ _ _) as [s1|] eqn:E1; simpl; [|discriminate].
  destruct (cascading_stage2 _ _ _ _) as [s2|] eqn:E2; simpl; [|discriminate].
  apply stage1_Ok in E1. apply stage2_Ok in E2 as [E2 _].
  apply stage3_formula; [assumption|]. eauto using incl_tran.
Qed.

Lemma recommend_mentors_cascading cos (user_id : string) (ud : UserData)
    (cands : list Profile) (top_k : nat) (self : t) :
  keeps self (recommend_mentors cos user_id ud cands top_k)
    (fun recs =>
       ensemble_method self = "cascading" ->
       Forall (fun m => is_Some (domains m)) cands ->
       Forall (fun r =>
                 exists m, In m cands /\ _id m = fst (fst r) /\
                   snd (fst r)
                   = ContentBasedRecommender.calculate_similarity cos
                       (ContentBasedRecommender.build_user_profile ud)
                       (ContentBasedRecommender.build_mentor_profile m) * 0.8
                     + default 0.8 (success_rate m) * 0.2)
         recs).
Proof.
  unfold recommend_mentors. destruct cands as [|m ms] eqn:E.
  { apply keeps_ret. intros; constructor. }
  rewrite <- E. clear E.
  eapply keeps_bind; [apply keeps_cf_scores|]. intros cf Hcf.
  eapply keeps_bind; [apply keeps_gnn_scores|]. intros g Hg.
  eapply keeps_bind; [apply keeps_get_self|]. intros s ->.
  destruct (String.eqb (ensemble_method self) "weighted") eqn:E1;
    [|destruct (String.eqb (ensemble_method self) "context_aware") eqn:E2;
      [|destruct (String.eqb (ensemble_method self) "cascading") eqn:E3]].
  - eapply keeps_bind; [apply keeps_weighted_fusion; auto using normalize_unit|].
    intros d Hd. apply keeps_ret. intros Hm.
    apply String.eqb_eq in E1. rewrite Hm in E1. discriminate E1.
  - eapply keeps_bind;
      [apply keeps_context_aware_fusion; auto using normalize_unit|].
    intros d Hd. apply keeps_ret. intros Hm.
    apply String.eqb_eq in E2. rewrite Hm in E2. discriminate E2.
  - eapply keeps_bind;
      [apply keeps_lift
         with (P := fun recs =>
                      Forall (fun m => is_Some (domains m)) cands ->
                      Forall (fun p =>
                        exists m, In m cands /\ _id m = fst p /\
                          snd p
                          = ContentBasedRecommender.calculate_similarity cos
                              (ContentBasedRecommender.build_user_profile ud)
                              (ContentBasedRecommender.build_mentor_profile m)
                            * 0.8
                            + default 0.8 (success_rate m) * 0.2) recs)|].
    { intros recs H Hdom. eapply cascading_formula; eauto. }
    intros recs Hrecs. apply keeps_ret. intros _ Hdom.
    unfold explain_all. apply Forall_map. simpl. now apply Hrecs.
  - apply keeps_ret. intros Hm. rewrite Hm in E3. discriminate E3.
Qed.

(** C3 (as the code has it).  With non-negative coordinator weights every
    triple returned by [recommend_sessions] and [recommend_groups] has a
    score in [0, 1], and so has every triple returned by
    [recommend_mentors] under every method other than cascading.  Under
    cascading, when every candidate carries ['domains'], the score
    returned for an id is the content model's own score
    [0.8 * similarity + 0.2 * success_rate] of a candidate with that id
    (the success rate counting as 0.8 when absent), not normalized; it
    lies in [0, 1] when the cosine is at most 1 and every success rate
    lies in [0, 1]. *)
Theorem recommend_scores_in_unit cos (user_id : string) (ud : UserData)
    (cands : list Profile) (top_k : nat) (self : t) :
  nonneg_weights (weights self) ->
  (forall recs,
     fst (recommend_mentors cos user_id ud cands top_k self) = Ok recs ->
     (ensemble_method self = "cascading" ->
      cosine_bounded cos /\ Forall mentor_record cands) ->
     scores_in_unit recs) /\
  (forall recs,
     fst (recommend_sessions cos user_id ud cands top_k self) = Ok recs ->
     scores_in_unit recs) /\
  (forall recs,
     fst (recommend_groups user_id ud cands top_k self) = Ok recs ->
     scores_in_unit recs) /\
  (ensemble_method self = "cascading" ->
   Forall (fun m => is_Some (domains m)) cands ->
   forall recs,
     fst (recommend_mentors cos user_id ud cands top_k self) = Ok recs ->
     Forall (fun r =>
               exists m, In m cands /\ _id m = fst (fst r) /\
                 snd (fst r)
                 = ContentBasedRecommender.calculate_similarity cos
                     (ContentBasedRecommender.build_user_profile ud)
                     (ContentBasedRecommender.build_mentor_profile m) * 0.8
                   + default 0.8 (success_rate m) * 0.2)
       recs).
Proof.
  intros Hw. split; [|split; [|split]].
  - intros recs Hrecs Hc.
    now apply (proj2 (recommend_mentors_keeps cos user_id ud cands top_k self)).
  - intros recs Hrecs.
    now apply (proj2 (recommend_sessions_keeps cos user_id ud cands top_k self)).
  - intros recs Hrecs.
    now apply (proj2 (recommend_groups_keeps user_id ud cands top_k self)).
  - intros Hm Hdom recs Hrecs.
    now apply (proj2 (recommend_mentors_cascading cos user_id ud cands top_k
                        self)).
Qed.

Lemma default_weights_nonneg : nonneg_weights default_weights.
Proof. repeat split; discriminate. Qed.

Lemma sample_mentor_record (id : string) (rate : Q) :
  in_unit rate -> mentor_record (Sample.mentor id rate).
Proof. intros H. split; [simpl; eauto|]. simpl. now intros r [= <-]. Qed.

Lemma recommend_scores_in_unit_witness :
  exists recs,
    fst (recommend_mentors Sample.cosine "u1" Sample.user
           [Sample.mentor "a" 0.85; Sample.mentor "b" 0.9] 2
           (Sample.ensemble "cascading")) = Ok recs /\
    scores_in_unit recs /\
    Forall (fun r =>
              exists m,
                In m [Sample.mentor "a" 0.85; Sample.mentor "b" 0.9] /\
                _id m = fst (fst r) /\
                snd (fst r)
                = ContentBasedRecommender.calculate_similarity Sample.cosine
                    (ContentBasedRecommender.build_user_profile Sample.user)
                    (ContentBasedRecommender.build_mentor_profile m) * 0.8
                  + default 0.8 (success_rate m) * 0.2)
      recs.
Proof.
  eexists. split; [vm_compute; reflexivity|].
  pose proof (recommend_scores_in_unit Sample.cosine "u1" Sample.user
                [Sample.mentor "a" 0.85; Sample.mentor "b" 0.9] 2
                (Sample.ensemble "cascading") default_weights_nonneg)
    as (Hunit & _ & _ & Hformula).
  split.
  - apply Hunit.
    + vm_compute. reflexivity.
    + intros _. split.
      * intros a b. discriminate.
      * constructor; [apply sample_mentor_record; split; discriminate|].
        constructor; [apply sample_mentor_record; split; discriminate|].
        constructor.
  - apply Hformula.
    + reflexivity.
    + repeat constructor; simpl; eauto.
    + vm_compute. reflexivity.
Defined.

(** C3 (as stated) fails under cascading: a mentor whose success rate is
    recorded as the percentage 85 is returned with the content model's
    score [0.8 * similarity + 0.2 * 85]. *)
Lemma cascading_score_above_one :
  exists recs,
    fst (recommend_mentors Sample.cosine "u1" Sample.user
           [Sample.mentor "m1" 85] 10 (init "cascading" false)) = Ok recs /\
    ~ scores_in_unit recs.
Proof.
  eexists. split; [vm_compute; reflexivity|].
  intros H. inversion H as [|? ? [_ Hle] _]. simpl in Hle.
  apply Hle. reflexivity.
Qed.

(** C4 (the code departs from the claim).  [recommend_sessions] answers
    an empty candidate list with an empty list, but a session record whose
    ['max_participants'] is 0 makes it raise [ZeroDivisionError], whatever
    the state of the ensemble. *)
Theorem recommend_sessions_raises_on_zero_capacity cos (self : t) :
  fst (recommend_sessions cos "u1" Sample.user [] 10 self) = Ok [] /\
  fst (recommend_sessions cos "u1" Sample.user [Sample.closed_session] 10 self)
  = Raise ZeroDivisionError.
Proof. split; reflexivity. Qed.

(** C5. Whenever cascading fusion returns, it returns at most [top_k]
    pairs, every returned id is in the candidate set of stage 1, and each
    stage yields a subset of what it was given: stage 1 of the candidates,
    stage 2 of stage 1, stage 3 of stage 2. *)
Theorem cascading_narrows cos (self : t) (user_id : string)
    (item_candidates : list string) (ud : UserData) (items : list Profile)
    (top_k : nat) (recs : list (string * Q)) :
  _cascading_ensemble cos self user_id item_candidates ud items top_k
  = Ok recs ->
  exists s1 s2,
    cascading_stage1 self user_id item_candidates top_k = Ok s1 /\
    cascading_stage2 self user_id s1 top_k = Ok s2 /\
    cascading_stage3 cos ud items s2 top_k = Ok recs /\
    (length recs <= top_k)%nat /\
    incl (map fst recs) s1 /\
    incl s1 item_candidates /\ incl s2 s1 /\ incl (map fst recs) s2.
Proof.
  unfold _cascading_ensemble.
  destruct (cascading_stage1 _ _ _ _) as [s1|] eqn:E1; simpl; [|discriminate].
  destruct (cascading_stage2 _ _ _ _) as [s2|] eqn:E2; simpl; [|discriminate].
  intros E3. exists s1, s2.
  pose proof (stage1_Ok _ _ _ _ _ E1) as H1.
  pose proof (stage2_Ok _ _ _ _ _ E2) as [H2 _].
  pose proof (stage3_Ok _ _ _ _ _ _ E3) as [Hlen H3].
  repeat split; auto. now apply incl_tran with s2.
Qed.

Lemma cascading_narrows_witness :
  exists recs s1 s2,
    _cascading_ensemble Sample.cosine (Sample.ensemble "cascading") "u1"
      ["a"; "b"; "zz"] Sample.user
      [Sample.mentor "a" 0.85; Sample.mentor "b" 0.9; Sample.mentor "zz" 0.5]
      1 = Ok recs /\
    cascading_stage1 (Sample.ensemble "cascading") "u1" ["a"; "b"; "zz"] 1
      = Ok s1 /\
    cascading_stage2 (Sample.ensemble "cascading") "u1" s1 1 = Ok s2 /\
    (length recs <= 1)%nat /\ incl (map fst recs) s1.
Proof.
  eexists.
  destruct (cascading_narrows Sample.cosine (Sample.ensemble "cascading") "u1"
              ["a"; "b"; "zz"] Sample.user
              [Sample.mentor "a" 0.85; Sample.mentor "b" 0.9;
               Sample.mentor "zz" 0.5] 1 _ ltac:(vm_compute; reflexivity))
    as (s1 & s2 & H1 & H2 & _ & Hlen & Hincl & _).
  exists s1, s2. repeat split; auto.
Defined.

(** The run behind the witness. *)
Example cascading_sample :
  _cascading_ensemble Sample.cosine (Sample.ensemble "cascading") "u1"
    ["a"; "b"; "zz"] Sample.user
    [Sample.mentor "a" 0.85; Sample.mentor "b" 0.9; Sample.mentor "zz" 0.5] 1
  = Ok [("b", 0.5 * 0.8 + 0.9 * 0.2)].
Proof. vm_compute. reflexivity. Qed.

(** Stage 2 when the collaborative model is ready: the ids of its first
    [2 * top_k] recommendations among the ids of stage 1. *)
Lemma stage2_ready (self : t) (user_id : string) (s1 : list string)
    (top_k : nat) :
  Keyed.collaborative (models_ready self) = true ->
  cascading_stage2 self user_id s1 top_k
  = (r ← CollaborativeFilter.recommend_items (collaborative self) user_id s1
           (top_k * 2);
     mret (map fst r)).
Proof.
  intros Hready. unfold cascading_stage2. rewrite Hready. simpl.
  case_bool_decide as Hnil; [|reflexivity]. now subst s1.
Qed.

(** C6 (as the code has it).  When the graph model is ready, stage 1 is
    the ids of the graph model's first [5 * top_k] recommendations; when
    it is not, stage 1 is the first [3 * top_k] candidates, which is the
    full list only if there are at most that many.  When the
    collaborative model is ready, stage 2 is the ids of its first
    [2 * top_k] recommendations among the ids of stage 1: the
    [2 * top_k] ids it scores highest, or all of them when there are
    fewer; when it is not ready, stage 2 passes the ids of stage 1 on
    unchanged. *)
Theorem cascading_stage_sizes (self : t) (user_id : string)
    (item_candidates : list string) (top_k : nat) :
  (Keyed.gnn (models_ready self) = true ->
   cascading_stage1 self user_id item_candidates top_k
   = (r ← GNNRecommender.recommend_items (gnn self) user_id item_candidates
            (top_k * 5);
      mret (map fst r)) /\
   forall s1, cascading_stage1 self user_id item_candidates top_k = Ok s1 ->
     (length s1 <= top_k * 5)%nat /\ incl s1 item_candidates) /\
  (Keyed.gnn (models_ready self) = false ->
   cascading_stage1 self user_id item_candidates top_k
   = Ok (firstn (top_k * 3) item_candidates) /\
   ((length item_candidates <= top_k * 3)%nat ->
    cascading_stage1 self user_id item_candidates top_k = Ok item_candidates)) /\
  (Keyed.collaborative (models_ready self) = true ->
   forall s1,
     cascading_stage2 self user_id s1 top_k
     = (r ← CollaborativeFilter.recommend_items (collaborative self) user_id
              s1 (top_k * 2);
        mret (map fst r)) /\
     forall s2, cascading_stage2 self user_id s1 top_k = Ok s2 ->
       exists scores,
         CollaborativeFilter.predict (collaborative self) user_id s1
           = Ok scores /\
         s2 = map fst (firstn (top_k * 2) (Py.sort_desc snd (zip s1 scores))) /\
         length s2 = Nat.min (top_k * 2) (length s1) /\
         incl s2 s1) /\
  (Keyed.collaborative (models_ready self) = false ->
   forall s1, cascading_stage2 self user_id s1 top_k = Ok s1).
Proof.
  split; [|split; [|split]].
  - intros Hready.
    assert (cascading_stage1 self user_id item_candidates top_k
            = (r ← GNNRecommender.recommend_items (gnn self) user_id
                     item_candidates (top_k * 5);
               mret (map fst r))) as Heq.
    { unfold cascading_stage1. rewrite Hready.
      now rewrite gnn_recommend_items_min. }
    split; [exact Heq|]. intros s1 Hs1.
    split; [|now apply stage1_Ok in Hs1].
    rewrite Heq in Hs1.
    destruct (GNNRecommender.recommend_items _ _ _ _) as [r|e] eqn:E;
      simpl in Hs1; [|discriminate].
    injection Hs1 as <-. rewrite length_map.
    apply gnn_recommend_items_Ok in E as (ranked & -> & _).
    apply firstn_le_length.
  - intros Hready. unfold cascading_stage1. rewrite Hready.
    split; [reflexivity|]. intros Hlen.
    unfold Py.slice_to. now rewrite firstn_all2.
  - intros Hready s1. split; [now apply stage2_ready|].
    intros s2 Hs2. pose proof (stage2_Ok _ _ _ _ _ Hs2) as [Hincl _].
    rewrite (stage2_ready _ _ _ _ Hready) in Hs2.
    destruct (CollaborativeFilter.predict (collaborative self) user_id s1)
      as [scores|e] eqn:Hp.
    + pose proof (CollaborativeFilterFacts.predict_length _ _ _ _ Hp) as Hlen.
      rewrite (CollaborativeFilterFacts.recommend_items_eq _ _ _ _ _ Hp Hlen)
        in Hs2.
      simpl in Hs2. injection Hs2 as <-. exists scores.
      split; [reflexivity|]. split; [reflexivity|]. split; [|exact Hincl].
      unfold Py.slice_to.
      rewrite length_map, length_firstn, sort_desc_length, length_zip. lia.
    + exfalso. unfold CollaborativeFilter.recommend_items in Hs2.
      destruct s1 as [|c cs]; [simpl in Hp; revert Hp|rewrite Hp in Hs2;
                                                       discriminate Hs2].
      unfold CollaborativeFilter.predict.
      destruct (negb _); [discriminate|].
      destruct (CollaborativeFilter.user_id_map _ !! user_id);
        [discriminate|].
      destruct (CollaborativeFilter.item_bias _); discriminate.
  - intros Hready s1. unfold cascading_stage2. now rewrite Hready.
Qed.

Lemma cascading_stage_sizes_witness :
  cascading_stage1 (Sample.ensemble "cascading") "u1" ["a"; "b"; "zz"] 1
    = (r ← GNNRecommender.recommend_items Sample.gnn "u1" ["a"; "b"; "zz"] 5;
       mret (map fst r)) /\
  cascading_stage1 (init "cascading" false) "u1" ["a"; "b"; "c"; "d"] 1
    = Ok ["a"; "b"; "c"] /\
  (cascading_stage2 (Sample.ensemble "cascading") "u1" ["a"; "b"; "zz"] 1
     = Ok ["b"; "a"] /\
   length ["b"; "a"] = Nat.min (1 * 2) (length ["a"; "b"; "zz"])) /\
  cascading_stage2 (init "cascading" false) "u1" ["a"; "b"; "c"] 1
    = Ok ["a"; "b"; "c"].
Proof.
  split; [|split; [|split]].
  - apply (proj1 (proj1 (cascading_stage_sizes (Sample.ensemble "cascading")
                           "u1" ["a"; "b"; "zz"] 1) eq_refl)).
  - apply (proj1 (proj1 (proj2 (cascading_stage_sizes
                                  (init "cascading" false) "u1"
                                  ["a"; "b"; "c"; "d"] 1)) eq_refl)).
  - assert (cascading_stage2 (Sample.ensemble "cascading") "u1"
              ["a"; "b"; "zz"] 1 = Ok ["b"; "a"]) as E
        by (vm_compute; reflexivity).
    split; [exact E|].
    destruct (proj2 (proj1 (proj2 (proj2 (cascading_stage_sizes
                (Sample.ensemble "cascading") "u1" ["a"; "b"; "zz"] 1)))
                eq_refl ["a"; "b"; "zz"]) _ E) as (scores & _ & _ & Hlen & _).
    exact Hlen.
  - apply (proj2 (proj2 (proj2 (cascading_stage_sizes
                                  (init "cascading" false) "u1"
                                  ["a"; "b"; "c"] 1))) eq_refl).
Defined.

(** C6 (as stated) fails in two places.  When the graph model is not
    ready and there are more than [3 * top_k] candidates, stage 1 is not
    the full list; and when the collaborative model is not ready, stage 2
    does not narrow: three ids stay three with [top_k = 1]. *)
Lemma unready_graph_truncates :
  ~ unready_graph_keeps_all (init "cascading" false) "u1"
      ["a"; "b"; "c"; "d"] 1 /\
  ~ collaborative_narrows (init "cascading" false) "u1" ["a"; "b"; "c"] 1.
Proof.
  split.
  - intros H. specialize (H eq_refl). discriminate H.
  - intros H. specialize (H ["a"; "b"; "c"] eq_refl). discriminate H.
Qed.






(** A context-aware call that raises before the fusion, and one that
    returns: the weights are the default ones afterwards. *)
Example context_aware_raise_keeps_weights :
  recommend_sessions Sample.cosine "u1" Sample.user [Sample.closed_session] 10
    (init "context_aware" false)
  = (Raise ZeroDivisionError, init "context_aware" false).
Proof. reflexivity. Qed.

Example context_aware_return_keeps_weights :
  snd (recommend_mentors Sample.cosine "u1" Sample.user
         [Sample.mentor "a" 0.85; Sample.mentor "b" 0.9] 2
         (Sample.ensemble "context_aware"))
  = Sample.ensemble "context_aware".
Proof. vm_compute. reflexivity. Qed.

End HybridEnsembleFacts.

(** ** Evaluation metrics *)

Module EvaluationFacts.
Import Evaluation.

Lemma ratio_nonneg (a b : nat) : 0 <= ratio a b.
Proof.
  unfold ratio. destruct b as [|b].
  - unfold Qdiv. simpl. rewrite Qmult_0_r. apply Qle_refl.
  - apply Qle_shift_div_l.
    + rewrite <- (Zlt_Qlt 0). lia.
    + rewrite Qmult_0_l. rewrite <- (Zle_Qle 0). lia.
Qed.

Lemma ratio_le_1 (a b : nat) : (a <= b)%nat -> ratio a b <= 1.
Proof.
  intros Hab. unfold ratio. destruct b as [|b].
  - unfold Qdiv. simpl. rewrite Qmult_0_r. discriminate.
  - apply Qle_shift_div_r.
    + rewrite <- (Zlt_Qlt 0). lia.
    + rewrite Qmult_1_l. rewrite <- Zle_Qle. lia.
Qed.

Lemma ratio_pos (a b : nat) : (0 < b)%nat -> (0 < ratio a b <-> (0 < a)%nat).
Proof.
  intros Hb. unfold ratio. split.
  - intros H. destruct a; [|lia]. exfalso.
    unfold Qdiv in H. simpl in H. rewrite Qmult_0_l in H.
    now apply Qlt_irrefl in H.
  - intros Ha. apply Qlt_shift_div_l.
    + rewrite <- (Zlt_Qlt 0). lia.
    + rewrite Qmult_0_l. rewrite <- (Zlt_Qlt 0). lia.
Qed.

Lemma ratio_mono (a a' b : nat) : (a <= a')%nat -> ratio a b <= ratio a' b.
Proof.
  intros Ha. unfold ratio, Qdiv. apply Qmult_le_compat_r.
  - rewrite <- Zle_Qle. lia.
  - apply Qinv_le_0_compat. rewrite <- (Zle_Qle 0). lia.
Qed.

Lemma hits_le_length (l : list string) (s : gset string) :
  (hits l s <= length l)%nat.
Proof.
  unfold hits. induction l as [|x l IH]; simpl; [lia|].
  destruct (bool_decide _); simpl; lia.
Qed.

(** Distinct items cannot hit more often than there are relevant items. *)
Lemma hits_le_size (l : list string) (s : gset string) :
  NoDup l -> (hits l s <= size s)%nat.
Proof.
  intros Hnd. unfold hits.
  set (f := List.filter (fun item => bool_decide (item ∈ s)) l).
  assert (NoDup f) as Hf.
  { apply NoDup_ListNoDup, List.NoDup_filter, NoDup_ListNoDup, Hnd. }
  rewrite <- (size_list_to_set (C := gset string) f Hf).
  apply subseteq_size. intros x Hx.
  apply elem_of_list_to_set, list_elem_of_In, filter_In in Hx as [_ Hx].
  now apply bool_decide_eq_true in Hx.
Qed.

Lemma hits_firstn_mono (l : list string) (s : gset string) (k k' : nat) :
  (k <= k')%nat -> (hits (firstn k l) s <= hits (firstn k' l) s)%nat.
Proof.
  unfold hits. revert k k'. induction l as [|x l IH]; intros k k' Hk.
  - now rewrite !firstn_nil.
  - destruct k as [|k]; [simpl; lia|].
    destruct k' as [|k']; [lia|]. simpl.
    specialize (IH k k' ltac:(lia)).
    destruct (bool_decide _); simpl; lia.
Qed.

Lemma hits_pos (l : list string) (s : gset string) :
  (0 < hits l s)%nat <-> exists x, In x l /\ x ∈ s.
Proof.
  unfold hits. split.
  - intros H.
    destruct (List.filter _ l) as [|x f] eqn:E; [simpl in H; lia|].
    assert (In x (List.filter (fun item => bool_decide (item ∈ s)) l)) as Hx
        by (rewrite E; now left).
    apply filter_In in Hx as [Hin Hs]. apply bool_decide_eq_true in Hs. eauto.
  - intros (x & Hin & Hs).
    assert (In x (List.filter (fun item => bool_decide (item ∈ s)) l)) as Hx.
    { apply filter_In. split; [assumption|]. now apply bool_decide_eq_true. }
    destruct (List.filter _ l); [destruct Hx|simpl; lia].
Qed.

(** [precision_at_k] always lies in [0, 1]. *)
Theorem precision_at_k_unit (recommendations relevant_items : list string)
    (k : nat) :
  0 <= precision_at_k recommendations relevant_items k /\
  precision_at_k recommendations relevant_items k <= 1.
Proof.
  unfold precision_at_k.
  destruct ((k =? 0)%nat || _); [split; discriminate|].
  split; [apply ratio_nonneg|]. apply ratio_le_1.
  etransitivity; [apply hits_le_length|apply slice_to_length].
Qed.

(** [recall_at_k] lies in [0, 1] when no item is recommended twice. *)
Theorem recall_at_k_unit (recommendations relevant_items : list string)
    (k : nat) :
  NoDup recommendations ->
  0 <= recall_at_k recommendations relevant_items k /\
  recall_at_k recommendations relevant_items k <= 1.
Proof.
  intros Hnd. unfold recall_at_k.
  destruct (_ || _); [split; discriminate|].
  split; [apply ratio_nonneg|]. apply ratio_le_1, hits_le_size.
  unfold Py.slice_to. apply NoDup_ListNoDup.
  rewrite <- (firstn_skipn k recommendations) in Hnd.
  apply NoDup_ListNoDup in Hnd. now apply List.NoDup_app_remove_r in Hnd.
Qed.

Lemma recall_at_k_unit_witness :
  NoDup ["a"; "b"; "c"] /\
  0 <= recall_at_k ["a"; "b"; "c"] ["b"; "z"] 2 /\
  recall_at_k ["a"; "b"; "c"] ["b"; "z"] 2 <= 1.
Proof.
  assert (NoDup ["a"; "b"; "c"]) as H.
  { repeat (constructor;
            [rewrite list_elem_of_In; simpl; intuition discriminate|]).
    constructor. }
  split; [exact H|].
  apply (recall_at_k_unit ["a"; "b"; "c"] ["b"; "z"] 2 H).
Defined.

(** A repeated recommendation is counted each time it occurs. *)
Example recall_at_k_repeated : recall_at_k ["a"; "a"] ["a"] 2 == 2.
Proof. vm_compute. reflexivity. Qed.

(** [recall_at_k] does not decrease when [k] grows. *)
Theorem recall_at_k_monotone (recommendations relevant_items : list string)
    (k k' : nat) :
  (k <= k')%nat ->
  recall_at_k recommendations relevant_items k
  <= recall_at_k recommendations relevant_items k'.
Proof.
  intros Hk. unfold recall_at_k.
  destruct (_ || _); [apply Qle_refl|].
  apply ratio_mono. now apply hits_firstn_mono.
Qed.

Lemma recall_at_k_monotone_witness :
  recall_at_k ["a"; "b"; "c"] ["c"; "b"] 1
  <= recall_at_k ["a"; "b"; "c"] ["c"; "b"] 3.
Proof. apply recall_at_k_monotone. lia. Defined.

(** [hit_rate_at_k] is 1 exactly when [precision_at_k] is positive, and
    0 otherwise. *)
Theorem hit_rate_iff_precision_positive
    (recommendations relevant_items : list string) (k : nat) :
  hit_rate_at_k recommendations relevant_items k
  = if Qlt_le_dec 0 (precision_at_k recommendations relevant_items k)
    then 1 else 0.
Proof.
  unfold hit_rate_at_k, precision_at_k.
  destruct recommendations as [|r rs] eqn:Er.
  { rewrite orb_true_r. reflexivity. }
  rewrite <- Er. assert (recommendations <> []) as Hne by (subst; discriminate).
  clear Er. rewrite (bool_decide_eq_false_2 (recommendations = [])) by assumption.
  rewrite orb_false_r. simpl.
  destruct k as [|k].
  { simpl. destruct (bool_decide (relevant_items = [])); [reflexivity|].
    unfold Py.slice_to. simpl.
    rewrite bool_decide_eq_false_2; [reflexivity|]. set_solver. }
  simpl (S k =? 0)%nat. cbv iota.
  set (top := Py.slice_to (S k) recommendations).
  set (rel := list_to_set relevant_items : gset string).
  assert ((0 < hits top rel)%nat <-> list_to_set top ∩ rel ≠ (∅ : gset string))
    as Hiff.
  { rewrite hits_pos. split.
    - intros (x & Hin & Hs) Hempty.
      assert (x ∈ (list_to_set top ∩ rel : gset string)) as Hx.
      { apply elem_of_intersection. split; [|assumption].
        apply elem_of_list_to_set. now apply list_elem_of_In. }
      rewrite Hempty in Hx. set_solver.
    - intros Hne'. apply set_choose_L in Hne' as [x Hx].
      apply elem_of_intersection in Hx as [Hx1 Hx2].
      exists x. split; [|assumption].
      apply list_elem_of_In. now apply elem_of_list_to_set in Hx1. }
  destruct (bool_decide (relevant_items = [])) eqn:Erel.
  { apply bool_decide_eq_true in Erel. subst relevant_items.
    destruct (Qlt_le_dec 0 _) as [Hpos|]; [|reflexivity].
    apply ratio_pos in Hpos; [|lia]. apply Hiff in Hpos.
    exfalso. apply Hpos. subst rel. set_solver. }
  destruct (Qlt_le_dec 0 _) as [Hpos|Hle].
  - apply ratio_pos in Hpos; [|lia]. apply Hiff in Hpos.
    now rewrite bool_decide_eq_true_2.
  - rewrite bool_decide_eq_false_2; [reflexivity|].
    intros Hne'. apply Hiff in Hne'. apply (ratio_pos _ (S k)) in Hne'; [|lia].
    apply (Qlt_not_le _ _ Hne'). exact Hle.
Qed.

Lemma ap_loop_inv (s : gset string) (recs : list string) (i h : nat)
    (sc : Q) :
  (h <= i)%nat -> 0 <= sc -> sc <= inject_Z (Z.of_nat h) ->
  fst (ap_loop s i recs h sc) = (h + hits recs s)%nat /\
  0 <= snd (ap_loop s i recs h sc) /\
  snd (ap_loop s i recs h sc) <= inject_Z (Z.of_nat (fst (ap_loop s i recs h sc))).
Proof.
  revert i h sc. induction recs as [|x recs IH]; intros i h sc Hhi H0 Hsc.
  - simpl. unfold hits. simpl. rewrite Nat.add_0_r. auto.
  - cbn [ap_loop]. unfold hits. cbn [List.filter].
    destruct (bool_decide (x ∈ s)).
    + pose proof (ratio_nonneg (S h) (i + 1)) as Hp0.
      pose proof (ratio_le_1 (S h) (i + 1) ltac:(lia)) as Hp1.
      destruct (IH (S i) (S h) (sc + ratio (S h) (i + 1))) as (E & H0' & H1').
      * lia.
      * lra.
      * rewrite Nat2Z.inj_succ. unfold Z.succ. rewrite inject_Z_plus.
        change (inject_Z 1) with 1. lra.
      * rewrite E in *. split; [|split; assumption]. unfold hits. simpl. lia.
    + destruct (IH (S i) h sc) as (E & H0' & H1'); auto.
Qed.

(** [average_precision] lies in [0, 1] when no item is recommended
    twice. *)
Theorem average_precision_unit (recommendations relevant_items : list string) :
  NoDup recommendations ->
  0 <= average_precision recommendations relevant_items /\
  average_precision recommendations relevant_items <= 1.
Proof.
  intros Hnd. unfold average_precision.
  destruct (_ || _); [split; discriminate|].
  set (s := list_to_set relevant_items : gset string).
  destruct (ap_loop_inv s recommendations 0 0 0) as (E & H0 & H1);
    [lia|apply Qle_refl|apply Qle_refl|].
  destruct (ap_loop s 0 recommendations 0 0) as [num_hits score].
  simpl in E, H0, H1. subst num_hits.
  destruct (hits recommendations s =? 0)%nat eqn:Ez; [split; discriminate|].
  apply Nat.eqb_neq in Ez.
  pose proof (hits_le_size recommendations s Hnd) as Hsize.
  assert (0 < inject_Z (Z.of_nat (size s))) as Hpos
      by (rewrite <- (Zlt_Qlt 0); lia).
  split.
  - apply Qle_shift_div_l; [assumption|]. now rewrite Qmult_0_l.
  - apply Qle_shift_div_r; [assumption|]. rewrite Qmult_1_l.
    apply Qle_trans with (inject_Z (Z.of_nat (hits recommendations s)));
      [assumption|].
    rewrite <- Zle_Qle. lia.
Qed.

Lemma average_precision_unit_witness :
  NoDup ["a"; "b"; "c"] /\
  0 <= average_precision ["a"; "b"; "c"] ["c"; "a"] /\
  average_precision ["a"; "b"; "c"] ["c"; "a"] <= 1.
Proof.
  assert (NoDup ["a"; "b"; "c"]) as H.
  { repeat (constructor;
            [rewrite list_elem_of_In; simpl; intuition discriminate|]).
    constructor. }
  split; [exact H|].
  apply (average_precision_unit ["a"; "b"; "c"] ["c"; "a"] H).
Defined.

(** The run behind the witness: hits at ranks 1 and 3 of two relevant
    items give (1/1 + 2/3) / 2. *)
Example average_precision_sample :
  average_precision ["a"; "b"; "c"] ["c"; "a"] == 5 # 6.
Proof. vm_compute. reflexivity. Qed.

Lemma mean_unit (values : list Q) :
  Forall (fun v => 0 <= v /\ v <= 1) values ->
  0 <= mean values /\ mean values <= 1.
Proof.
  intros Hv. unfold mean.
  assert (0 <= fold_right Qplus 0 values /\
          fold_right Qplus 0 values <= inject_Z (Z.of_nat (length values)))
    as [H0 H1].
  { induction Hv as [|v l [Hv0 Hv1] _ [IH0 IH1]]; simpl.
    - split; apply Qle_refl.
    - change (length (v :: l)) with (S (length l)).
      rewrite Nat2Z.inj_succ. unfold Z.succ. rewrite inject_Z_plus.
      change (inject_Z 1) with 1. split; lra. }
  destruct values as [|v l].
  - simpl. unfold Qdiv. simpl. rewrite Qmult_0_r. split; discriminate.
  - assert (0 < inject_Z (Z.of_nat (length (v :: l)))) as Hpos
        by (rewrite <- (Zlt_Qlt 0); simpl; lia).
    split.
    + apply Qle_shift_div_l; [assumption|]. now rewrite Qmult_0_l.
    + apply Qle_shift_div_r; [assumption|]. now rewrite Qmult_1_l.
Qed.

(** [mean_average_precision] raises [ValueError] exactly when the two
    lists differ in length; otherwise it returns a value, which lies in
    [0, 1] when no user is recommended an item twice. *)
Theorem mean_average_precision_spec
    (all_recommendations all_relevant : list (list string)) :
  (length all_recommendations <> length all_relevant ->
   mean_average_precision all_recommendations all_relevant = Raise ValueError) /\
  (length all_recommendations = length all_relevant ->
   exists v,
     mean_average_precision all_recommendations all_relevant = Ok v /\
     (Forall NoDup all_recommendations -> 0 <= v /\ v <= 1)).
Proof.
  unfold mean_average_precision. split; intros Hlen.
  - apply Nat.eqb_neq in Hlen. now rewrite Hlen.
  - apply Nat.eqb_eq in Hlen. rewrite Hlen. simpl.
    set (scores := map _ _).
    assert (Forall NoDup all_recommendations ->
            Forall (fun v => 0 <= v /\ v <= 1) scores) as Hscores.
    { intros Hnd. subst scores. apply List.Forall_forall. intros v Hv.
      apply in_map_iff in Hv as ([recs rel] & <- & Hin). simpl.
      apply average_precision_unit.
      rewrite List.Forall_forall in Hnd. apply Hnd.
      apply list_elem_of_In in Hin. apply elem_of_zip_l in Hin.
      now apply list_elem_of_In. }
    destruct scores as [|v0 rest] eqn:E.
    + exists 0. split; [reflexivity|]. intros _. split; discriminate.
    + rewrite <- E in *. exists (mean scores). split; [reflexivity|].
      intros Hnd. apply mean_unit. auto.
Qed.

Lemma mean_average_precision_spec_witness :
  mean_average_precision [["a"]; ["b"]] [["a"]] = Raise ValueError /\
  exists v, mean_average_precision [["a"; "b"]; ["c"]] [["b"]; ["d"]] = Ok v.
Proof.
  split.
  - apply (proj1 (mean_average_precision_spec [["a"]; ["b"]] [["a"]])).
    simpl. lia.
  - destruct (proj2 (mean_average_precision_spec
                       [["a"; "b"]; ["c"]] [["b"]; ["d"]]) eq_refl)
      as (v & Hv & _).
    exists v. exact Hv.
Defined.

End EvaluationFacts.

(** ** The graph builder *)

Module GraphBuilderFacts.
Import GraphBuilder.

Lemma fold_left_inv {A B} (P : A -> Prop) (f : A -> B -> A) (l : list B)
    (a : A) :
  P a -> (forall a b, In b l -> P a -> P (f a b)) -> P (fold_left f l a).
Proof.
  revert a. induction l as [|b l IH]; intros a Ha Hf; simpl; [assumption|].
  apply IH.
  - apply Hf; [now left|assumption].
  - intros a' b' Hb'. apply Hf. now right.
Qed.

Lemma extends_refl (self : t) : extends self self.
Proof. repeat split; try reflexivity. exists []. now rewrite app_nil_r. Qed.

Lemma extends_trans (a b c : t) : extends a b -> extends b c -> extends a c.
Proof.
  intros (H1 & H2 & H3 & H4 & n1 & E1) (H1' & H2' & H3' & H4' & n2 & E2).
  repeat split; try (etransitivity; eassumption).
  exists (n1 ++ n2). rewrite E2, E1. now rewrite app_assoc.
Qed.

Lemma edge_typed_extends (self self' : t) (e : Edge) :
  extends self self' -> edge_typed self e -> edge_typed self' e.
Proof.
  intros (Hu & Hm & Hs & Hg & _) [Hsrc Hcases]. split; [set_solver|].
  destruct Hcases as [(? & ? & ?)|[(? & ? & ?)|[(? & ? & ?)|[(? & ? & ?)|(? & ? & ?)]]]];
    [left|right; left|right; right; left|right; right; right; left
     |right; right; right; right];
    repeat split; auto.
Qed.

(** Growing the node sets keeps a builder well formed. *)
Lemma well_formed_nodes (self self' : t) :
  extends self self' -> edges self' = edges self ->
  well_formed self -> well_formed self'.
Proof.
  intros Hext He Hwf. unfold well_formed in *. rewrite He.
  eapply Forall_impl; [exact Hwf|]. intros e. now apply edge_typed_extends.
Qed.

Lemma extends_add_user (u : string) (self : t) : extends self (add_user u self).
Proof.
  repeat split; simpl; try reflexivity; [set_solver|].
  exists []. now rewrite app_nil_r.
Qed.

Lemma extends_add_mentor (m : string) (self : t) :
  extends self (add_mentor m self).
Proof.
  repeat split; simpl; try reflexivity; [set_solver|].
  exists []. now rewrite app_nil_r.
Qed.

Lemma extends_add_session (x : string) (self : t) :
  extends self (add_session x self).
Proof.
  repeat split; simpl; try reflexivity; [set_solver|].
  exists []. now rewrite app_nil_r.
Qed.

Lemma extends_add_group (g : string) (self : t) :
  extends self (add_group g self).
Proof.
  repeat split; simpl; try reflexivity; [set_solver|].
  exists []. now rewrite app_nil_r.
Qed.

Lemma extends_append_edge (e : Edge) (self : t) :
  extends self (append_edge e self).
Proof. repeat split; simpl; try reflexivity. now exists [e]. Qed.

Lemma well_formed_append (e : Edge) (self : t) :
  well_formed self -> edge_typed self e -> well_formed (append_edge e self).
Proof.
  intros Hwf He. unfold well_formed. simpl. apply Forall_app. split.
  - eapply Forall_impl; [exact Hwf|]. intros e' He'. exact He'.
  - constructor; [exact He|constructor].
Qed.

(** One request of [add_user_mentor_edges]. *)
Lemma mentor_step (self : t) (request : Doc.Request) :
  well_formed self ->
  let self' :=
    (let user_id := PyStr.str (Doc.req_learnerId request) in
     let mentor_id := PyStr.str (Doc.req_mentorId request) in
     let status := Doc.req_status request in
     let self := add_mentor mentor_id (add_user user_id self) in
     if decide (status = Some "accepted") then
       append_edge (mk_edge user_id mentor_id "mentored_by" 1.0) self
     else self) in
  well_formed self' /\ extends self self'.
Proof.
  intros Hwf. cbv zeta.
  set (s1 := add_mentor _ (add_user _ self)).
  assert (extends self s1) as Hext.
  { eapply extends_trans; [apply extends_add_user|apply extends_add_mentor]. }
  assert (well_formed s1) as Hwf1
      by (eapply well_formed_nodes; [exact Hext|reflexivity|exact Hwf]).
  destruct (decide _); [|auto].
  split.
  - apply well_formed_append; [assumption|].
    split; [simpl; set_solver|]. left. simpl. repeat split. set_solver.
  - eapply extends_trans; [exact Hext|apply extends_append_edge].
Qed.

Lemma add_user_mentor_edges_wf (self : t) (reqs : list Doc.Request) :
  well_formed self ->
  well_formed (add_user_mentor_edges self reqs) /\
  extends self (add_user_mentor_edges self reqs).
Proof.
  intros Hwf. unfold add_user_mentor_edges.
  apply (fold_left_inv (fun s => well_formed s /\ extends self s)).
  - split; [assumption|apply extends_refl].
  - intros s r _ [Hs He].
    destruct (mentor_step s r Hs) as [Hs' He']. cbv zeta in Hs', He'.
    split; [exact Hs'|]. eapply extends_trans; eassumption.
Qed.

Lemma add_user_session_edges_wf (self : t) (ss : list Doc.Session) :
  well_formed self ->
  well_formed (add_user_session_edges self ss) /\
  extends self (add_user_session_edges self ss).
Proof.
  intros Hwf. unfold add_user_session_edges.
  apply (fold_left_inv (fun s => well_formed s /\ extends self s)).
  - split; [assumption|apply extends_refl].
  - intros s session _ [Hs He]. cbv zeta.
    set (sid := PyStr.str (Doc.sess_id session)).
    assert (well_formed (add_session sid s) /\ extends self (add_session sid s)
            /\ sid ∈ sessions (add_session sid s)) as Hstart.
    { split; [|split].
      - eapply well_formed_nodes;
          [apply extends_add_session|reflexivity|exact Hs].
      - eapply extends_trans; [exact He|apply extends_add_session].
      - simpl. set_solver. }
    match goal with
    | |- well_formed (fold_left ?f ?l ?a) /\ _ =>
        enough (well_formed (fold_left f l a) /\ extends self (fold_left f l a)
                /\ sid ∈ sessions (fold_left f l a)) by tauto;
        apply (fold_left_inv
                 (fun x => well_formed x /\ extends self x /\ sid ∈ sessions x))
    end; [exact Hstart|].
    intros x p _ (Hx & Hex & Hsid).
    set (uid := PyStr.str (Doc.part_userId p)).
    assert (extends x (add_user uid x)) as Hxu by apply extends_add_user.
    assert (well_formed (add_user uid x)) as Hwu
        by (eapply well_formed_nodes; [exact Hxu|reflexivity|exact Hx]).
    destruct (Py.contains _ _).
    + split; [|split].
      * apply well_formed_append; [assumption|].
        split; [simpl; set_solver|]. right. left. simpl.
        repeat split; [assumption|].
        destruct (String.eqb _ "completed"); auto.
      * eapply extends_trans; [exact Hex|].
        eapply extends_trans; [exact Hxu|apply extends_append_edge].
      * simpl. exact Hsid.
    + split; [assumption|]. split; [|exact Hsid].
      eapply extends_trans; eassumption.
Qed.

Lemma add_session_organizer_edges_wf (self : t) (ss : list Doc.Session) :
  well_formed self ->
  well_formed (add_session_organizer_edges self ss) /\
  extends self (add_session_organizer_edges self ss).
Proof.
  intros Hwf. unfold add_session_organizer_edges.
  apply (fold_left_inv (fun s => well_formed s /\ extends self s)).
  - split; [assumption|apply extends_refl].
  - intros s session _ [Hs He]. cbv zeta.
    set (s1 := add_user _ (add_session _ s)).
    assert (extends s s1) as Hext.
    { eapply extends_trans; [apply extends_add_session|apply extends_add_user]. }
    assert (well_formed s1) as Hwf1
        by (eapply well_formed_nodes; [exact Hext|reflexivity|exact Hs]).
    split.
    + apply well_formed_append; [assumption|].
      split; [simpl; set_solver|]. right. right. left. simpl.
      repeat split. set_solver.
    + eapply extends_trans; [exact He|].
      eapply extends_trans; [exact Hext|apply extends_append_edge].
Qed.

Lemma peer_pairs_In (l : list string) (a b : string) :
  In (a, b) (peer_pairs l) -> In a l /\ In b l.
Proof.
  induction l as [|x l IH]; simpl; [tauto|].
  rewrite in_app_iff, in_map_iff.
  intros [(y & [= <- <-] & Hy)|H]; [auto|]. apply IH in H. tauto.
Qed.

Lemma add_user_group_edges_wf (self : t) (gs : list Doc.Group) :
  well_formed self ->
  well_formed (add_user_group_edges self gs) /\
  extends self (add_user_group_edges self gs).
Proof.
  intros Hwf. unfold add_user_group_edges.
  apply (fold_left_inv (fun s => well_formed s /\ extends self s)).
  - split; [assumption|apply extends_refl].
  - intros s group _ [Hs He]. cbv zeta.
    set (gid := PyStr.str (Doc.grp_id group)).
    set (members :=
           fold_left
             (fun '(self, member_ids) member =>
                let user_id := PyStr.str (Doc.mem_userId member) in
                let self := add_user user_id self in
                let member_ids := member_ids ++ [user_id] in
                (append_edge (mk_edge user_id gid "member_of" 1.0) self,
                 member_ids))
             (Doc.grp_members group) (add_group gid s, [])).
    assert (well_formed (fst members) /\ extends self (fst members) /\
            gid ∈ groups (fst members) /\
            forall u, In u (snd members) -> u ∈ users (fst members)) as Hm.
    { subst members.
      apply (fold_left_inv
               (fun st => well_formed (fst st) /\ extends self (fst st) /\
                          gid ∈ groups (fst st) /\
                          forall u, In u (snd st) -> u ∈ users (fst st))).
      - simpl. split; [|split; [|split]].
        + eapply well_formed_nodes;
            [apply extends_add_group|reflexivity|exact Hs].
        + eapply extends_trans; [exact He|apply extends_add_group].
        + set_solver.
        + tauto.
      - intros [x ids] m _ (Hx & Hex & Hgid & Hids). simpl in *.
        set (uid := PyStr.str (Doc.mem_userId m)).
        assert (extends x (add_user uid x)) as Hxu by apply extends_add_user.
        split; [|split; [|split]].
        + apply well_formed_append.
          * eapply well_formed_nodes; [exact Hxu|reflexivity|exact Hx].
          * split; [simpl; set_solver|]. right. right. right. left. simpl.
            repeat split. exact Hgid.
        + eapply extends_trans; [exact Hex|].
          eapply extends_trans; [exact Hxu|apply extends_append_edge].
        + exact Hgid.
        + intros u Hu. apply in_app_iff in Hu as [Hu|[<-|[]]].
          * apply Hids in Hu. set_solver.
          * set_solver. }
    destruct members as [x ids]. simpl in Hm.
    destruct Hm as (Hx & Hex & _ & Hids).
    enough (well_formed (fold_left
              (fun self pair =>
                 append_edge (mk_edge (fst pair) (snd pair) "group_peer" 0.5) self)
              (peer_pairs ids) x) /\
            extends self (fold_left
              (fun self pair =>
                 append_edge (mk_edge (fst pair) (snd pair) "group_peer" 0.5) self)
              (peer_pairs ids) x) /\
            users x ⊆ users (fold_left
              (fun self pair =>
                 append_edge (mk_edge (fst pair) (snd pair) "group_peer" 0.5) self)
              (peer_pairs ids) x)) by tauto.
    apply (fold_left_inv
             (fun y => well_formed y /\ extends self y /\ users x ⊆ users y)).
    + split; [assumption|]. split; [assumption|reflexivity].
    + intros y [a b] Hab (Hy & Hey & Hxy). simpl.
      apply peer_pairs_In in Hab as [Ha Hb].
      split; [|split].
      * apply well_formed_append; [assumption|].
        split; [simpl; apply Hxy, Hids, Ha|].
        right. right. right. right. simpl. repeat split.
        apply Hxy, Hids, Hb.
      * eapply extends_trans; [exact Hey|apply extends_append_edge].
      * exact Hxy.
Qed.

(** Every method of the builder keeps the graph well formed: each edge
    joins a user to a node of the kind its type names, both already in
    the node sets, with the weight of that type, and nothing is ever
    removed. *)
Theorem builder_keeps_well_formed (self : t)
    (reqs : list Doc.Request) (ss : list Doc.Session) (gs : list Doc.Group) :
  well_formed self ->
  (well_formed (add_user_mentor_edges self reqs) /\
   extends self (add_user_mentor_edges self reqs)) /\
  (well_formed (add_user_session_edges self ss) /\
   extends self (add_user_session_edges self ss)) /\
  (well_formed (add_user_group_edges self gs) /\
   extends self (add_user_group_edges self gs)) /\
  (well_formed (add_session_organizer_edges self ss) /\
   extends self (add_session_organizer_edges self ss)).
Proof.
  intros Hwf. split; [|split; [|split]].
  - now apply add_user_mentor_edges_wf.
  - now apply add_user_session_edges_wf.
  - now apply add_user_group_edges_wf.
  - now apply add_session_organizer_edges_wf.
Qed.

Lemma init_well_formed : well_formed init.
Proof. constructor. Qed.

Lemma builder_keeps_well_formed_witness :
  well_formed init /\
  well_formed (add_user_group_edges
                 (add_user_session_edges init [Fixture.session])
                 [Fixture.group]).
Proof.
  split; [exact init_well_formed|].
  apply (proj1 (proj1 (proj2 (proj2 (builder_keeps_well_formed
           (add_user_session_edges init [Fixture.session]) [] []
           [Fixture.group]
           (proj1 (proj1 (proj2 (builder_keeps_well_formed init []
                                   [Fixture.session] [] init_well_formed))))))))).
Defined.

(** *** The edges each method appends *)

Lemma fold_left_edges {B} (step : t -> B -> t) (new : B -> list Edge)
    (l : list B) (s : t) :
  (forall s x, edges (step s x) = edges s ++ new x) ->
  edges (fold_left step l s) = edges s ++ concat (map new l).
Proof.
  intros Hstep. revert s. induction l as [|x l IH]; intros s; simpl.
  - now rewrite app_nil_r.
  - rewrite IH, Hstep. now rewrite app_assoc.
Qed.

Lemma peer_pairs_length (l : list string) :
  (2 * length (peer_pairs l) = length l * (length l - 1))%nat.
Proof.
  induction l as [|x l IH]; simpl; [reflexivity|].
  rewrite length_app, length_map. nia.
Qed.

(** [add_user_group_edges] appends, for each group in turn, a
    [member_of] edge per member and then a [group_peer] edge per pair of
    members: [n] and [n * (n - 1) / 2] edges for a group of [n]. *)
Theorem group_edges_appended (self : t) (gs : list Doc.Group) :
  edges (add_user_group_edges self gs)
    = edges self ++ concat (map group_edges gs) /\
  forall g,
    length (List.filter (fun e => String.eqb (edge_type e) "member_of")
              (group_edges g))
      = length (Doc.grp_members g) /\
    length (List.filter (fun e => String.eqb (edge_type e) "group_peer")
              (group_edges g))
      = (length (Doc.grp_members g) * (length (Doc.grp_members g) - 1) / 2)%nat.
Proof.
  split.
  - unfold add_user_group_edges. apply fold_left_edges.
    intros s group. cbv zeta.
    set (gid := PyStr.str (Doc.grp_id group)).
    assert (forall ms st,
              let r := fold_left
                (fun '(self, member_ids) member =>
                   let user_id := PyStr.str (Doc.mem_userId member) in
                   let self := add_user user_id self in
                   let member_ids := member_ids ++ [user_id] in
                   (append_edge (mk_edge user_id gid "member_of" 1.0) self,
                    member_ids)) ms st in
              edges (fst r)
                = edges (fst st)
                  ++ map (fun u => mk_edge u gid "member_of" 1.0)
                       (map (fun m => PyStr.str (Doc.mem_userId m)) ms) /\
              snd r = snd st ++ map (fun m => PyStr.str (Doc.mem_userId m)) ms)
      as Hmembers.
    { induction ms as [|m ms IH]; intros [x ids]; simpl.
      - now rewrite !app_nil_r.
      - destruct (IH (append_edge
                       (mk_edge (PyStr.str (Doc.mem_userId m)) gid "member_of" 1.0)
                       (add_user (PyStr.str (Doc.mem_userId m)) x),
                      ids ++ [PyStr.str (Doc.mem_userId m)])) as [E1 E2].
        simpl in E1, E2. rewrite E1, E2. now rewrite <- !app_assoc. }
    specialize (Hmembers (Doc.grp_members group) (add_group gid s, [])).
    cbv zeta in Hmembers. destruct Hmembers as [E1 E2].
    destruct (fold_left _ (Doc.grp_members group) (add_group gid s, []))
      as [x ids].
    simpl in E1, E2. subst ids.
    rewrite (fold_left_edges
               (fun self pair =>
                  append_edge (mk_edge (fst pair) (snd pair) "group_peer" 0.5)
                    self)
               (fun pair => [mk_edge (fst pair) (snd pair) "group_peer" 0.5]))
      by reflexivity.
    rewrite E1. unfold group_edges, member_ids. fold gid.
    rewrite <- app_assoc. f_equal. f_equal.
    generalize (peer_pairs (map (fun m => PyStr.str (Doc.mem_userId m))
                              (Doc.grp_members group))).
    intros l. induction l as [|p l IH]; simpl; [reflexivity|]. now rewrite IH.
  - intros g. unfold group_edges. rewrite !List.filter_app, !length_app.
    assert (forall (f : string -> Edge) (l : list string) ty,
              (forall u, edge_type (f u) = ty) ->
              forall ty',
                length (List.filter (fun e => String.eqb (edge_type e) ty')
                          (map f l))
                = if String.eqb ty ty' then length l else 0%nat) as Hcount.
    { intros f l ty Hty ty'. induction l as [|u l IH]; simpl.
      - now destruct (String.eqb ty ty').
      - rewrite Hty. destruct (String.eqb ty ty'); simpl; lia. }
    assert (forall (f : string * string -> Edge) (l : list (string * string)) ty,
              (forall u, edge_type (f u) = ty) ->
              forall ty',
                length (List.filter (fun e => String.eqb (edge_type e) ty')
                          (map f l))
                = if String.eqb ty ty' then length l else 0%nat) as Hcount2.
    { intros f l ty Hty ty'. induction l as [|u l IH]; simpl.
      - now destruct (String.eqb ty ty').
      - rewrite Hty. destruct (String.eqb ty ty'); simpl; lia. }
    rewrite !(Hcount _ _ "member_of") by reflexivity.
    rewrite !(Hcount2 _ _ "group_peer") by reflexivity.
    cbn -[Nat.div Nat.mul Nat.sub]. unfold member_ids.
    pose proof (peer_pairs_length
                  (map (fun m => PyStr.str (Doc.mem_userId m))
                     (Doc.grp_members g))) as Hp.
    rewrite length_map in *.
    split; [lia|].
    apply Nat.div_unique_exact; lia.
Qed.

(** The group of four: four membership edges and six peer edges. *)
Example group_of_four_edges :
  length (edges (add_user_group_edges init [Fixture.group])) = 10%nat.
Proof. reflexivity. Qed.

(** [add_user_mentor_edges] appends one [mentored_by] edge per accepted
    request and none for any other status; [add_user_session_edges]
    appends one [attended] edge per participant whose status is
    completed, attended, registered or missing, and none for any other
    (such as cancelled); [add_session_organizer_edges] appends one
    [organizes] edge per session. *)
Theorem edges_appended (self : t) (reqs : list Doc.Request)
    (ss : list Doc.Session) :
  edges (add_user_mentor_edges self reqs)
    = edges self
      ++ omap (fun r =>
                 if decide (Doc.req_status r = Some "accepted") then
                   Some (mk_edge (PyStr.str (Doc.req_learnerId r))
                           (PyStr.str (Doc.req_mentorId r)) "mentored_by" 1.0)
                 else None)
              reqs /\
  edges (add_user_session_edges self ss)
    = edges self ++ concat (map session_edges ss) /\
  edges (add_session_organizer_edges self ss)
    = edges self
      ++ map (fun s => mk_edge (PyStr.str (Doc.sess_organizer s))
                         (PyStr.str (Doc.sess_id s)) "organizes" 1.5)
           ss.
Proof.
  split; [|split].
  - unfold add_user_mentor_edges.
    rewrite (fold_left_edges _
               (fun r => if decide (Doc.req_status r = Some "accepted") then
                           [mk_edge (PyStr.str (Doc.req_learnerId r))
                              (PyStr.str (Doc.req_mentorId r)) "mentored_by" 1.0]
                         else [])).
    + f_equal. induction reqs as [|r reqs IH]; simpl; [reflexivity|].
      rewrite IH. now destruct (decide _).
    + intros s r. cbv zeta. destruct (decide _); simpl;
        [reflexivity|now rewrite app_nil_r].
  - unfold add_user_session_edges. apply fold_left_edges.
    intros s session. cbv zeta.
    rewrite (fold_left_edges _
               (fun p =>
                  if participated p then
                    [mk_edge (PyStr.str (Doc.part_userId p))
                       (PyStr.str (Doc.sess_id session)) "attended"
                       (if String.eqb (default "registered" (Doc.part_status p))
                                      "completed"
                        then 1.0 else 0.7)]
                  else [])).
    + simpl. f_equal. unfold session_edges.
      induction (Doc.sess_participants session) as [|p ps IH]; simpl;
        [reflexivity|].
      rewrite IH. now destruct (participated p).
    + intros x p. cbv zeta. unfold participated.
      destruct (Py.contains _ _); simpl; [reflexivity|now rewrite app_nil_r].
  - unfold add_session_organizer_edges.
    rewrite (fold_left_edges _
               (fun s => [mk_edge (PyStr.str (Doc.sess_organizer s))
                            (PyStr.str (Doc.sess_id s)) "organizes" 1.5]))
      by reflexivity.
    f_equal. induction ss as [|x ss IH]; simpl; [reflexivity|]. now rewrite IH.
Qed.

(** The session of the fixture: three edges of weight 1.0 for the
    completed participants, none for the cancelled one, and one
    organizer edge of weight 1.5. *)
Example session_fixture_edges :
  edges (add_session_organizer_edges
           (add_user_session_edges init [Fixture.session]) [Fixture.session])
  = [mk_edge "u1" "s1" "attended" 1.0; mk_edge "u2" "s1" "attended" 1.0;
     mk_edge "u3" "s1" "attended" 1.0; mk_edge "u9" "s1" "organizes" 1.5].
Proof. reflexivity. Qed.

(** *** The bipartite view *)

Lemma contains_elements (x : string) (N : gset string) :
  Py.contains x (elements N) = true <-> x ∈ N.
Proof.
  rewrite DictFacts.contains_In, <- list_elem_of_In. apply elem_of_elements.
Qed.

(** [get_bipartite_graph] fails exactly when one of the two names is not
    a node type; otherwise it returns the nodes of the two types and
    exactly the edges of the graph that join a node of one type to a node
    of the other, in their order in the graph, and the edges are the
    same whichever way round the two types are given. *)
Theorem get_bipartite_graph_spec (self : t) (ty1 ty2 : string) :
  (get_bipartite_graph self ty1 ty2 = None <->
   nodes self ty1 = None \/ nodes self ty2 = None) /\
  (forall n1 n2 es,
     get_bipartite_graph self ty1 ty2 = Some (n1, n2, es) ->
     exists N1 N2,
       nodes self ty1 = Some N1 /\ nodes self ty2 = Some N2 /\
       n1 = elements N1 /\ n2 = elements N2 /\
       (forall e, In e es <->
                  In e (edges self) /\
                  ((source e ∈ N1 /\ target e ∈ N2) \/
                   (source e ∈ N2 /\ target e ∈ N1))) /\
       get_bipartite_graph self ty2 ty1 = Some (n2, n1, es)).
Proof.
  unfold get_bipartite_graph. split.
  - destruct (nodes self ty1) as [N1|]; simpl; [|tauto].
    destruct (nodes self ty2) as [N2|]; simpl; [|tauto].
    split; [discriminate|]. intros [H|H]; discriminate.
  - intros n1 n2 es.
    destruct (nodes self ty1) as [N1|]; simpl; [|discriminate].
    destruct (nodes self ty2) as [N2|]; simpl; [|discriminate].
    intros [= <- <- <-]. exists N1, N2.
    do 4 (split; [reflexivity|]). split.
    + intros e. split.
      * intros He. apply filter_In in He as [He Hc]. split; [assumption|].
        destruct (Py.contains (source e) (elements N1)
                  && Py.contains (target e) (elements N2)) eqn:E.
        -- apply andb_true_iff in E as [E1 E2].
           apply contains_elements in E1, E2. auto.
        -- apply andb_true_iff in Hc as [E1 E2].
           apply contains_elements in E1, E2. auto.
      * intros [He Hcase]. apply filter_In. split; [assumption|].
        destruct Hcase as [[H1 H2]|[H1 H2]];
          apply contains_elements in H1, H2; rewrite H1, H2;
          [reflexivity|simpl; now destruct (_ && _)].
    + do 2 f_equal. apply List.filter_ext. intros e.
      destruct (Py.contains (source e) (elements N1)),
               (Py.contains (target e) (elements N2)),
               (Py.contains (source e) (elements N2)),
               (Py.contains (target e) (elements N1)); reflexivity.
Qed.

Lemma get_bipartite_graph_spec_witness :
  get_bipartite_graph
    (add_user_mentor_edges init Fixture.requests) "users" "people" = None /\
  exists n1 n2,
    get_bipartite_graph
      (add_user_mentor_edges init Fixture.requests) "mentors" "users"
    = Some (n2, n1, [mk_edge "u1" "m1" "mentored_by" 1.0]).
Proof.
  split.
  - apply (proj1 (get_bipartite_graph_spec _ "users" "people")). now right.
  - destruct (proj2 (get_bipartite_graph_spec
                       (add_user_mentor_edges init Fixture.requests)
                       "users" "mentors") _ _ _ eq_refl)
      as (N1 & N2 & _ & _ & _ & _ & _ & Hsym).
    eexists _, _. exact Hsym.
Defined.

End GraphBuilderFacts.

(** ** The interaction builder *)

Module InteractionFacts.
Import InteractionMatrixBuilder.

(** Appending under a loop keeps a property of every stored
    interaction. *)
Lemma Forall_snoc {A} (P : A -> Prop) (l : list A) (x : A) :
  Forall P l -> P x -> Forall P (l ++ [x]).
Proof. intros Hl Hx. apply Forall_app. split; [assumption|]. now constructor. Qed.

Section Stored.
Variable P : Interaction.t -> Prop.

Lemma add_mentorship_Forall (self : t) (reqs : list Doc.Request) :
  (forall r w,
     0 < w ->
     w = mentorship_weights (status_or "pending" (Doc.req_status r)) ->
     P (Interaction.mk (PyStr.str (Doc.req_learnerId r))
          (PyStr.str (Doc.req_mentorId r))
          (Some ("mentorship_" +:+ PyStr.str (Doc.req_status r)))
          (Some w) (Doc.req_requestDate r))) ->
  Forall P self -> Forall P (add_mentorship_interactions self reqs).
Proof.
  intros Hnew Hself. unfold add_mentorship_interactions.
  apply (GraphBuilderFacts.fold_left_inv (Forall P)); [assumption|].
  intros s r _ Hs. cbv zeta.
  destruct (Qlt_le_dec 0 _) as [Hpos|]; [|assumption].
  apply Forall_snoc; [assumption|]. now apply Hnew.
Qed.

Lemma add_session_Forall (self : t) (ss : list Doc.Session) :
  (forall s p w,
     0 < w ->
     w = session_weights (default "registered" (Doc.part_status p)) ->
     P (Interaction.mk (PyStr.str (Doc.part_userId p))
          (PyStr.str (Doc.sess_id s))
          (Some ("session_" +:+ default "registered" (Doc.part_status p)))
          (Some w) (Doc.sess_sessionDate s))) ->
  Forall P self -> Forall P (add_session_interactions self ss).
Proof.
  intros Hnew Hself. unfold add_session_interactions.
  apply (GraphBuilderFacts.fold_left_inv (Forall P)); [assumption|].
  intros s session _ Hs. cbv zeta.
  apply (GraphBuilderFacts.fold_left_inv (Forall P)); [assumption|].
  intros x p _ Hx. cbv zeta.
  destruct (Qlt_le_dec 0 _) as [Hpos|]; [|assumption].
  apply Forall_snoc; [assumption|]. now apply Hnew.
Qed.

Lemma add_group_Forall (self : t) (gs : list Doc.Group) :
  (forall g m,
     P (Interaction.mk (PyStr.str (Doc.mem_userId m))
          (PyStr.str (Doc.grp_id g)) (Some "group_membership")
          (Some (membership_weight (default 0 (Doc.mem_messageCount m))))
          (Doc.mem_joinedAt m))) ->
  Forall P self -> Forall P (add_group_interactions self gs).
Proof.
  intros Hnew Hself. unfold add_group_interactions.
  apply (GraphBuilderFacts.fold_left_inv (Forall P)); [assumption|].
  intros s g _ Hs. cbv zeta.
  apply (GraphBuilderFacts.fold_left_inv (Forall P)); [assumption|].
  intros x m _ Hx. cbv zeta.
  apply Forall_snoc; [assumption|]. apply Hnew.
Qed.

Lemma add_goal_Forall (self : t) (goals : list Doc.Goal) :
  (forall g,
     P (Interaction.mk (PyStr.str (Doc.goal_menteeId g))
          (PyStr.str (Doc.goal_mentorId g))
          (Some ("goal_" +:+ PyStr.str (Doc.goal_status g)))
          (Some (goal_base_weights (status_or "active" (Doc.goal_status g))
                 + default 0 (Doc.goal_progressPercentage g) / 100 * 2.0))
          (Doc.goal_createdAt g))) ->
  Forall P self -> Forall P (add_goal_interactions self goals).
Proof.
  intros Hnew Hself. unfold add_goal_interactions.
  apply (GraphBuilderFacts.fold_left_inv (Forall P)); [assumption|].
  intros s g _ Hs. cbv zeta.
  apply Forall_snoc; [assumption|]. apply Hnew.
Qed.

Lemma add_feedback_Forall (self : t) (fbs : list Doc.Feedback) :
  (forall f,
     P (Interaction.mk (PyStr.str (Doc.fb_userId f))
          (PyStr.str (Doc.fb_sessionId f))
          (Some (if Qlt_le_dec (default 3 (Doc.fb_rating f)) 4
                 then "rate_neutral" else "rate_positive"))
          (Some (default 3 (Doc.fb_rating f) / 5 * 3.0))
          (Doc.fb_createdAt f))) ->
  Forall P self -> Forall P (add_session_feedback self fbs).
Proof.
  intros Hnew Hself. unfold add_session_feedback.
  apply (GraphBuilderFacts.fold_left_inv (Forall P)); [assumption|].
  intros s f _ Hs. cbv zeta.
  apply Forall_snoc; [assumption|]. apply Hnew.
Qed.

End Stored.




(** The requests of the fixture: the declined one is dropped, the one
    without a status counts as pending. *)
Example mentorship_fixture :
  map (fun i => (Interaction.interaction_type i, Interaction.weight i))
    (add_mentorship_interactions init Fixture.requests)
  = [(Some "mentorship_accepted", Some 4.0);
     (Some "mentorship_pending", Some 1.0);
     (Some "mentorship_None", Some 1.0)].
Proof. reflexivity. Qed.

(** *** Retrieval by item type *)

Lemma filter_by_type_all (p : string -> bool) (l : t) :
  Forall (fun i => exists ty, Interaction.interaction_type i = Some ty /\
                              p ty = true) l ->
  filter_by_type p l = Some l.
Proof.
  induction 1 as [|i l (ty & Hty & Hp) _ IH]; simpl; [reflexivity|].
  rewrite Hty, IH. simpl. now rewrite Hp.
Qed.

Lemma filter_by_type_none (p : string -> bool) (l : t) :
  Forall (fun i => exists ty, Interaction.interaction_type i = Some ty /\
                              p ty = false) l ->
  filter_by_type p l = Some [].
Proof.
  induction 1 as [|i l (ty & Hty & Hp) _ IH]; simpl; [reflexivity|].
  rewrite Hty, IH. simpl. now rewrite Hp.
Qed.

Lemma substring_of_prefix (pat s : string) :
  String.prefix pat s = true -> PyStr.substring_of pat s = true.
Proof. intros H. destruct s; simpl in *; now rewrite H. Qed.

Lemma prefix_append (pat s : string) : String.prefix pat (pat +:+ s) = true.
Proof.
  induction pat as [|c pat IH]; simpl; [now destruct s|].
  rewrite IH. now destruct (Ascii.ascii_dec c c).
Qed.

(** [get_interactions_by_type] gives back every interaction stored from
    mentorship requests and goals when asked for ['mentor'], every one
    stored from session participation when asked for ['session'], every
    one stored from group membership when asked for ['group'], and
    nothing for any other type name; the interactions stored from
    session feedback are returned for no type at all. *)
Theorem by_type_retrieval (reqs : list Doc.Request) (goals : list Doc.Goal)
    (ss : list Doc.Session) (gs : list Doc.Group) (fbs : list Doc.Feedback) :
  get_interactions_by_type
    (add_goal_interactions (add_mentorship_interactions init reqs) goals)
    "mentor"
  = Some (add_goal_interactions (add_mentorship_interactions init reqs) goals) /\
  get_interactions_by_type (add_session_interactions init ss) "session"
  = Some (add_session_interactions init ss) /\
  get_interactions_by_type (add_group_interactions init gs) "group"
  = Some (add_group_interactions init gs) /\
  (forall self ty,
     ty <> "mentor" -> ty <> "session" -> ty <> "group" ->
     get_interactions_by_type self ty = Some []) /\
  (forall ty,
     get_interactions_by_type (add_session_feedback init fbs) ty = Some []).
Proof.
  repeat apply conj.
  - unfold get_interactions_by_type. simpl. apply filter_by_type_all.
    apply add_goal_Forall; [|apply add_mentorship_Forall; [|constructor]].
    + intros g. eexists. split; [reflexivity|].
      apply orb_true_iff. right.
      apply substring_of_prefix, (prefix_append "goal").
    + intros r w _ _. eexists. split; [reflexivity|].
      apply orb_true_iff. left.
      apply substring_of_prefix, (prefix_append "mentorship").
  - unfold get_interactions_by_type. simpl. apply filter_by_type_all.
    apply add_session_Forall; [|constructor].
    intros s p w _ _. eexists. split; [reflexivity|].
    apply substring_of_prefix, (prefix_append "session").
  - unfold get_interactions_by_type. simpl. apply filter_by_type_all.
    apply add_group_Forall; [|constructor].
    intros g m. eexists. split; [reflexivity|]. reflexivity.
  - intros self ty H1 H2 H3. unfold get_interactions_by_type.
    apply String.eqb_neq in H1, H2, H3. now rewrite H1, H2, H3.
  - intros ty. unfold get_interactions_by_type.
    assert (forall p,
              p "rate_neutral" = false -> p "rate_positive" = false ->
              filter_by_type p (add_session_feedback init fbs) = Some [])
      as Hnone.
    { intros p Hn Hp. apply filter_by_type_none.
      apply add_feedback_Forall; [|constructor].
      intros f. eexists. split; [reflexivity|].
      now destruct (Qlt_le_dec _ 4). }
    destruct (String.eqb ty "mentor"); [now apply Hnone|].
    destruct (String.eqb ty "session"); [now apply Hnone|].
    destruct (String.eqb ty "group"); [now apply Hnone|reflexivity].
Qed.

Lemma by_type_retrieval_witness :
  get_interactions_by_type
    (add_session_feedback init [Fixture.feedback "u1" "s1" 5]) "weekly"
  = Some [].
Proof.
  apply (proj1 (proj2 (proj2 (proj2 (by_type_retrieval [] [] [] []
           [Fixture.feedback "u1" "s1" 5])))));
    discriminate.
Defined.

(** *** What the collaborative filter makes of the stored weights *)



End InteractionFacts.

(** ** Building the indices *)

Module IndexFacts.
Import CollaborativeFilter.

Local Abbreviation lt := OrdersEx.String_as_OT.lt.

Lemma insert_sorted_In (x y : string) (l : list string) :
  In y (PyStr.insert_sorted x l) <-> y = x \/ In y l.
Proof.
  induction l as [|z l IH]; simpl; [intuition|].
  destruct (OrdersEx.String_as_OT.compare_spec x z) as [->|Hlt|Hgt]; simpl.
  - intuition.
  - intuition.
  - rewrite IH. intuition.
Qed.

Lemma sorted_set_In (x : string) (l : list string) :
  In x (PyStr.sorted_set l) <-> In x l.
Proof.
  unfold PyStr.sorted_set. induction l as [|y l IH]; simpl; [tauto|].
  rewrite insert_sorted_In, IH. intuition.
Qed.

Lemma insert_sorted_sorted (x : string) (l : list string) :
  StronglySorted lt l -> StronglySorted lt (PyStr.insert_sorted x l).
Proof.
  induction l as [|z l IH]; simpl; intros Hs.
  - repeat constructor.
  - inversion Hs as [|? ? Hl Hz]; subst.
    destruct (OrdersEx.String_as_OT.compare_spec x z) as [->|Hlt|Hgt].
    + assumption.
    + constructor; [assumption|]. constructor; [assumption|].
      eapply Forall_impl; [exact Hz|]. intros w Hw.
      now transitivity z.
    + constructor; [auto|].
      apply List.Forall_forall. intros w Hw.
      apply insert_sorted_In in Hw as [->|Hw]; [assumption|].
      rewrite List.Forall_forall in Hz. auto.
Qed.

Lemma sorted_set_sorted (l : list string) :
  StronglySorted lt (PyStr.sorted_set l).
Proof.
  unfold PyStr.sorted_set. induction l as [|x l IH]; simpl; [constructor|].
  now apply insert_sorted_sorted.
Qed.

Lemma sorted_NoDup (l : list string) : StronglySorted lt l -> NoDup l.
Proof.
  induction 1 as [|x l _ IH Hx]; constructor; [|assumption].
  intros Hin. apply list_elem_of_In in Hin.
  rewrite List.Forall_forall in Hx. specialize (Hx x Hin).
  now apply (StrictOrder_Irreflexive x) in Hx.
Qed.

Lemma sorted_set_NoDup (l : list string) : NoDup (PyStr.sorted_set l).
Proof. apply sorted_NoDup, sorted_set_sorted. Qed.

(** Pairing a list with the positions of its elements. *)
Lemma zip_seq_lookup {A} (l : list A) (start : nat) (x : A) (i : nat) :
  (x, i) ∈ zip l (seq start (length l)) <->
  (start <= i)%nat /\ l !! (i - start)%nat = Some x.
Proof.
  revert start. induction l as [|y l IH]; intros start; simpl.
  - split; [intros H; inversion H|intros [_ H]; discriminate].
  - rewrite elem_of_cons, IH. split.
    + intros [[= -> ->]|[Hle Hl]].
      * split; [lia|]. now rewrite Nat.sub_diag.
      * split; [lia|]. now replace (i - start)%nat with (S (i - S start)) by lia.
    + intros [Hle Hl]. destruct (decide (i = start)) as [->|Hne].
      * left. rewrite Nat.sub_diag in Hl. simpl in Hl. congruence.
      * right. split; [lia|].
        now replace (i - start)%nat with (S (i - S start)) in Hl by lia.
Qed.

Lemma seq_zip_lookup {A} (l : list A) (start : nat) (x : A) (i : nat) :
  (i, x) ∈ zip (seq start (length l)) l <->
  (start <= i)%nat /\ l !! (i - start)%nat = Some x.
Proof.
  revert start. induction l as [|y l IH]; intros start; simpl.
  - split; [intros H; inversion H|intros [_ H]; discriminate].
  - rewrite elem_of_cons, IH. split.
    + intros [[= -> ->]|[Hle Hl]].
      * split; [lia|]. now rewrite Nat.sub_diag.
      * split; [lia|]. now replace (i - start)%nat with (S (i - S start)) by lia.
    + intros [Hle Hl]. destruct (decide (i = start)) as [->|Hne].
      * left. rewrite Nat.sub_diag in Hl. simpl in Hl. congruence.
      * right. split; [lia|].
        now replace (i - start)%nat with (S (i - S start)) in Hl by lia.
Qed.

(** The id map sends an id to its position in the list of distinct ids,
    and the reverse map sends the position back. *)
Lemma id_index_lookup (unique : list string) (id : string) (i : nat) :
  NoDup unique -> (id_index unique !! id = Some i <-> unique !! i = Some id).
Proof.
  intros Hnd. unfold id_index.
  rewrite <- elem_of_list_to_map.
  - rewrite zip_seq_lookup, Nat.sub_0_r. intuition lia.
  - rewrite fst_zip; [assumption|]. rewrite length_seq. lia.
Qed.

Lemma reverse_index_lookup (unique : list string) (id : string) (i : nat) :
  reverse_index unique !! i = Some id <-> unique !! i = Some id.
Proof.
  unfold reverse_index.
  rewrite <- elem_of_list_to_map.
  - rewrite seq_zip_lookup, Nat.sub_0_r. intuition lia.
  - rewrite fst_zip; [apply NoDup_seq|]. rewrite length_seq. lia.
Qed.

Lemma id_index_is_Some (unique : list string) (id : string) :
  NoDup unique -> (is_Some (id_index unique !! id) <-> In id unique).
Proof.
  intros Hnd. rewrite <- list_elem_of_In, list_elem_of_lookup. split.
  - intros [i Hi]. exists i. now apply id_index_lookup.
  - intros [i Hi]. exists i. now apply id_index_lookup.
Qed.

Lemma id_index_inj (unique : list string) (a b : string) (i : nat) :
  NoDup unique ->
  id_index unique !! a = Some i -> id_index unique !! b = Some i -> a = b.
Proof.
  intros Hnd Ha Hb.
  apply (id_index_lookup unique a i Hnd) in Ha.
  apply (id_index_lookup unique b i Hnd) in Hb. congruence.
Qed.

(** A cell of the matrix holds the sum of the data given for it. *)
Lemma fold_add_entry_lookup (entries : list (nat * nat * Q))
    (cells : gmap (nat * nat) Q) (k : nat * nat) :
  default 0 (fold_left CollaborativeFilterData.add_entry entries cells !! k)
  = fold_left Qplus
      (map snd (List.filter (fun e => bool_decide (fst e = k)) entries))
      (default 0 (cells !! k)).
Proof.
  revert cells. induction entries as [|e es IH]; intros cells; simpl;
    [reflexivity|].
  rewrite IH. unfold CollaborativeFilterData.add_entry.
  case_bool_decide as Hk; simpl.
  - subst k. now rewrite lookup_insert_eq.
  - now rewrite lookup_insert_ne.
Qed.

(** [_create_interaction_matrix] raises neither a [KeyError] nor a
    [ValueError] on a non-empty list of interactions.  The ids mapped are
    exactly those of the interactions, every index lies inside the shape
    of the matrix, and each reverse map undoes its id map.  The cell of a
    user and an item holds the sum of the weighted values of all
    interactions of that user with that item, in their order (zero when
    there is none): interactions that repeat a pair are added up. *)

(** The data given for the cell of a user and an item are the weighted
    values of the interactions of that pair. *)
Lemma entries_of_pair (users items : list string)
    (interactions : list Interaction.t) (entries : list (nat * nat * Q))
    (user item : string) (row col : nat) :
  NoDup users -> NoDup items ->
  Forall2
    (fun i e =>
       id_index users !! Interaction.user_id i = Some (fst (fst e)) /\
       id_index items !! Interaction.item_id i = Some (snd (fst e)) /\
       snd e = CollaborativeFilterData.entry_weight i)
    interactions entries ->
  id_index users !! user = Some row ->
  id_index items !! item = Some col ->
  map snd (List.filter (fun e => bool_decide (fst e = (row, col))) entries)
  = map CollaborativeFilterData.entry_weight
      (List.filter
         (fun i => String.eqb (Interaction.user_id i) user
                   && String.eqb (Interaction.item_id i) item)
         interactions).
Proof.
  intros Hu Hi Hrel Hrow Hcol.
  induction Hrel as [|i [[r c] w] rest es (Hr & Hc & Hw) _ IH]; [reflexivity|].
  simpl in Hr, Hc, Hw. subst w. cbn [List.filter fst snd].
  destruct (String.eqb (Interaction.user_id i) user) eqn:Eu;
    [destruct (String.eqb (Interaction.item_id i) item) eqn:Ei|];
    cbn [andb].
  - apply String.eqb_eq in Eu, Ei. rewrite Eu in Hr. rewrite Ei in Hc.
    assert (r = row) as -> by congruence.
    assert (c = col) as -> by congruence.
    rewrite bool_decide_eq_true_2 by reflexivity. simpl. now rewrite IH.
  - rewrite bool_decide_eq_false_2; [exact IH|].
    intros [= -> ->]. apply String.eqb_neq in Ei. apply Ei.
    now apply (id_index_inj items _ _ col Hi).
  - rewrite bool_decide_eq_false_2; [exact IH|].
    intros [= -> ->]. apply String.eqb_neq in Eu. apply Eu.
    now apply (id_index_inj users _ _ row Hu).
Qed.

Lemma entries_in_shape (users items : list string)
    (interactions : list Interaction.t) (entries : list (nat * nat * Q)) :
  Forall2
    (fun i e =>
       id_index users !! Interaction.user_id i = Some (fst (fst e)) /\
       id_index items !! Interaction.item_id i = Some (snd (fst e)) /\
       snd e = CollaborativeFilterData.entry_weight i)
    interactions entries ->
  forallb
    (fun e => (fst (fst e) <? length users)%nat
              && (snd (fst e) <? length items)%nat)
    entries = true.
Proof.
  induction 1 as [|i e rest es (Hr & Hc & _) _ IH]; [reflexivity|].
  simpl. rewrite IH, andb_true_r.
  apply CollaborativeFilterFacts.id_index_bound in Hr, Hc.
  apply andb_true_intro. split; apply Nat.ltb_lt; assumption.
Qed.

(** [_create_interaction_matrix] raises neither a [KeyError] nor a
    [ValueError] on a non-empty list of interactions.  The ids mapped are
    exactly those of the interactions, every index lies inside the shape
    of the matrix, and each reverse map undoes its id map.  The cell of a
    user and an item holds the sum of the weighted values of all
    interactions of that user with that item, in their order (zero when
    there is none): interactions that repeat a pair are added up. *)
Theorem create_interaction_matrix_spec (self : t)
    (interactions : list Interaction.t) :
  interactions <> [] ->
  exists self' m,
    CollaborativeFilterData._create_interaction_matrix self interactions
      = Some (self', m) /\
    (forall id,
       is_Some (user_id_map self' !! id) <->
       In id (map Interaction.user_id interactions)) /\
    (forall id,
       is_Some (item_id_map self' !! id) <->
       In id (map Interaction.item_id interactions)) /\
    (forall id idx,
       user_id_map self' !! id = Some idx ->
       (idx < fst (CollaborativeFilterData.shape m))%nat) /\
    (forall id idx,
       item_id_map self' !! id = Some idx ->
       (idx < snd (CollaborativeFilterData.shape m))%nat) /\
    (forall id idx,
       user_id_map self' !! id = Some idx <->
       reverse_user_map self' !! idx = Some id) /\
    (forall id idx,
       item_id_map self' !! id = Some idx <->
       reverse_item_map self' !! idx = Some id) /\
    (forall user item row col,
       user_id_map self' !! user = Some row ->
       item_id_map self' !! item = Some col ->
       CollaborativeFilterData.cell m row col
       = fold_left Qplus
           (map CollaborativeFilterData.entry_weight
              (List.filter
                 (fun i => String.eqb (Interaction.user_id i) user
                           && String.eqb (Interaction.item_id i) item)
                 interactions))
           0).
Proof.
  intros _.
  unfold CollaborativeFilterData._create_interaction_matrix. cbv zeta.
  set (users := PyStr.sorted_set (map Interaction.user_id interactions)).
  set (items := PyStr.sorted_set (map Interaction.item_id interactions)).
  simpl.
  pose proof (sorted_set_NoDup (map Interaction.user_id interactions)) as Hu.
  pose proof (sorted_set_NoDup (map Interaction.item_id interactions)) as Hi.
  fold users in Hu. fold items in Hi.
  assert (forall i, In i interactions ->
            exists u it,
              id_index users !! Interaction.user_id i = Some u /\
              id_index items !! Interaction.item_id i = Some it) as Hkeys.
  { intros i Hin.
    destruct (proj2 (id_index_is_Some users (Interaction.user_id i) Hu))
      as [u Hu'].
    { apply sorted_set_In. now apply in_map. }
    destruct (proj2 (id_index_is_Some items (Interaction.item_id i) Hi))
      as [it Hi'].
    { apply sorted_set_In. now apply in_map. }
    eauto. }
  match goal with
  | |- exists self' m, (mapM ?f ?l ≫= _) = _ /\ _ =>
      destruct (mapM f l) as [entries|] eqn:E
  end.
  2:{ exfalso. apply eq_None_not_Some in E. apply E.
      apply mapM_is_Some. apply Forall_forall. intros i Hin.
      apply list_elem_of_In in Hin.
      destruct (Hkeys i Hin) as (u & it & Hu' & Hi').
      simpl. rewrite Hu'. simpl. rewrite Hi'. simpl. eauto. }
  apply mapM_Some in E.
  assert (Forall2
            (fun i e =>
               id_index users !! Interaction.user_id i = Some (fst (fst e)) /\
               id_index items !! Interaction.item_id i = Some (snd (fst e)) /\
               snd e = CollaborativeFilterData.entry_weight i)
            interactions entries) as Hrel.
  { eapply Forall2_impl; [exact E|].
    intros i [[u it] w] Hf. simpl in *.
    destruct (id_index users !! Interaction.user_id i) as [u'|] eqn:Hu';
      simpl in Hf; [|discriminate].
    destruct (id_index items !! Interaction.item_id i) as [it'|] eqn:Hi';
      simpl in Hf; [|discriminate].
    injection Hf as <- <- <-. auto. }
  clear E Hkeys. simpl. unfold CollaborativeFilterData.csr_matrix. simpl.
  rewrite (entries_in_shape users items interactions entries Hrel).
  simpl. eexists _, _. split; [reflexivity|]. simpl.
  split; [|split; [|split; [|split; [|split; [|split]]]]].
  - intros id. rewrite id_index_is_Some by assumption. apply sorted_set_In.
  - intros id. rewrite id_index_is_Some by assumption. apply sorted_set_In.
  - intros id idx H. now apply CollaborativeFilterFacts.id_index_bound in H.
  - intros id idx H. now apply CollaborativeFilterFacts.id_index_bound in H.
  - intros id idx. now rewrite id_index_lookup, reverse_index_lookup.
  - intros id idx. now rewrite id_index_lookup, reverse_index_lookup.
  - intros user item row col Hrow Hcol.
    unfold CollaborativeFilterData.cell. simpl.
    rewrite fold_add_entry_lookup, lookup_empty. simpl.
    now rewrite (entries_of_pair users items interactions entries user item
                   row col Hu Hi Hrel Hrow Hcol).
Qed.

Lemma create_interaction_matrix_spec_witness :
  exists self' m,
    CollaborativeFilterData._create_interaction_matrix (init 20)
      [Interaction.mk "u1" "b" None None None;
       Interaction.mk "u1" "a" (Some "complete") (Some 2) None;
       Interaction.mk "u1" "b" (Some "join") (Some 3) None]
    = Some (self', m) /\
    user_id_map self' !! "u1" = Some 0%nat /\
    item_id_map self' !! "b" = Some 1%nat /\
    CollaborativeFilterData.cell m 0 1 = 0 + 1.0 * 1.0 + 2.0 * 3.
Proof.
  destruct (create_interaction_matrix_spec (init 20)
              [Interaction.mk "u1" "b" None None None;
               Interaction.mk "u1" "a" (Some "complete") (Some 2) None;
               Interaction.mk "u1" "b" (Some "join") (Some 3) None]
              ltac:(discriminate))
    as (self' & m & Hm & _ & _ & _ & _ & _ & _ & Hcell).
  exists self', m. split; [exact Hm|].
  assert (user_id_map self' !! "u1" = Some 0%nat /\
          item_id_map self' !! "b" = Some 1%nat) as [Hu Hb].
  { vm_compute in Hm. injection Hm as <- _. split; reflexivity. }
  split; [exact Hu|]. split; [exact Hb|].
  exact (Hcell "u1" "b" 0%nat 1%nat Hu Hb).
Defined.



(** [build_graph] never fails with a [KeyError]: every interaction gives
    two edges, one from its user's node to its item's node and one back,
    where user nodes are numbered below [num_users] and item nodes from
    [num_users] up to [num_users + num_items]. *)
Theorem build_graph_spec (interactions : list Interaction.t) :
  exists g,
    GNNGraph.build_graph interactions = Some g /\
    length (GNNGraph.edge_list g) = (2 * length interactions)%nat /\
    (forall a b, In (a, b) (GNNGraph.edge_list g) ->
                 In (b, a) (GNNGraph.edge_list g)) /\
    (forall a b, In (a, b) (GNNGraph.edge_list g) ->
       ((a < GNNGraph.num_users g)%nat /\
        (GNNGraph.num_users g <= b < GNNGraph.num_users g + GNNGraph.num_items g)%nat)
       \/
       ((b < GNNGraph.num_users g)%nat /\
        (GNNGraph.num_users g <= a < GNNGraph.num_users g + GNNGraph.num_items g)%nat)) /\
    (forall i, In i interactions ->
       exists u it,
         GNNGraph.user_id_map g !! Interaction.user_id i = Some u /\
         GNNGraph.item_id_map g !! Interaction.item_id i = Some it /\
         In (u, (it + GNNGraph.num_users g)%nat) (GNNGraph.edge_list g)).
Proof.
  unfold GNNGraph.build_graph. cbv zeta.
  set (users := PyStr.sorted_set (map Interaction.user_id interactions)).
  set (items := PyStr.sorted_set (map Interaction.item_id interactions)).
  pose proof (sorted_set_NoDup (map Interaction.user_id interactions)) as Hu.
  pose proof (sorted_set_NoDup (map Interaction.item_id interactions)) as Hi.
  fold users in Hu. fold items in Hi.
  assert (forall i, In i interactions ->
            exists u it,
              id_index users !! Interaction.user_id i = Some u /\
              id_index items !! Interaction.item_id i = Some it) as Hkeys.
  { intros i Hin.
    destruct (proj2 (id_index_is_Some users (Interaction.user_id i) Hu))
      as [u Hu'].
    { apply sorted_set_In. now apply in_map. }
    destruct (proj2 (id_index_is_Some items (Interaction.item_id i) Hi))
      as [it Hi'].
    { apply sorted_set_In. now apply in_map. }
    eauto. }
  match goal with
  | |- exists g, (mapM ?f ?l ≫= _) = _ /\ _ =>
      destruct (mapM f l) as [edges|] eqn:E
  end.
  2:{ exfalso. apply eq_None_not_Some in E. apply E.
      apply mapM_is_Some. apply Forall_forall. intros i Hin.
      apply list_elem_of_In in Hin.
      destruct (Hkeys i Hin) as (u & it & Hu' & Hi').
      simpl. rewrite Hu'. simpl. rewrite Hi'. simpl. eauto. }
  simpl. eexists. split; [reflexivity|]. simpl.
  apply mapM_Some in E. clearbody users items.
  assert (Forall2
            (fun i es =>
               exists u it,
                 id_index users !! Interaction.user_id i = Some u /\
                 id_index items !! Interaction.item_id i = Some it /\
                 es = [(u, (it + length users)%nat);
                       ((it + length users)%nat, u)])
            interactions edges) as E'.
  { eapply Forall2_impl; [exact E|]. intros i es Hf. simpl in Hf.
    destruct (id_index users !! Interaction.user_id i) as [u|] eqn:Hu';
      simpl in Hf; [|discriminate].
    destruct (id_index items !! Interaction.item_id i) as [it|] eqn:Hi';
      simpl in Hf; [|discriminate].
    injection Hf as <-. eauto. }
  clear E.
  assert (forall a b, In (a, b) (concat edges) ->
            exists i u it,
              In i interactions /\
              id_index users !! Interaction.user_id i = Some u /\
              id_index items !! Interaction.item_id i = Some it /\
              ((a, b) = (u, (it + length users)%nat) \/
               (a, b) = ((it + length users)%nat, u)) /\
              In (u, (it + length users)%nat) (concat edges) /\
              In ((it + length users)%nat, u) (concat edges)) as Hedge.
  { clear Hkeys. induction E' as [|i es l ess (u & it & Hu' & Hi' & ->) _ IH];
      simpl; [tauto|].
    intros a b [Hab|[Hab|Hab]].
    - exists i, u, it. split; [now left|]. do 2 (split; [assumption|]).
      split; [left; now symmetry|]. split; auto.
    - exists i, u, it. split; [now left|]. do 2 (split; [assumption|]).
      split; [right; now symmetry|]. split; auto.
    - destruct (IH a b Hab) as (i' & u' & it' & ? & ? & ? & ? & ? & ?).
      exists i', u', it'. split; [now right|]. do 3 (split; [assumption|]).
      split; auto. }
  split; [|split; [|split]].
  - clear Hedge Hkeys.
    induction E' as [|i es l ess (u & it & _ & _ & ->) _ IH];
      simpl; [reflexivity|]. rewrite IH. lia.
  - intros a b Hab.
    destruct (Hedge a b Hab) as (i & u & it & _ & _ & _ & [E|E] & H1 & H2);
      injection E as -> ->; assumption.
  - intros a b Hab.
    destruct (Hedge a b Hab) as (i & u & it & _ & Hu' & Hi' & [E|E] & _);
      injection E as -> ->;
      apply CollaborativeFilterFacts.id_index_bound in Hu', Hi';
      [left|right]; lia.
  - intros i Hin. clear Hedge Hkeys.
    induction E' as [|i' es l ess (u & it & Hu' & Hi' & ->) _ IH];
      [destruct Hin|].
    destruct Hin as [<-|Hin].
    + exists u, it. repeat split; auto. simpl. now left.
    + destruct (IH Hin) as (u' & it' & ? & ? & ?).
      exists u', it'. repeat split; auto. simpl. auto.
Qed.

End IndexFacts.

(** ** The graph model and the collaborative filter at inference *)

Module InferenceFacts.

Lemma romap_Ok_In {A B} (f : A -> result (option B)) (l : list A)
    (ys : list B) (y : B) :
  romap f l = Ok ys -> In y ys -> exists x, In x l /\ f x = Ok (Some y).
Proof.
  revert ys. induction l as [|a l IH]; simpl; intros ys H Hy.
  - injection H as <-. destruct Hy.
  - destruct (f a) as [o|e] eqn:Ha; simpl in H; [|discriminate].
    destruct (romap f l) as [ys'|e] eqn:Hl; simpl in H; [|discriminate].
    injection H as <-. destruct o as [b|].
    + destruct Hy as [<-|Hy]; [eauto|].
      destruct (IH _ eq_refl Hy) as (x & ? & ?). eauto.
    + destruct (IH _ eq_refl Hy) as (x & ? & ?). eauto.
Qed.

Lemma StronglySorted_firstn {A} (R : A -> A -> Prop) (n : nat) (l : list A) :
  StronglySorted R l -> StronglySorted R (firstn n l).
Proof.
  intros Hs. revert n. induction Hs as [|x l Hl IH Hx]; intros [|n]; simpl;
    try constructor; auto.
  apply List.Forall_forall. intros y Hy.
  rewrite List.Forall_forall in Hx. apply Hx.
  rewrite <- (firstn_skipn n l). apply in_or_app. now left.
Qed.

(** [GNNRecommender.recommend_items] answers with the empty list when the
    model is not trained, PyTorch is missing or the user is not in the
    graph; whenever it returns, the list has at most [top_k] pairs, in
    order of non-increasing score, and every id in it is a candidate
    that the item index knows (candidates outside the index are dropped
    without a score). *)
Theorem gnn_recommend_items_spec (g : GNNRecommender.t) (user_id : string)
    (cands : list string) (top_k : nat) :
  (GNNRecommender.is_trained g = false \/
   GNNRecommender.TORCH_AVAILABLE g = false \/
   GNNRecommender.user_id_map g !! user_id = None ->
   GNNRecommender.recommend_items g user_id cands top_k = Ok []) /\
  (forall r,
     GNNRecommender.recommend_items g user_id cands top_k = Ok r ->
     (length r <= top_k)%nat /\
     StronglySorted (fun a b => snd b <= snd a) r /\
     forall id, In id (map fst r) ->
       In id cands /\ is_Some (GNNRecommender.item_id_map g !! id)).
Proof.
  unfold GNNRecommender.recommend_items. split.
  - intros [H|[H|H]].
    + now rewrite H.
    + rewrite H. now rewrite orb_true_r.
    + destruct (negb _ || negb _); [reflexivity|]. now rewrite H.
  - intros r.
    destruct (negb _ || negb _).
    { intros [= <-]. repeat split; [simpl; lia|constructor|destruct H|destruct H]. }
    destruct (GNNRecommender.user_id_map g !! user_id) as [u|].
    2:{ intros [= <-].
        repeat split; [simpl; lia|constructor|destruct H|destruct H]. }
    match goal with
    | |- (?m ≫= _) = _ -> _ => destruct m as [scores|e] eqn:E
    end; simpl; [|discriminate].
    intros [= <-]. split; [apply slice_to_length|]. split.
    { apply StronglySorted_firstn, (sort_desc_sorted snd). }
    intros id Hid. apply in_map_iff in Hid as ([id' sc] & <- & Hin).
    apply slice_to_incl, sort_desc_In in Hin. simpl.
    destruct (GNNRecommender.gmodel g) as [[ue ie|emb]|].
    + destruct (Py.index ue u) as [uv|]; simpl in E; [|discriminate].
      destruct (romap_Ok_In _ _ _ _ E Hin) as (x & Hx & Hf).
      cbv beta in Hf.
      destruct (GNNRecommender.item_id_map g !! x) as [ix|] eqn:Ex;
        [|discriminate Hf].
      destruct (Py.index ie _); simpl in Hf; [|discriminate].
      destruct (GNNRecommender.mul_sum _ _); simpl in Hf; [|discriminate].
      injection Hf as <- _. split; [assumption|]. rewrite Ex. eauto.
    + destruct (Py.index emb u) as [uv|]; simpl in E; [|discriminate].
      destruct (romap_Ok_In _ _ _ _ E Hin) as (x & Hx & Hf).
      cbv beta in Hf.
      destruct (GNNRecommender.item_id_map g !! x) as [ix|] eqn:Ex;
        [|discriminate Hf].
      destruct (Py.index emb _); simpl in Hf; [|discriminate].
      destruct (GNNRecommender.mul_sum _ _); simpl in Hf; [|discriminate].
      injection Hf as <- _. split; [assumption|]. rewrite Ex. eauto.
    + injection E as <-. destruct Hin.
Qed.

Lemma gnn_recommend_items_spec_witness :
  GNNRecommender.recommend_items Sample.gnn "stranger" ["a"; "b"] 5 = Ok [] /\
  GNNRecommender.recommend_items Sample.gnn "u1" ["a"; "zz"; "b"] 5
  = Ok [("b", 1 * 2 + 0); ("a", 1 * 1 + 0)].
Proof.
  split.
  - apply (proj1 (gnn_recommend_items_spec Sample.gnn "stranger" ["a"; "b"] 5)).
    right. right. reflexivity.
  - reflexivity.
Defined.

Lemma insert_asc_In {A} (key : A -> Q) (a x : A) (l : list A) :
  In x (Py.insert_asc key a l) <-> x = a \/ In x l.
Proof.
  induction l as [|y l IH]; simpl; [intuition|].
  destruct (Qlt_le_dec (key y) (key a)); simpl; [rewrite IH|]; intuition.
Qed.

Lemma argsort_range (values : list Q) (idx : nat) :
  In idx (Py.argsort values) -> (idx < length values)%nat.
Proof.
  unfold Py.argsort. intros H.
  apply in_map_iff in H as ([i v] & <- & Hin). simpl.
  assert (forall l, In (i, v) (fold_right (Py.insert_asc snd) [] l) ->
                    In (i, v) l) as Hl.
  { induction l as [|p l IH]; simpl; [tauto|].
    rewrite insert_asc_In. intuition. }
  apply Hl in Hin. apply in_combine_l in Hin. apply in_seq in Hin. lia.
Qed.

Lemma slice_incl {A} (a b : nat) (l : list A) : incl (Py.slice a b l) l.
Proof.
  unfold Py.slice. intros x Hx.
  apply (slice_to_incl (b - a)) in Hx.
  rewrite <- (firstn_skipn a l). apply in_or_app. now right.
Qed.

Lemma romap_total {A B} (f : A -> result (option B)) (l : list A) :
  (forall x, In x l -> exists o, f x = Ok o) -> exists ys, romap f l = Ok ys.
Proof.
  induction l as [|a l IH]; intros Hf; simpl; [eauto|].
  destruct (Hf a (or_introl eq_refl)) as [o Ho]. rewrite Ho. simpl.
  destruct IH as [ys Hys]; [intros x Hx; apply Hf; now right|].
  rewrite Hys. simpl. eauto.
Qed.

Lemma rmap_length {A B} (f : A -> result B) (l : list A) (ys : list B) :
  rmap f l = Ok ys -> length ys = length l.
Proof.
  intros H. apply rmap_Ok_inv in H.
  induction H; simpl; congruence.
Qed.

(** [get_similar_items] answers with the empty list for an untrained
    model or an unknown item; whenever it returns, it returns at most
    [top_k] pairs and every id in them is an indexed item; and on a
    trained model it always returns. *)
Theorem get_similar_items_spec (m : CollaborativeFilter.t) (item_id : string)
    (top_k : nat) :
  (CollaborativeFilter.is_trained m = false \/
   CollaborativeFilter.item_id_map m !! item_id = None ->
   CollaborativeFilter.get_similar_items m item_id top_k = Ok []) /\
  (forall r,
     CollaborativeFilter.get_similar_items m item_id top_k = Ok r ->
     (length r <= top_k)%nat /\
     forall id s, In (id, s) r ->
       exists idx, CollaborativeFilter.reverse_item_map m !! idx = Some id) /\
  (CollaborativeFilter.trained m ->
   exists r, CollaborativeFilter.get_similar_items m item_id top_k = Ok r).
Proof.
  unfold CollaborativeFilter.get_similar_items. split; [|split].
  - intros [H|H].
    + now rewrite H.
    + rewrite H. now destruct (CollaborativeFilter.is_trained m).
  - intros r.
    destruct (CollaborativeFilter.is_trained m);
      [|intros [= <-]; split; [simpl; lia|intros ? ? []]].
    destruct (CollaborativeFilter.item_id_map m !! item_id) as [ix|];
      [|intros [= <-]; split; [simpl; lia|intros ? ? []]].
    destruct (CollaborativeFilter.item_factors m) as [itf|];
      [|intros [= <-]; split; [simpl; lia|intros ? ? []]].
    destruct (Py.index itf ix) as [iv|]; simpl; [|discriminate].
    destruct (rmap _ itf) as [sims|]; simpl; [|discriminate].
    intros Hr. split.
    + apply HybridEnsembleFacts.romap_length in Hr.
      etransitivity; [exact Hr|]. unfold Py.slice.
      etransitivity; [apply firstn_le_length|]. lia.
    + intros id s Hin.
      destruct (romap_Ok_In _ _ _ _ Hr Hin) as (idx & _ & Hf).
      cbv beta in Hf.
      destruct (CollaborativeFilter.reverse_item_map m !! idx) as [name|] eqn:En;
        [|discriminate Hf].
      destruct (Py.index sims idx); simpl in Hf; [|discriminate].
      injection Hf as <- _. eauto.
  - intros [Hflag (ub & ib & uf & itf & k & Hub & Hib & Huf & Hitf & Hlu & Hli
                   & Hku & Hki & Hmu & Hmi)].
    rewrite Hflag, Hitf.
    destruct (CollaborativeFilter.item_id_map m !! item_id) as [ix|] eqn:Ei;
      [|eauto].
    pose proof (Hmi _ _ Ei) as Hix. simpl in Hix.
    destruct (index_total itf ix ltac:(lia)) as (iv & Hiv & ->). simpl.
    assert (length iv = k) as Hlen
        by (rewrite Forall_lookup in Hki; eapply Hki; eauto).
    destruct (rmap_total (fun row => Py.dot row iv) (fun _ _ => True) itf)
      as (sims & Hsims & Hslen & _).
    { intros row Hrow. rewrite List.Forall_forall in Hki.
      destruct (dot_total row iv) as [v Hv]; [rewrite Hki; auto|]. eauto. }
    rewrite Hsims. simpl.
    apply romap_total. intros idx Hidx.
    destruct (CollaborativeFilter.reverse_item_map m !! idx); [|eauto].
    apply slice_incl, in_rev, argsort_range in Hidx.
    destruct (index_total sims idx Hidx) as (v & _ & ->). simpl. eauto.
Qed.

Lemma get_similar_items_spec_witness :
  CollaborativeFilter.get_similar_items Sample.cf "nothing" 3 = Ok [] /\
  exists r, CollaborativeFilter.get_similar_items Sample.cf "b" 3 = Ok r.
Proof.
  split.
  - apply (proj1 (get_similar_items_spec Sample.cf "nothing" 3)).
    right. reflexivity.
  - apply (proj2 (proj2 (get_similar_items_spec Sample.cf "b" 3))).
    exact CollaborativeFilterFacts.sample_cf_trained.
Defined.

(** [get_user_embedding] and [get_item_embedding] never raise on a
    trained model: a known id gets its row of the factor array, an
    unknown id [n_factors] zeros; an untrained model answers every id
    with zeros. *)
Theorem get_embedding_spec (m : CollaborativeFilter.t) (id : string) :
  (CollaborativeFilter.is_trained m = false ->
   CollaborativeFilterData.get_user_embedding m id
     = Ok (repeat 0 (CollaborativeFilter.n_factors m)) /\
   CollaborativeFilterData.get_item_embedding m id
     = Ok (repeat 0 (CollaborativeFilter.n_factors m))) /\
  (CollaborativeFilter.trained m ->
   (match CollaborativeFilter.user_id_map m !! id with
    | Some idx =>
        exists uf row,
          CollaborativeFilter.user_factors m = Some uf /\
          uf !! idx = Some row /\
          CollaborativeFilterData.get_user_embedding m id = Ok row
    | None =>
        CollaborativeFilterData.get_user_embedding m id
          = Ok (repeat 0 (CollaborativeFilter.n_factors m))
    end) /\
   (match CollaborativeFilter.item_id_map m !! id with
    | Some idx =>
        exists itf row,
          CollaborativeFilter.item_factors m = Some itf /\
          itf !! idx = Some row /\
          CollaborativeFilterData.get_item_embedding m id = Ok row
    | None =>
        CollaborativeFilterData.get_item_embedding m id
          = Ok (repeat 0 (CollaborativeFilter.n_factors m))
    end)).
Proof.
  unfold CollaborativeFilterData.get_user_embedding,
    CollaborativeFilterData.get_item_embedding.
  split.
  - intros H. now rewrite H.
  - intros [Hflag (ub & ib & uf & itf & k & Hub & Hib & Huf & Hitf & Hlu & Hli
                   & Hku & Hki & Hmu & Hmi)].
    rewrite Hflag, Huf, Hitf. split.
    + destruct (CollaborativeFilter.user_id_map m !! id) as [idx|] eqn:E;
        [|reflexivity].
      pose proof (Hmu _ _ E) as Hidx. simpl in Hidx.
      destruct (index_total uf idx ltac:(lia)) as (row & Hrow & Hi). eauto.
    + destruct (CollaborativeFilter.item_id_map m !! id) as [idx|] eqn:E;
        [|reflexivity].
      pose proof (Hmi _ _ E) as Hidx. simpl in Hidx.
      destruct (index_total itf idx ltac:(lia)) as (row & Hrow & Hi). eauto.
Qed.

Lemma get_embedding_spec_witness :
  (exists row,
     CollaborativeFilterData.get_item_embedding Sample.cf "b" = Ok row) /\
  CollaborativeFilterData.get_user_embedding Sample.cf "nobody"
    = Ok (repeat 0 (CollaborativeFilter.n_factors Sample.cf)).
Proof.
  destruct (proj2 (get_embedding_spec Sample.cf "b")
              CollaborativeFilterFacts.sample_cf_trained) as [_ Hb].
  destruct (proj2 (get_embedding_spec Sample.cf "nobody")
              CollaborativeFilterFacts.sample_cf_trained) as [Hn _].
  split.
  - destruct Hb as (itf & row & _ & _ & Hrow). exists row. exact Hrow.
  - exact Hn.
Defined.

End InferenceFacts.

(** ** The content model, further *)

Module ContentModelFacts.
Import ContentBasedRecommender.

(** The three profile vectors have fixed lengths: 15 for a user and for a
    session, 16 for a mentor.  A user and a session are therefore
    compared as they are, while the comparison with a mentor cuts the
    mentor's vector to its first 15 components, which drops one padding
    zero and nothing else. *)
Theorem profile_lengths cos (ud : UserData) (m s : Profile) :
  length (build_user_profile ud) = 15%nat /\
  length (build_mentor_profile m) = 16%nat /\
  length (build_session_profile s) = 15%nat /\
  calculate_similarity cos (build_user_profile ud) (build_session_profile s)
    = Qmax 0 (cos (build_user_profile ud) (build_session_profile s)) /\
  calculate_similarity cos (build_user_profile ud) (build_mentor_profile m)
    = Qmax 0 (cos (build_user_profile ud)
                (firstn 15 (build_mentor_profile m))) /\
  build_mentor_profile m = firstn 15 (build_mentor_profile m) ++ [0].
Proof.
  assert (length (build_user_profile ud) = 15%nat) as Hu by reflexivity.
  assert (length (build_mentor_profile m) = 16%nat) as Hm by reflexivity.
  assert (length (build_session_profile s) = 15%nat) as Hs by reflexivity.
  do 3 (split; [assumption|]). split; [|split].
  - unfold calculate_similarity. now rewrite Hu, Hs.
  - unfold calculate_similarity. rewrite Hu, Hm. simpl negb. cbv iota.
    change (Nat.min 15 16) with 15%nat. unfold Py.slice_to.
    now rewrite (firstn_all2 (build_user_profile ud)) by (rewrite Hu; lia).
  - reflexivity.
Qed.

Lemma group_score_range (category_match n : Q) :
  category_match = 1.0 \/ category_match = 0.5 -> 0 <= n ->
  0.3 <= category_match * 0.6 + Qmin (n / 30) 1 * 0.4 /\
  category_match * 0.6 + Qmin (n / 30) 1 * 0.4 <= 1.
Proof.
  intros Hc Hn.
  assert (0 <= Qmin (n / 30) 1) as Hlo.
  { apply Q.min_glb; [|discriminate].
    apply Qle_shift_div_l; [reflexivity|]. lra. }
  pose proof (Q.le_min_r (n / 30) 1) as Hhi.
  destruct Hc as [-> | ->]; split; lra.
Qed.

(** [recommend_groups] returns at most [top_k] pairs in order of
    non-increasing score; each comes from a listed group that still has
    room (fewer members than its limit, 50 when none is set), and its
    score lies between 0.3 and 1. *)
Theorem recommend_groups_spec (ud : UserData) (group_list : list Profile)
    (top_k : nat) :
  (length (recommend_groups ud group_list top_k) <= top_k)%nat /\
  StronglySorted (fun p q => snd q <= snd p)
    (recommend_groups ud group_list top_k) /\
  forall id score, In (id, score) (recommend_groups ud group_list top_k) ->
    0.3 <= score /\ score <= 1 /\
    exists group,
      In group group_list /\ _id group = id /\
      inject_Z (Z.of_nat (length (default [] (members group))))
        < default 50 (settings_maxMembers group).
Proof.
  split; [apply slice_to_length|]. split.
  - unfold recommend_groups, Py.slice_to.
    apply InferenceFacts.StronglySorted_firstn, sort_desc_sorted.
  - intros id score Hin. unfold recommend_groups in Hin.
    apply slice_to_incl, sort_desc_In, list_elem_of_In, list_elem_of_omap in Hin
      as (group & Hg & Hf).
    destruct (Qlt_le_dec _ _) as [Hlt|]; [|discriminate].
    injection Hf as <- <-.
    destruct (group_score_range
                (if Py.contains (lower (default "General" (category group)))
                      (interests ud) then 1.0 else 0.5)
                (inject_Z (Z.of_nat (length (default [] (members group))))))
      as [Hlo Hhi].
    { destruct (Py.contains _ _); auto. }
    { change 0 with (inject_Z 0). rewrite <- Zle_Qle. lia. }
    split; [exact Hlo|]. split; [exact Hhi|].
    exists group. split; [now apply list_elem_of_In|]. split; [reflexivity|].
    exact Hlt.
Qed.

Lemma recommend_groups_spec_witness :
  exists score,
    In ("g", score)
       (recommend_groups
          {| interests := []; skill_level := None; streak := None;
             goal_categories := [] |}
          [{| _id := "g"; domains := None; success_rate := None;
              active_mentees := None; subject := None; level := None;
              duration := None; current_participants := None;
              max_participants := None; category := None;
              members := Some ["u"]; settings_maxMembers := None |}] 1) /\
    0.3 <= score /\ score <= 1.
Proof.
  eexists. split; [vm_compute; left; reflexivity|].
  match goal with
  | |- 0.3 <= ?q /\ _ =>
      destruct (proj2 (proj2 (recommend_groups_spec
                  {| interests := []; skill_level := None; streak := None;
                     goal_categories := [] |}
                  [{| _id := "g"; domains := None; success_rate := None;
                      active_mentees := None; subject := None; level := None;
                      duration := None; current_participants := None;
                      max_participants := None; category := None;
                      members := Some ["u"]; settings_maxMembers := None |}]
                  1)) "g" q) as (Hlo & Hhi & _)
  end.
  - vm_compute. left. reflexivity.
  - split; assumption.
Defined.

(** [recommend_sessions] returns exactly when no listed session has a
    capacity of zero (20 when none is set): then it returns
    [min(top_k, len(session_list))] pairs in order of non-increasing
    score, the ids being ids of listed sessions; otherwise it raises
    [ZeroDivisionError]. *)
Theorem recommend_sessions_returns_iff cos (ud : UserData)
    (session_list : list Profile) (top_k : nat) :
  (Forall (fun s => ~ default 20 (max_participants s) == 0) session_list ->
   exists recs,
     recommend_sessions cos ud session_list top_k = Ok recs /\
     length recs = Nat.min top_k (length session_list) /\
     StronglySorted (fun p q => snd q <= snd p) recs /\
     incl (map fst recs) (map _id session_list)) /\
  (Exists (fun s => default 20 (max_participants s) == 0) session_list ->
   recommend_sessions cos ud session_list top_k = Raise ZeroDivisionError).
Proof.
  unfold recommend_sessions.
  split.
  - intros Hall. set (f := fun session : Profile => _).
    destruct (rmap_total f (fun _ _ => True) session_list)
      as (rs & Hrs & Hlen & _).
    { intros s Hs. rewrite List.Forall_forall in Hall.
      specialize (Hall s Hs). subst f. cbv beta.
      destruct (Qeq_bool _ _) eqn:E; [apply Qeq_bool_iff in E; tauto|].
      eauto. }
    rewrite Hrs. simpl. eexists. split; [reflexivity|].
    split; [|split].
    + unfold Py.slice_to. rewrite length_firstn, sort_desc_length. lia.
    + unfold Py.slice_to.
      apply InferenceFacts.StronglySorted_firstn, sort_desc_sorted.
    + intros id Hid. apply in_map_iff in Hid as ([id' sc] & <- & Hin).
      apply slice_to_incl, sort_desc_In in Hin.
      destruct (rmap_Ok_In _ _ _ _ Hrs Hin) as (s & Hs & Hf).
      subst f. cbv beta in Hf.
      destruct (Qeq_bool _ _); [discriminate|]. injection Hf as <- _.
      simpl. now apply in_map.
  - intros Hex. set (f := fun session : Profile => _).
    assert (rmap f session_list = Raise ZeroDivisionError) as ->;
      [|reflexivity].
    induction Hex as [s l H0|s l Hex IH]; simpl.
    + subst f. cbv beta. apply Qeq_bool_iff in H0. now rewrite H0.
    + rewrite IH. destruct (f s) as [v|e] eqn:E; [reflexivity|].
      subst f. cbv beta in E. destruct (Qeq_bool _ _); now inversion E.
Qed.

Lemma recommend_sessions_returns_iff_witness :
  recommend_sessions Sample.cosine Sample.user [Sample.closed_session] 5
  = Raise ZeroDivisionError.
Proof.
  apply (proj2 (recommend_sessions_returns_iff Sample.cosine Sample.user
                  [Sample.closed_session] 5)).
  constructor. reflexivity.
Defined.

Lemma length_append (a b : string) :
  String.length (a +:+ b) = (String.length a + String.length b)%nat.
Proof. induction a as [|c a IH]; simpl; [reflexivity|now rewrite IH]. Qed.

Lemma join_length (sep x : string) (l : list string) :
  (String.length x <= String.length (join sep (x :: l)))%nat.
Proof.
  destruct l as [|y l]; simpl; [lia|]. rewrite length_append. lia.
Qed.

Lemma join_nonempty (sep : string) (l : list string) :
  l <> [] -> Forall (fun x => (0 < String.length x)%nat) l ->
  (0 < String.length (join sep l))%nat.
Proof.
  destruct l as [|x l]; [congruence|]. intros _ Hall.
  inversion Hall as [|? ? Hx _]; subst.
  pose proof (join_length sep x l). lia.
Qed.

(** [explain_recommendation] always has something to say: for every user,
    item and item type the explanation is a non-empty string, and for an
    item type other than mentor, session and group it is the stock
    phrase. *)
Theorem explain_recommendation_nonempty (ud : UserData) (item : Profile)
    (item_type : string) :
  explain_recommendation ud item item_type <> "" /\
  (item_type <> "mentor" -> item_type <> "session" -> item_type <> "group" ->
   explain_recommendation ud item item_type = "Recommended for you").
Proof.
  split.
  - unfold explain_recommendation.
    set (explanations := if String.eqb item_type "mentor" then _ else _).
    assert (Forall (fun x => (0 < String.length x)%nat) explanations) as Hall.
    { subst explanations.
      destruct (String.eqb item_type "mentor");
        [|destruct (String.eqb item_type "session");
          [|destruct (String.eqb item_type "group")]].
      - apply Forall_app. split.
        + destruct (Dict.dedup _ _); constructor; [simpl; lia|constructor].
        + destruct (Qlt_le_dec _ _); constructor; [|constructor].
          rewrite length_append. simpl. lia.
      - apply Forall_app. split.
        + destruct (decide _); constructor; [simpl; lia|constructor].
        + destruct (subject item) as [subj|]; [|constructor].
          destruct (Py.contains _ _); constructor; [simpl; lia|constructor].
      - constructor; [simpl; lia|constructor].
      - constructor. }
    destruct explanations as [|x l] eqn:E; [discriminate|].
    intros Heq. pose proof (join_nonempty " • " (x :: l) ltac:(discriminate) Hall)
      as Hpos.
    rewrite Heq in Hpos. simpl in Hpos. lia.
  - intros Hm Hs Hg. unfold explain_recommendation.
    apply String.eqb_neq in Hm, Hs, Hg. now rewrite Hm, Hs, Hg.
Qed.

Lemma explain_recommendation_nonempty_witness :
  explain_recommendation Sample.user Sample.closed_session "course"
  = "Recommended for you".
Proof.
  apply (proj2 (explain_recommendation_nonempty Sample.user
                  Sample.closed_session "course")); discriminate.
Defined.

End ContentModelFacts.

(** ** The ensemble, further *)

Module EnsembleFacts.
Import HybridEnsemble Candidates.

(** [set_weights] stores the three arguments divided by their total, so
    the stored weights sum to 1 and keep the proportions of the
    arguments, and it touches nothing else of the ensemble; when the
    three arguments sum to zero it raises [ZeroDivisionError] and leaves
    the ensemble, its weights included, as it was. *)
Theorem set_weights_spec (content collaborative gnn : Q) (self : t) :
  (content + collaborative + gnn == 0 ->
   set_weights content collaborative gnn self
   = (Raise ZeroDivisionError, self)) /\
  (~ content + collaborative + gnn == 0 ->
   exists self',
     set_weights content collaborative gnn self = (Ok tt, self') /\
     weights self'
     = Keyed.mk (content / (content + collaborative + gnn))
         (collaborative / (content + collaborative + gnn))
         (gnn / (content + collaborative + gnn)) /\
     Keyed.content (weights self') + Keyed.collaborative (weights self')
       + Keyed.gnn (weights self') == 1 /\
     Keyed.content (weights self') * (content + collaborative + gnn)
       == content /\
     Keyed.collaborative (weights self') * (content + collaborative + gnn)
       == collaborative /\
     Keyed.gnn (weights self') * (content + collaborative + gnn) == gnn /\
     ensemble_method self' = ensemble_method self /\
     HybridEnsemble.collaborative self' = HybridEnsemble.collaborative self /\
     HybridEnsemble.gnn self' = HybridEnsemble.gnn self /\
     models_ready self' = models_ready self).
Proof.
  unfold set_weights. split.
  - intros H0. apply Qeq_bool_iff in H0. now rewrite H0.
  - intros Hne.
    destruct (Qeq_bool _ _) eqn:E; [apply Qeq_bool_iff in E; tauto|].
    eexists. split; [reflexivity|]. simpl.
    split; [reflexivity|].
    split; [field; exact Hne|]. split; [field; exact Hne|].
    split; [field; exact Hne|]. split; [field; exact Hne|].
    repeat split.
Qed.

Lemma set_weights_spec_witness :
  exists self',
    set_weights 1 1 2 (init "weighted" false) = (Ok tt, self') /\
    weights self' = Keyed.mk (1 / (1 + 1 + 2)) (1 / (1 + 1 + 2))
                      (2 / (1 + 1 + 2)) /\
    Keyed.content (weights self') + Keyed.collaborative (weights self')
      + Keyed.gnn (weights self') == 1.
Proof.
  destruct (proj2 (set_weights_spec 1 1 2 (init "weighted" false)))
    as (self' & Hs & Hw & Hsum & _); [discriminate|].
  exists self'. split; [exact Hs|]. split; [exact Hw|exact Hsum].
Defined.

(** The weights chosen by [_context_aware_routing] are non-negative and
    sum to 1 for every user and recommendation type, and do not depend
    on the user id.  For a new user (a streak below 5) the content
    model carries more than half of the weight; for an active user (a
    streak above 30) it carries at most 0.3. *)
Theorem context_aware_routing_normalized (user_id : string)
    (user_data : UserData) (recommendation_type : string) :
  let w := _context_aware_routing user_id user_data recommendation_type in
  nonneg_weights w /\
  Keyed.content w + Keyed.collaborative w + Keyed.gnn w == 1 /\
  (forall other, _context_aware_routing other user_data recommendation_type
                 = w) /\
  (default 0 (streak user_data) < 5 -> 1 # 2 < Keyed.content w) /\
  (30 < default 0 (streak user_data) -> Keyed.content w <= 0.3).
Proof.
  cbv zeta. split; [apply HybridEnsembleFacts.context_aware_routing_nonneg|].
  unfold _context_aware_routing.
  split; [|split; [reflexivity|split]].
  - destruct (Qlt_le_dec _ 5); [|destruct (Qlt_le_dec 30 _)];
      (destruct (String.eqb recommendation_type "mentor");
       [|destruct (String.eqb recommendation_type "group")]);
      reflexivity.
  - intros Hlt. destruct (Qlt_le_dec _ 5) as [_|Hge];
      [|destruct (Qlt_not_le _ _ Hlt Hge)].
    destruct (String.eqb recommendation_type "mentor");
      [|destruct (String.eqb recommendation_type "group")]; reflexivity.
  - intros Hgt. destruct (Qlt_le_dec _ 5) as [Hlt|_];
      [exfalso; apply (Qlt_not_le _ _ Hlt); apply Qlt_le_weak;
       eapply Qlt_trans; [|exact Hgt]; reflexivity|].
    destruct (Qlt_le_dec 30 _) as [_|Hle];
      [|destruct (Qlt_not_le _ _ Hgt Hle)].
    destruct (String.eqb recommendation_type "mentor");
      [|destruct (String.eqb recommendation_type "group")]; discriminate.
Qed.

Lemma context_aware_routing_normalized_witness :
  1 # 2 < Keyed.content (_context_aware_routing "u1" Sample.user "mentor").
Proof.
  apply (proj1 (proj2 (proj2 (proj2
           (context_aware_routing_normalized "u1" Sample.user "mentor"))))).
  reflexivity.
Defined.

(** When the content model is the only one to contribute to an id (each
    of the other two is either not ready or has no score for the id) and
    its weight is positive, the fused score of the id is the content
    score itself, whatever the weights are.  This is the state of a
    freshly constructed ensemble. *)
Theorem lone_content_score (self : t) (c cf g : Dict.t Q) (id : string)
    (v : Q) :
  Keyed.content (models_ready self) = true ->
  0 < Keyed.content (weights self) ->
  Dict.get id c = Some v ->
  Keyed.collaborative (models_ready self) = false \/ Dict.get id cf = None ->
  Keyed.gnn (models_ready self) = false \/ Dict.get id g = None ->
  exists v',
    Dict.get id (_weighted_ensemble self c cf g) = Some v' /\ v' == v.
Proof.
  intros Hready Hw Hc Hcf Hg.
  rewrite HybridEnsembleFacts.weighted_ensemble_eq, DictFacts.get_map_keys.
  assert (In id (Dict.union_keys (Dict.keys c) (Dict.keys cf) (Dict.keys g)))
    as Hin.
  { apply DictFacts.union_keys_In. left. apply DictFacts.get_In_keys. eauto. }
  apply DictFacts.contains_In in Hin. rewrite Hin.
  eexists. split; [reflexivity|].
  unfold fused_score, contribute. rewrite Hc, Hready.
  assert (forall (ready : bool) (d : Dict.t Q) (acc : Q * Q),
            ready = false \/ Dict.get id d = None ->
            match Dict.get id d with
            | Some v0 =>
                if ready then (fst acc + 0 * v0, snd acc) else acc
            | None => acc
            end = acc) as Hskip.
  { intros ready d acc [-> | ->]; [now destruct (Dict.get id d)|reflexivity]. }
  destruct Hcf as [-> | ->], Hg as [-> | ->];
    repeat match goal with
           | |- context [Dict.get id ?d] => destruct (Dict.get id d)
           end;
    cbn [fst snd];
    (destruct (Qlt_le_dec 0 (0 + Keyed.content (weights self))) as [_|Hle];
     [field; lra | lra]).
Qed.

Lemma lone_content_score_witness :
  exists v',
    Dict.get "m1"
      (_weighted_ensemble (init "weighted" false) [("m1", 0.7)]
         [("m1", 0.1)] [])
    = Some v' /\ v' == 0.7.
Proof.
  apply (lone_content_score (init "weighted" false) [("m1", 0.7)]
           [("m1", 0.1)] [] "m1" 0.7).
  - reflexivity.
  - reflexivity.
  - reflexivity.
  - left. reflexivity.
  - left. reflexivity.
Defined.

(** *** What the recommend methods return *)

Lemma normalize_keys (scores : list (string * Q)) (id : string) :
  In id (Dict.keys (_normalize_scores scores)) -> In id (map fst scores).
Proof.
  destruct scores as [|p rest] eqn:E; [intros []|]. rewrite <- E.
  intros Hin. apply DictFacts.get_In_keys in Hin as [v Hv].
  rewrite HybridEnsembleFacts.normalize_get in Hv by (subst; discriminate).
  destruct (Dict.last_value id scores) as [s|] eqn:El;
    [|destruct (Qeq_bool _ _); discriminate].
  apply DictFacts.last_value_Some_In in El.
  apply in_map_iff. exists (id, s). auto.
Qed.

Lemma normalize_within (ids : list string) (scores : list (string * Q)) :
  incl (map fst scores) ids -> keys_within ids (_normalize_scores scores).
Proof. intros H id Hid. apply H. now apply normalize_keys. Qed.

Lemma keeps_cf_within (self : t) (user_id : string) (ids : list string) :
  keeps self (cf_scores_of user_id ids) (keys_within ids).
Proof.
  unfold cf_scores_of.
  eapply HybridEnsembleFacts.keeps_bind;
    [apply HybridEnsembleFacts.keeps_get_self|]. intros s ->.
  destruct (Keyed.collaborative (models_ready self)).
  - eapply HybridEnsembleFacts.keeps_bind;
      [apply HybridEnsembleFacts.keeps_lift
         with (P := fun r => incl (map fst r) ids)|].
    + intros r Hr.
      now apply HybridEnsembleFacts.cf_recommend_items_Ok in Hr as [_ Hr].
    + intros r Hr. apply HybridEnsembleFacts.keeps_ret.
      now apply normalize_within.
  - apply HybridEnsembleFacts.keeps_ret. intros x [].
Qed.

Lemma keeps_gnn_within (self : t) (user_id : string) (ids : list string) :
  keeps self (gnn_scores_of user_id ids) (keys_within ids).
Proof.
  unfold gnn_scores_of.
  eapply HybridEnsembleFacts.keeps_bind;
    [apply HybridEnsembleFacts.keeps_get_self|]. intros s ->.
  destruct (Keyed.gnn (models_ready self)).
  - eapply HybridEnsembleFacts.keeps_bind;
      [apply HybridEnsembleFacts.keeps_lift
         with (P := fun r => incl (map fst r) ids)|].
    + intros r Hr.
      apply HybridEnsembleFacts.gnn_recommend_items_Ok in Hr
        as (ranked & -> & _ & Hincl & _).
      intros x Hx. apply Hincl.
      apply in_map_iff in Hx as (p & <- & Hp). apply in_map.
      revert Hp. apply (slice_to_incl _ ranked).
    + intros r Hr. apply HybridEnsembleFacts.keeps_ret.
      now apply normalize_within.
  - apply HybridEnsembleFacts.keeps_ret. intros x [].
Qed.

Lemma weighted_ensemble_within (ids : list string) (self : t)
    (c cf g : Dict.t Q) :
  keys_within ids c -> keys_within ids cf -> keys_within ids g ->
  keys_within ids (_weighted_ensemble self c cf g).
Proof.
  intros Hc Hcf Hg id Hid.
  rewrite HybridEnsembleFacts.weighted_ensemble_keys in Hid.
  apply DictFacts.union_keys_In in Hid as [H|[H|H]]; auto.
Qed.

Lemma keeps_fusion_within (ids : list string) (self : t) (user_id : string)
    (ud : UserData) (kind : string) (context_aware : bool)
    (c cf g : Dict.t Q) :
  keys_within ids c -> keys_within ids cf -> keys_within ids g ->
  keeps self
    (if context_aware then context_aware_fusion user_id ud kind c cf g
     else weighted_fusion c cf g)
    (keys_within ids).
Proof.
  intros Hc Hcf Hg. unfold keeps. destruct context_aware.
  - rewrite HybridEnsembleFacts.context_aware_fusion_eq. simpl.
    split; [reflexivity|]. intros d [= <-].
    now apply weighted_ensemble_within.
  - rewrite HybridEnsembleFacts.weighted_fusion_eq. simpl.
    split; [reflexivity|]. intros d [= <-].
    now apply weighted_ensemble_within.
Qed.

Lemma explain_within (ids : list string) (top_k : nat) (ud : UserData)
    (cands : list Profile) (kind : string) (ranked : list (string * Q)) :
  (length ranked <= top_k)%nat -> incl (map fst ranked) ids ->
  within ids top_k (explain_all ud cands kind ranked).
Proof.
  intros Hlen Hincl. split.
  - unfold explain_all. now rewrite length_map.
  - now rewrite HybridEnsembleFacts.explain_all_ids.
Qed.

Lemma rank_within (ids : list string) (top_k : nat) (ud : UserData)
    (cands : list Profile) (kind : string) (d : Dict.t Q) :
  keys_within ids d ->
  within ids top_k (explain_all ud cands kind (rank d top_k)).
Proof.
  intros Hd. apply explain_within; [apply slice_to_length|].
  intros id Hid. apply Hd.
  apply in_map_iff in Hid as (p & <- & Hp).
  apply slice_to_incl, sort_desc_In in Hp. now apply in_map.
Qed.

Lemma cascading_within cos (self : t) (user_id : string) (ud : UserData)
    (cands : list Profile) (top_k : nat) (recs : list (string * Q)) :
  _cascading_ensemble cos self user_id (map _id cands) ud cands top_k
  = Ok recs ->
  (length recs <= top_k)%nat /\ incl (map fst recs) (map _id cands).
Proof.
  unfold _cascading_ensemble.
  destruct (cascading_stage1 _ _ _ _) as [s1|] eqn:E1; simpl; [|discriminate].
  destruct (cascading_stage2 _ _ _ _) as [s2|] eqn:E2; simpl; [|discriminate].
  intros E3.
  apply HybridEnsembleFacts.stage1_Ok in E1.
  apply HybridEnsembleFacts.stage2_Ok in E2 as [E2 _].
  apply HybridEnsembleFacts.stage3_Ok in E3 as [Hlen E3].
  split; [exact Hlen|]. eauto using incl_tran.
Qed.

Lemma recommend_mentors_within cos (user_id : string) (ud : UserData)
    (cands : list Profile) (top_k : nat) (self : t) :
  keeps self (recommend_mentors cos user_id ud cands top_k)
    (within (map _id cands) top_k).
Proof.
  unfold recommend_mentors. destruct cands as [|m ms] eqn:E.
  { apply HybridEnsembleFacts.keeps_ret. split; [simpl; lia|intros x []]. }
  rewrite <- E. clear E.
  assert (keys_within (map _id cands)
            (_normalize_scores
               (ContentBasedRecommender.recommend_mentors cos ud cands
                  (length cands)))) as Hc
      by apply normalize_within, ContentFacts.recommend_mentors_ids.
  eapply HybridEnsembleFacts.keeps_bind; [apply keeps_cf_within|].
  intros cf Hcf.
  eapply HybridEnsembleFacts.keeps_bind; [apply keeps_gnn_within|].
  intros g Hg.
  eapply HybridEnsembleFacts.keeps_bind;
    [apply HybridEnsembleFacts.keeps_get_self|]. intros s ->.
  destruct (String.eqb (ensemble_method self) "weighted");
    [|destruct (String.eqb (ensemble_method self) "context_aware");
      [|destruct (String.eqb (ensemble_method self) "cascading")]].
  - eapply HybridEnsembleFacts.keeps_bind;
      [apply (keeps_fusion_within (map _id cands) self user_id ud "mentor"
                false); eassumption|].
    intros d Hd. apply HybridEnsembleFacts.keeps_ret. now apply rank_within.
  - eapply HybridEnsembleFacts.keeps_bind;
      [apply (keeps_fusion_within (map _id cands) self user_id ud "mentor"
                true); eassumption|].
    intros d Hd. apply HybridEnsembleFacts.keeps_ret. now apply rank_within.
  - eapply HybridEnsembleFacts.keeps_bind;
      [apply HybridEnsembleFacts.keeps_lift
         with (P := fun recs =>
                      (length recs <= top_k)%nat /\
                      incl (map fst recs) (map _id cands));
       apply cascading_within|].
    intros recs [Hlen Hincl]. apply HybridEnsembleFacts.keeps_ret.
    now apply explain_within.
  - apply HybridEnsembleFacts.keeps_ret. now apply rank_within.
Qed.

Lemma recommend_sessions_within cos (user_id : string) (ud : UserData)
    (cands : list Profile) (top_k : nat) (self : t) :
  keeps self (recommend_sessions cos user_id ud cands top_k)
    (within (map _id cands) top_k).
Proof.
  unfold recommend_sessions. destruct cands as [|m ms] eqn:E.
  { apply HybridEnsembleFacts.keeps_ret. split; [simpl; lia|intros x []]. }
  rewrite <- E. clear E.
  eapply HybridEnsembleFacts.keeps_bind;
    [apply HybridEnsembleFacts.keeps_lift
       with (P := fun r => incl (map fst r) (map _id cands))|].
  { intros r Hr. now apply ContentFacts.recommend_sessions_Ok in Hr as [_ Hr]. }
  intros content Hcontent. apply normalize_within in Hcontent.
  eapply HybridEnsembleFacts.keeps_bind; [apply keeps_cf_within|].
  intros cf Hcf.
  eapply HybridEnsembleFacts.keeps_bind; [apply keeps_gnn_within|].
  intros g Hg.
  eapply HybridEnsembleFacts.keeps_bind;
    [apply HybridEnsembleFacts.keeps_get_self|]. intros s ->.
  eapply HybridEnsembleFacts.keeps_bind;
    [apply (keeps_fusion_within (map _id cands) self user_id ud "session");
     eassumption|].
  intros d Hd. apply HybridEnsembleFacts.keeps_ret. now apply rank_within.
Qed.

Lemma recommend_groups_within (user_id : string) (ud : UserData)
    (cands : list Profile) (top_k : nat) (self : t) :
  keeps self (recommend_groups user_id ud cands top_k)
    (within (map _id cands) top_k).
Proof.
  unfold recommend_groups. destruct cands as [|m ms] eqn:E.
  { apply HybridEnsembleFacts.keeps_ret. split; [simpl; lia|intros x []]. }
  rewrite <- E. clear E.
  assert (keys_within (map _id cands)
            (_normalize_scores
               (ContentBasedRecommender.recommend_groups ud cands
                  (length cands)))) as Hc
      by apply normalize_within, ContentFacts.recommend_groups_ids.
  eapply HybridEnsembleFacts.keeps_bind; [apply keeps_cf_within|].
  intros cf Hcf.
  eapply HybridEnsembleFacts.keeps_bind; [apply keeps_gnn_within|].
  intros g Hg.
  eapply HybridEnsembleFacts.keeps_bind;
    [apply HybridEnsembleFacts.keeps_get_self|]. intros s ->.
  eapply HybridEnsembleFacts.keeps_bind;
    [apply (keeps_fusion_within (map _id cands) self user_id ud "group");
     eassumption|].
  intros d Hd. apply HybridEnsembleFacts.keeps_ret. now apply rank_within.
Qed.

(** Whatever the ensemble method and the state of the models, a list
    returned by [recommend_mentors], [recommend_sessions] or
    [recommend_groups] has at most [top_k] entries, and every id in it is
    the id of one of the candidates handed in. *)
Theorem recommend_within_candidates cos (user_id : string) (ud : UserData)
    (cands : list Profile) (top_k : nat) (self : t) :
  (forall recs,
     fst (recommend_mentors cos user_id ud cands top_k self) = Ok recs ->
     (length recs <= top_k)%nat /\
     incl (map (fun r => fst (fst r)) recs) (map _id cands)) /\
  (forall recs,
     fst (recommend_sessions cos user_id ud cands top_k self) = Ok recs ->
     (length recs <= top_k)%nat /\
     incl (map (fun r => fst (fst r)) recs) (map _id cands)) /\
  (forall recs,
     fst (recommend_groups user_id ud cands top_k self) = Ok recs ->
     (length recs <= top_k)%nat /\
     incl (map (fun r => fst (fst r)) recs) (map _id cands)).
Proof.
  split; [|split]; intros recs Hrecs.
  - now apply (recommend_mentors_within cos user_id ud cands top_k self).
  - now apply (recommend_sessions_within cos user_id ud cands top_k self).
  - now apply (recommend_groups_within user_id ud cands top_k self).
Qed.

Lemma recommend_within_candidates_witness :
  exists recs,
    fst (recommend_mentors Sample.cosine "u1" Sample.user
           [Sample.mentor "a" 0.85; Sample.mentor "b" 0.9] 1
           (Sample.ensemble "weighted")) = Ok recs /\
    (length recs <= 1)%nat /\
    incl (map (fun r => fst (fst r)) recs) ["a"; "b"].
Proof.
  eexists. split; [vm_compute; reflexivity|].
  apply (proj1 (recommend_within_candidates Sample.cosine "u1" Sample.user
                  [Sample.mentor "a" 0.85; Sample.mentor "b" 0.9] 1
                  (Sample.ensemble "weighted"))).
  vm_compute. reflexivity.
Defined.

(** *** Performance history *)

(** [update_performance] appends the value to the history of the named
    model and keeps the last 100 entries of it: the new history is a
    suffix of the old one followed by the value, of length
    [min(100, len + 1)].  The other histories are untouched, and a name
    that is none of the three models changes nothing. *)
Theorem update_performance_spec (self : Performance.t) (model_name : string)
    (metric_value : Q) :
  let self' := Performance.update_performance self model_name metric_value in
  let updated (name : string) (h h' : list Q) : Prop :=
    if String.eqb model_name name then
      length h' = Nat.min 100 (S (length h)) /\
      exists dropped, h ++ [metric_value] = dropped ++ h'
    else h' = h in
  updated "content" (Keyed.content self) (Keyed.content self') /\
  updated "collaborative" (Keyed.collaborative self)
    (Keyed.collaborative self') /\
  updated "gnn" (Keyed.gnn self) (Keyed.gnn self').
Proof.
  assert (forall h,
            length (Performance.record h metric_value)
            = Nat.min 100 (S (length h)) /\
            exists dropped,
              h ++ [metric_value]
              = dropped ++ Performance.record h metric_value) as Hrec.
  { intros h. unfold Performance.record, Performance.last_100.
    assert (length (h ++ [metric_value]) = S (length h)) as Hlen
        by (rewrite length_app; simpl; lia).
    destruct (100 <? length (h ++ [metric_value]))%nat eqn:E.
    - apply Nat.ltb_lt in E. split.
      + rewrite length_skipn. lia.
      + eexists. symmetry. apply firstn_skipn.
    - apply Nat.ltb_ge in E. split; [lia|]. now exists []. }
  cbv zeta. unfold Performance.update_performance.
  destruct (String.eqb model_name "content") eqn:E1.
  { apply String.eqb_eq in E1. subst. simpl. auto. }
  destruct (String.eqb model_name "collaborative") eqn:E2.
  { apply String.eqb_eq in E2. subst. simpl. auto. }
  destruct (String.eqb model_name "gnn") eqn:E3.
  { apply String.eqb_eq in E3. subst. simpl. auto. }
  auto.
Qed.

End EnsembleFacts.

(** ** Feature extraction *)

Module FeatureFacts.
Import UserFeatures.

Lemma subjects_NoDup : NoDup subjects.
Proof.
  unfold subjects.
  repeat (constructor;
          [rewrite list_elem_of_In; simpl; intuition discriminate|]).
  constructor.
Qed.

Lemma filter_NoDup {A} (f : A -> bool) (l : list A) :
  NoDup l -> NoDup (List.filter f l).
Proof.
  induction 1 as [|x l Hx Hl IH]; simpl; [constructor|].
  destruct (f x); [|exact IH]. constructor; [|exact IH].
  rewrite list_elem_of_In, filter_In. rewrite list_elem_of_In in Hx. tauto.
Qed.

Lemma subjects_known :
  incl subjects (firstn 7 ContentBasedRecommender.subjects).
Proof. intros x Hx. exact Hx. Qed.

(** Whatever the stored user looks like, the extracted features name at
    least one interest; the interests are distinct subjects of the fixed
    list, the skill level is one of the three known levels and the
    activity score lies between 0.3 and 1.  In the profile vector built
    from them at least one of the seven subject components is therefore
    set, and the component for ['other'] never is. *)
Theorem extract_user_features_spec (user_doc : UserDoc) :
  let f := extract_user_features user_doc in
  interests (user_data f) <> [] /\
  NoDup (interests (user_data f)) /\
  incl (interests (user_data f)) subjects /\
  In (skill_level (user_data f))
     [Some "beginner"; Some "intermediate"; Some "advanced"] /\
  (0.3 <= activity_score f /\ activity_score f <= 1) /\
  Exists (fun x => x == 1)
    (firstn 7 (ContentBasedRecommender.build_user_profile (user_data f))) /\
  ContentBasedRecommender.build_user_profile (user_data f) !! 7%nat = Some 0.
Proof.
  cbv zeta. unfold extract_user_features.
  set (bio := ContentBasedRecommender.lower _).
  set (found := match List.filter (mentions bio) subjects with
                | [] => ["programming"]
                | _ => List.filter (mentions bio) subjects
                end).
  assert (found <> [] /\ NoDup found /\ incl found subjects)
    as (Hne & Hnd & Hincl).
  { subst found. destruct (List.filter (mentions bio) subjects) eqn:E.
    - split; [discriminate|]. split.
      + apply NoDup_singleton.
      + intros x [<-|[]]. simpl. tauto.
    - rewrite <- E. split; [rewrite E; discriminate|]. split.
      + apply filter_NoDup, subjects_NoDup.
      + intros x Hx. now apply filter_In in Hx as [Hx _]. }
  assert (forall score skill,
            interests
              (user_data
                 {| user_id := PyStr.str (user_doc_id user_doc);
                    user_data :=
                      {| interests := found; skill_level := Some skill;
                         streak := Some (default 0 (user_doc_streak user_doc));
                         goal_categories := [] |};
                    activity_score := score;
                    bio := default "" (user_doc_bio user_doc) |}) = found)
    as Hint by reflexivity.
  assert (Exists (fun x => x == 1)
            (map (fun n => if Py.contains n found then 1 else 0) subjects)
          /\ Py.contains "other" found = false) as [Hex Hother].
  { split.
    - destruct found as [|i rest] eqn:E; [congruence|]. rewrite <- E in *.
      assert (In i found) as Hi by (rewrite E; now left).
      apply List.Exists_exists. exists 1. split; [|reflexivity].
      apply in_map_iff. exists i. split; [|now apply Hincl].
      apply DictFacts.contains_In in Hi. now rewrite Hi.
    - destruct (Py.contains "other" found) eqn:E; [|reflexivity].
      apply DictFacts.contains_In, Hincl in E. simpl in E.
      intuition discriminate. }
  destruct (Qlt_le_dec 30 _); [|destruct (Qlt_le_dec 10 _)]; cbn [user_data
    interests skill_level activity_score];
    (split; [exact Hne|]; split; [exact Hnd|]; split; [exact Hincl|];
     split; [simpl; tauto|]; split; [split; discriminate|];
     split; [exact Hex|]);
    unfold ContentBasedRecommender.build_user_profile,
      ContentBasedRecommender.one_hot; cbn [interests map
      ContentBasedRecommender.subjects app lookup list_lookup];
    now rewrite Hother.
Qed.

Example extract_user_features_sample :
  interests (user_data (extract_user_features Fixture.user_doc))
  = ["data-science"; "algorithms"].
Proof. vm_compute. reflexivity. Qed.





(** One keyword of the mapping may name a subject that another keyword
    has already given: the domains of a mentor can repeat. *)
Example extract_mentor_features_repeats :
  domains (mentor_profile
             (extract_mentor_features
                (Fixture.mentor_doc "m1" "Programming-Code")))
  = Some ["programming"; "programming"].
Proof. vm_compute. reflexivity. Qed.

Lemma add_subjects_inv (text : string) (l found : list string) :
  exists added,
    fold_left
      (fun found subject =>
         if PyStr.substring_of (replace_hyphen subject) text
            && negb (Py.contains subject found)
         then found ++ [subject] else found)
      l found
    = found ++ added /\
    incl added l /\
    (NoDup found -> NoDup (found ++ added)).
Proof.
  revert found. induction l as [|s l IH]; intros found; simpl.
  - exists []. rewrite app_nil_r. split; [reflexivity|].
    split; [intros x []|auto].
  - destruct (PyStr.substring_of _ _ && negb (Py.contains s found)) eqn:E.
    + destruct (IH (found ++ [s])) as (added & -> & Hincl & Hnd).
      exists (s :: added). rewrite <- app_assoc. split; [reflexivity|].
      split.
      * intros x [<-|Hx]; [now left|right; now apply Hincl].
      * intros Hf. rewrite <- app_assoc in Hnd. apply Hnd.
        apply andb_prop in E as [_ E]. apply negb_true_iff in E.
        apply NoDup_app. split; [exact Hf|]. split.
        -- intros x Hx Hs. apply list_elem_of_In in Hx, Hs.
           destruct Hs as [<-|[]].
           apply DictFacts.contains_In in Hx. congruence.
        -- apply NoDup_singleton.
    + destruct (IH found) as (added & -> & Hincl & Hnd).
      exists added. split; [reflexivity|]. split; [|exact Hnd].
      intros x Hx. right. now apply Hincl.
Qed.

Lemma add_goals_inv (goals : list GoalDoc) (found : list string) :
  exists added,
    fold_left add_goal_interests goals found = found ++ added /\
    incl added subjects /\
    (NoDup found -> NoDup (found ++ added)).
Proof.
  revert found. induction goals as [|goal goals IH]; intros found; simpl.
  - exists []. rewrite app_nil_r. split; [reflexivity|].
    split; [intros x []|auto].
  - unfold add_goal_interests at 2.
    destruct (add_subjects_inv
                (ContentBasedRecommender.lower
                   (default "" (goal_doc_title goal))
                 +:+ " "
                 +:+ ContentBasedRecommender.lower
                       (default "" (goal_doc_description goal)))
                subjects found) as (a1 & -> & Hi1 & Hn1).
    destruct (IH (found ++ a1)) as (a2 & -> & Hi2 & Hn2).
    exists (a1 ++ a2). rewrite <- app_assoc. split; [reflexivity|]. split.
    + apply incl_app; assumption.
    + intros Hf. rewrite app_assoc. auto.
Qed.

(** Enriching the features with goals only adds to the interests: the
    old interests stay in front in their order, what is appended are
    subjects of the fixed list, and interests that were distinct stay
    distinct.  The goal categories become the distinct non-empty
    categories of the goals, and the other keys keep their values. *)
Theorem enrich_user_features_with_goals_spec (user_features : UserFeatures)
    (goals : list GoalDoc) :
  let enriched := enrich_user_features_with_goals user_features goals in
  (exists added,
     interests (user_data enriched)
     = interests (user_data user_features) ++ added /\
     incl added subjects /\
     (NoDup (interests (user_data user_features)) ->
      NoDup (interests (user_data enriched)))) /\
  NoDup (goal_categories (user_data enriched)) /\
  (forall category,
     In category (goal_categories (user_data enriched)) <->
     category <> "" /\
     exists goal, In goal goals /\ goal_doc_category goal = Some category) /\
  skill_level (user_data enriched) = skill_level (user_data user_features) /\
  streak (user_data enriched) = streak (user_data user_features) /\
  user_id enriched = user_id user_features /\
  activity_score enriched = activity_score user_features /\
  bio enriched = bio user_features.
Proof.
  cbv zeta. unfold enrich_user_features_with_goals.
  cbn [user_data interests goal_categories skill_level streak user_id
       activity_score bio].
  split; [|split; [|split; [|repeat split]]].
  - destruct (add_goals_inv goals (interests (user_data user_features)))
      as (added & Heq & Hincl & Hnd).
    exists added. rewrite Heq. auto.
  - apply DictFacts.dedup_NoDup.
  - intros category. unfold get_user_goal_categories.
    rewrite DictFacts.dedup_In, <- list_elem_of_In, list_elem_of_omap.
    split.
    + intros [(goal & Hgoal & Hc) _].
      destruct (goal_doc_category goal) as [c|] eqn:Ec; [|discriminate].
      destruct (String.eqb c "") eqn:E; [discriminate|].
      injection Hc as ->. apply String.eqb_neq in E.
      split; [exact E|]. exists goal. split; [now apply list_elem_of_In|].
      exact Ec.
    + intros [Hne (goal & Hgoal & Hc)]. split; [|intros []].
      exists goal. split; [now apply list_elem_of_In|].
      rewrite Hc. apply String.eqb_neq in Hne. now rewrite Hne.
Qed.

Lemma enrich_user_features_with_goals_spec_witness :
  NoDup
    (interests
       (user_data
          (enrich_user_features_with_goals
             (extract_user_features Fixture.user_doc)
             [Fixture.goal_doc "career" "Learn Web Development"]))).
Proof.
  destruct (proj1 (enrich_user_features_with_goals_spec
                     (extract_user_features Fixture.user_doc)
                     [Fixture.goal_doc "career" "Learn Web Development"]))
    as (added & _ & _ & Hnd).
  apply Hnd.
  repeat (constructor;
          [rewrite list_elem_of_In; simpl; intuition discriminate|]).
  constructor.
Defined.

Example enrich_user_features_with_goals_sample :
  interests
    (user_data
       (enrich_user_features_with_goals
          (extract_user_features Fixture.user_doc)
          [Fixture.goal_doc "career" "Learn Web Development";
           Fixture.goal_doc "" "machine-learning"]))
  = ["data-science"; "algorithms"; "web-development"].
Proof. vm_compute. reflexivity. Qed.

End FeatureFacts.
